(** * Model catalog synchronisation: reconcilers, change detectors, inclusion
    filter and sync drivers

  Shallow embedding of
  - [packages/core/script/generate-venice.ts]  (module [Venice]),
  - the Vercel generator script                (module [Vercel]),
  - [providers/cloudflare-ai-gateway/scripts/utils.sh] (module [Cloudflare]),
  - [packages/core/src/family.ts]              (module [Family]).

  Conventions of the embedding.
  - A JavaScript [number] holding a token count or a timestamp is a [Z];
    a price is an IEEE 754 binary64 value with the operations of the
    standard ([Double]), rounding, NaN and the infinities included.
  - A JavaScript string is a [string] of 8-bit characters; [toLowerCase]
    folds the ASCII letters.
  - An optional field [f?: T] is an [option T]; [undefined] is [None].
  - The clock ([getTodayDate]) is an explicit argument [today]; the
    calendar conversion of [Date] and [parseFloat] belong to the host
    ([JsHost]).
  - The on-disk store maps a path to what [import] reads from the file
    there; the TOML text itself is not modelled, and what is read from a
    file the run wrote belongs to the host ([TomlHost]). *)

From Stdlib Require Import ZArith QArith Qabs String Ascii List Bool Lia.
From Stdlib Require Import Sorted Permutation DecimalString DecimalPos.
From Stdlib Require Import Floats.SpecFloat.
From stdpp Require Import base option list gmap strings.
Import ListNotations.

#[local] Open Scope string_scope.
#[local] Open Scope Z_scope.

(* ===================================================================== *)
(** ** JavaScript numbers that carry a price *)
(* ===================================================================== *)

Module Double.

(** A binary64 value: a zero, an infinity, NaN, or a sign, a mantissa and
    an exponent in the one form the format has for the number
    ([valid_binary]), which is the form the operations give. *)
Definition number : Type := spec_float.

Definition prec : Z := 53.
Definition emax : Z := 1024.

(** [a - b], [a * b], [a / b], rounded to nearest, ties to even *)
Definition sub (a b : number) : number := SFsub prec emax a b.
Definition mul (a b : number) : number := SFmul prec emax a b.
Definition div (a b : number) : number := SFdiv prec emax a b.

(** [Math.abs(a)] *)
Definition abs (a : number) : number := SFabs a.

(** [a > b] *)
Definition gtb (a b : number) : bool := SFltb b a.

(** [a === b] on numbers: the two zeros are equal, NaN equals nothing. *)
Definition eqb (a b : number) : bool := SFeqb a b.

(** The number an integer literal denotes. *)
Definition of_Z (n : Z) : number := binary_normalize prec emax n 0 false.

Definition zero : number := S754_zero false.

Definition is_nan_or_infinite (a : number) : bool :=
  match a with
  | S754_nan | S754_infinity _ => true
  | S754_zero _ | S754_finite _ _ _ => false
  end.

(** [JSON.stringify(a) === JSON.stringify(b)] on numbers: NaN and the
    infinities all print as [null], both zeros as [0], and any other number
    with digits that identify it. *)
Definition json_eqb (a b : number) : bool :=
  match a, b with
  | S754_zero _, S754_zero _ => true
  | S754_finite s m e, S754_finite s' m' e' =>
      Bool.eqb s s' && Pos.eqb m m' && Z.eqb e e'
  | _, _ => is_nan_or_infinite a && is_nan_or_infinite b
  end.

(** The two numbers print alike. *)
Definition same (a b : number) : Prop :=
  a = b \/
  (exists s s', a = S754_zero s /\ b = S754_zero s') \/
  (is_nan_or_infinite a = true /\ is_nan_or_infinite b = true).

(** The exact value of a finite number. *)
Definition to_Q (a : number) : Q :=
  match a with
  | S754_finite s m e =>
      let magnitude :=
        match e with
        | Zneg k => Zpos m # (2 ^ k)
        | _ => inject_Z (Zpos m * 2 ^ e)
        end in
      if s then (- magnitude)%Q else magnitude
  | _ => 0%Q
  end.

End Double.

(* ===================================================================== *)
(** ** JavaScript values and string primitives *)
(* ===================================================================== *)

Module Js.

(** [c.toLowerCase()] on one ASCII character. *)
Definition lower_ascii (c : ascii) : ascii :=
  let n := nat_of_ascii c in
  if ((65 <=? n)%nat && (n <=? 90)%nat)%bool then ascii_of_nat (n + 32) else c.

(** [s.toLowerCase()] *)
Fixpoint toLowerCase (s : string) : string :=
  match s with
  | EmptyString => EmptyString
  | String c s' => String (lower_ascii c) (toLowerCase s')
  end.

(** [s.startsWith(p)] *)
Fixpoint startsWith (s p : string) : bool :=
  match p, s with
  | EmptyString, _ => true
  | String a p', String b s' => Ascii.eqb a b && startsWith s' p'
  | String _ _, EmptyString => false
  end.

(** [s.includes(sub)] *)
Fixpoint includes (s sub : string) : bool :=
  startsWith s sub ||
  match s with
  | EmptyString => false
  | String _ s' => includes s' sub
  end.

(** [s.endsWith(p)] *)
Definition endsWith (s p : string) : bool :=
  let ls := String.length s in
  let lp := String.length p in
  (lp <=? ls)%nat && String.eqb (substring (ls - lp) lp s) p.

(** Truthiness of a string: the empty string is falsy. *)
Definition truthy (s : string) : bool := negb (String.eqb s "").

(** Truthiness of an optional string: [undefined] and [""] are falsy. *)
Definition otruthy (o : option string) : bool :=
  match o with Some s => truthy s | None => false end.

(** [arr.includes(x)] on an array of strings. *)
Definition arr_includes (l : list string) (x : string) : bool :=
  existsb (String.eqb x) l.

(** [a ?? b] *)
Definition nullish {A} (a : option A) (b : A) : A :=
  match a with Some x => x | None => b end.

(** [a ?? b] where [b] may itself be [undefined]. *)
Definition nullish_opt {A} (a b : option A) : option A :=
  match a with Some x => Some x | None => b end.

(** The values that reach the change detectors' [compare] as [unknown]. *)
Inductive unknown : Type :=
| VUndefined
| VBool (b : bool)
| VInt (n : Z)
| VNum (x : Double.number)
| VStr (s : string)
| VArr (l : list string).

Definition of_bool (o : option bool) : unknown :=
  match o with Some b => VBool b | None => VUndefined end.
Definition of_str (o : option string) : unknown :=
  match o with Some s => VStr s | None => VUndefined end.
Definition of_int (o : option Z) : unknown :=
  match o with Some n => VInt n | None => VUndefined end.
Definition of_num (o : option Double.number) : unknown :=
  match o with Some x => VNum x | None => VUndefined end.
Definition of_arr (o : option (list string)) : unknown :=
  match o with Some l => VArr l | None => VUndefined end.

Fixpoint list_eqb (l1 l2 : list string) : bool :=
  match l1, l2 with
  | [], [] => true
  | x :: l1', y :: l2' => String.eqb x y && list_eqb l1' l2'
  | _, _ => false
  end.

(** [JSON.stringify(a) === JSON.stringify(b)].  On the values above the
    serialisation is injective, except that the two zeros print alike and
    that NaN and the infinities all print as [null], so the comparison of
    the two texts is the comparison of the two values up to that.  A token
    count ([VInt]) and a price ([VNum]) are fields of their own and never
    meet in a comparison. *)
Definition json_eqb (a b : unknown) : bool :=
  match a, b with
  | VUndefined, VUndefined => true
  | VBool x, VBool y => Bool.eqb x y
  | VInt x, VInt y => Z.eqb x y
  | VNum x, VNum y => Double.json_eqb x y
  | VStr x, VStr y => String.eqb x y
  | VArr x, VArr y => list_eqb x y
  | _, _ => false
  end.

(** Two optional prices print alike: both absent, or both present and the
    same number in print. *)
Definition same_price (a b : option Double.number) : Prop :=
  match a, b with
  | Some x, Some y => Double.same x y
  | None, None => True
  | _, _ => False
  end.

(** The host functions the scripts call but do not define. *)
Class JsHost : Type := {
  (** [new Date(ms).toISOString().slice(0, 10)] *)
  isoDate : Z -> string;
  (** [parseFloat(s)] *)
  parseFloat : string -> Double.number
}.

(** The file-system functions of the runtime.  A store maps the path of a
    file to its content, of some type [F]. *)
Class FsHost : Type := {
  (** [path.join(dir, rel)] *)
  path_join : string -> string -> string;
  (** [new Bun.Glob("**/*.toml").scan({ cwd: dir, absolute: false })]: the
      relative paths found, in scan order *)
  glob_toml : forall F : Type, string -> gmap string F -> list string;
  (** [readdir(dir)]: the entry names, in directory order *)
  readdir : forall F : Type, string -> gmap string F -> list string
}.

(** [timestampToDate], identical in both generator scripts. *)
Definition timestampToDate `{JsHost} (timestamp : Z) : string :=
  isoDate (timestamp * 1000).

End Js.

(* ===================================================================== *)
(** ** Family tags ([family.ts]) and the matching primitives *)
(* ===================================================================== *)

Module Family.

(** [ModelFamilyValues], in declaration order. *)
Definition ModelFamilyValues : list string :=
  ["trinity"; "trinity-mini"; "gpt"; "gpt-codex"; "gpt-codex-spark";
   "gpt-codex-mini"; "gpt-pro"; "gpt-mini"; "gpt-nano"; "gpt-oss"; "o";
   "o-mini"; "o-pro"; "claude"; "claude-haiku"; "claude-sonnet";
   "claude-opus"; "gemini"; "gemini-pro"; "gemini-flash";
   "gemini-flash-lite"; "gemini-embedding"; "glm"; "glmv"; "glm-air";
   "glm-flash"; "glm-free"; "glm-z"; "llama"; "qwen"; "deepseek";
   "deepseek-thinking"; "phi"; "kimi"; "kimi-free"; "kimi-thinking";
   "mistral"; "mistral-large"; "mistral-medium"; "mistral-small";
   "mistral-nemo"; "ministral"; "codestral"; "devstral"; "pixtral";
   "mixtral"; "grok"; "grok-vision"; "grok-beta"; "gemma"; "nova";
   "nova-pro"; "nova-lite"; "nova-micro"; "command"; "command-r";
   "command-a"; "command-light"; "jamba"; "nemotron"; "titan";
   "titan-embed"; "minimax"; "minimax-free"; "hunyuan"; "yi"; "granite";
   "reka"; "sonar"; "sonar-pro"; "sonar-reasoning"; "sonar-deep-research";
   "solar"; "solar-mini"; "solar-pro"; "exaone"; "step"; "text-embedding";
   "cohere-embed"; "voyage"; "mistral-embed"; "bge"; "plamo";
   "codestral-embed"; "dall-e"; "flux"; "imagen"; "recraft";
   "stable-diffusion"; "ideogram"; "dreamshaper"; "sora"; "veo"; "runway";
   "dream-machine"; "whisper"; "elevenlabs"; "lyria"; "melotts"; "ernie";
   "hermes"; "zephyr"; "openchat"; "starling"; "qvq"; "sherlock"; "pony";
   "mercury"; "cogito"; "mimo"; "longcat"; "magistral"; "magistral-small";
   "magistral-medium"; "phoenix"; "trinity"; "lucid"; "intellect"; "aura";
   "jais"; "sarvam"; "falcon"; "baichuan"; "skywork"; "bart"; "distilbert";
   "resnet"; "m2m"; "indictrans"; "llava"; "seed"; "ray"; "tstars"; "rnj";
   "ling"; "ring"; "kat-coder"; "sqlcoder"; "discolm"; "osmosis";
   "parakeet"; "nemoretriever"; "nano-banana"; "una-cybertron"; "morph";
   "voxtral"; "venice"; "auto"; "model-router"; "v0"; "tako"; "mai";
   "rednote"; "smart-turn"; "qwerky"; "big-pickle"; "chutesai";
   "opengvlab"; "tngtech"; "topazlabs"; "unsloth"; "nousresearch"; "alpha";
   "oswe"; "neural-chat"; "pangu"; "liquid"; "sourceful"; "allenai";
   "palmyra"].

(** Insertion of [x] behind every element at least as long: one step of a
    stable sort under the comparator [(a, b) => b.length - a.length]. *)
Fixpoint insert_by_length (x : string) (l : list string) : list string :=
  match l with
  | [] => [x]
  | y :: l' =>
      if (String.length y <? String.length x)%nat then x :: y :: l'
      else y :: insert_by_length x l'
  end.

(** [[...xs].sort((a, b) => b.length - a.length)]; [Array.prototype.sort]
    is stable. *)
Definition sort_by_length_desc (xs : list string) : list string :=
  fold_left (fun acc x => insert_by_length x acc) xs [].

Definition sortedFamilies : list string :=
  Eval vm_compute in sort_by_length_desc ModelFamilyValues.

(** The loop of [matchesFamily] (the same function in both generator
    scripts): walk [target], consuming [family] in order; the result is
    [familyIdx === familyLower.length]. *)
Fixpoint subsequence (target family : string) : bool :=
  match target with
  | EmptyString => match family with EmptyString => true | _ => false end
  | String t target' =>
      match family with
      | EmptyString => true
      | String f family' =>
          if Ascii.eqb t f then subsequence target' family'
          else subsequence target' family
      end
  end.

Definition matchesFamily (target family : string) : bool :=
  subsequence (Js.toLowerCase target) (Js.toLowerCase family).

Definition isSubstring (target family : string) : bool :=
  Js.includes (Js.toLowerCase target) (Js.toLowerCase family).

(** [for (const family of families) if (p(family)) return family] *)
Definition first_match (p : string -> bool) (families : list string)
  : option string := List.find p families.

End Family.


(* ===================================================================== *)
(** ** Venice generator ([generate-venice.ts]) *)
(* ===================================================================== *)

Module Venice.
Import Js.

(** *** API payload (the zod schemas) *)

Record Capabilities : Type := {
  optimizedForCode : option bool;
  quantization : option string;
  supportsAudioInput : option bool;
  supportsFunctionCalling : option bool;
  supportsLogProbs : option bool;
  supportsReasoning : option bool;
  supportsResponseSchema : option bool;
  supportsVideoInput : option bool;
  supportsVision : option bool;
  supportsWebSearch : option bool
}.

Record PricingTier : Type := { usd : Double.number; diem : option Double.number }.

Record ExtendedPricing : Type := {
  context_token_threshold : Z;
  ext_input : PricingTier;
  ext_output : PricingTier;
  ext_cache_input : option PricingTier;
  ext_cache_write : option PricingTier
}.

Record Pricing : Type := {
  p_input : PricingTier;
  p_output : PricingTier;
  p_cache_input : option PricingTier;
  p_cache_write : option PricingTier;
  extended : option ExtendedPricing
}.

Record ModelSpec : Type := {
  pricing : option Pricing;
  availableContextTokens : Z;
  capabilities : Capabilities;
  spec_name : string;
  modelSource : option string;
  offline : option bool;
  privacy : option string;
  traits : option (list string)
}.

Record VeniceModel : Type := {
  created : Z;
  id : string;
  model_spec : ModelSpec;
  object_ : string;
  owned_by : string;
  type_ : string
}.

(** *** Persisted and merged records *)

(** [boolean | { field: string }] *)
Inductive Interleaved : Type :=
| IBool (b : bool)
| IField (field : string).

Record ExistingCostTier : Type := {
  xt_input : option Double.number;
  xt_output : option Double.number;
  xt_cache_read : option Double.number;
  xt_cache_write : option Double.number
}.

Record ExistingCost : Type := {
  xc_input : option Double.number;
  xc_output : option Double.number;
  xc_reasoning : option Double.number;
  xc_cache_read : option Double.number;
  xc_cache_write : option Double.number;
  xc_context_over_200k : option ExistingCostTier
}.

Record ExistingLimit : Type := {
  xl_context : option Z;
  xl_input : option Z;
  xl_output : option Z
}.

Record ExistingModalities : Type := {
  xm_input : option (list string);
  xm_output : option (list string)
}.

Record ExistingProvider : Type := { npm : option string; api : option string }.

Record ExistingModel : Type := {
  x_name : option string;
  x_family : option string;
  x_attachment : option bool;
  x_reasoning : option bool;
  x_tool_call : option bool;
  x_structured_output : option bool;
  x_temperature : option bool;
  x_knowledge : option string;
  x_release_date : option string;
  x_last_updated : option string;
  x_open_weights : option bool;
  x_interleaved : option Interleaved;
  x_status : option string;
  x_cost : option ExistingCost;
  x_limit : option ExistingLimit;
  x_modalities : option ExistingModalities;
  x_provider : option ExistingProvider
}.

Record CostTier : Type := {
  t_input : Double.number;
  t_output : Double.number;
  t_cache_read : option Double.number;
  t_cache_write : option Double.number
}.

Record Cost : Type := {
  c_input : Double.number;
  c_output : Double.number;
  c_cache_read : option Double.number;
  c_cache_write : option Double.number;
  c_context_over_200k : option CostTier
}.

Record Limit : Type := { context : Z; output : Z }.

Record Modalities : Type := { input : list string; m_output : list string }.

Record MergedModel : Type := {
  name : string;
  family : option string;
  attachment : bool;
  reasoning : bool;
  tool_call : bool;
  structured_output : option bool;
  temperature : bool;
  knowledge : option string;
  release_date : string;
  last_updated : string;
  open_weights : bool;
  interleaved : option Interleaved;
  status : option string;
  cost : option Cost;
  limit : Limit;
  modalities : Modalities
}.

(** *** Family inference: subsequence tiers only *)

Definition inferFamily (modelId modelName : string) : option string :=
  match Family.first_match (Family.matchesFamily modelId) Family.sortedFamilies with
  | Some family => Some family
  | None => Family.first_match (Family.matchesFamily modelName) Family.sortedFamilies
  end.

(** [x === true] and the truthiness of an optional boolean coincide. *)
Definition is_true (o : option bool) : bool :=
  match o with Some true => true | _ => false end.

Definition buildInputModalities (caps : Capabilities) : list string :=
  (["text"]
    ++ (if is_true (supportsVision caps) then ["image"] else [])
    ++ (if is_true (supportsAudioInput caps) then ["audio"] else [])
    ++ (if is_true (supportsVideoInput caps) then ["video"] else []))%list.

(** [existing?.limit?.output] *)
Definition existing_limit_output (existing : option ExistingModel) : option Z :=
  e ← existing; l ← x_limit e; xl_output l.

(** [existing?.modalities?.input] *)
Definition existing_modalities_input (existing : option ExistingModel)
  : option (list string) :=
  e ← existing; m ← x_modalities e; xm_input m.

(** [Math.floor(contextTokens / 4)], the freshly computed proposal for
    [limit.output]. *)
Definition proposedOutputTokens (apiModel : VeniceModel) : Z :=
  availableContextTokens (model_spec apiModel) / 4.

(** *** [mergeModel] *)

Definition mergeModel `{JsHost} (today : string)
    (apiModel : VeniceModel) (existing : option ExistingModel) : MergedModel :=
  let spec := model_spec apiModel in
  let caps := capabilities spec in
  let contextTokens := availableContextTokens spec in
  let proposed := proposedOutputTokens apiModel in
  let outputTokens :=
    match existing_limit_output existing with
    | Some o => if o <? proposed then o else proposed
    | None => proposed
    end in
  let openWeights :=
    if otruthy (modelSource spec)
    then includes (toLowerCase (nullish (modelSource spec) "")) "huggingface"
    else match privacy spec with
         | Some p => String.eqb p "private"
         | None => false
         end in
  let inputModalities0 := buildInputModalities caps in
  let inputModalities :=
    if match existing_modalities_input existing with
       | Some l => arr_includes l "pdf"
       | None => false
       end && negb (arr_includes inputModalities0 "pdf")
    then (inputModalities0 ++ ["pdf"])%list
    else inputModalities0 in
  let attachment :=
    is_true (supportsVision caps) || is_true (supportsAudioInput caps)
    || is_true (supportsVideoInput caps) in
  let cost :=
    match pricing spec with
    | None => None
    | Some p =>
        Some {| c_input := usd (p_input p);
                c_output := usd (p_output p);
                c_cache_read := usd <$> p_cache_input p;
                c_cache_write := usd <$> p_cache_write p;
                c_context_over_200k :=
                  match extended p with
                  | None => None
                  | Some x =>
                      Some {| t_input := usd (ext_input x);
                              t_output := usd (ext_output x);
                              t_cache_read := usd <$> ext_cache_input x;
                              t_cache_write := usd <$> ext_cache_write x |}
                  end |}
    end in
  let inferred := inferFamily (id apiModel) (spec_name spec) in
  {| name := spec_name spec;
     family := nullish_opt inferred (existing ≫= x_family);
     attachment := attachment;
     reasoning := is_true (supportsReasoning caps);
     tool_call := is_true (supportsFunctionCalling caps);
     structured_output :=
       if is_true (supportsResponseSchema caps) then Some true else None;
     temperature := true;
     knowledge :=
       if otruthy (existing ≫= x_knowledge) then existing ≫= x_knowledge else None;
     release_date := timestampToDate (created apiModel);
     last_updated := today;
     open_weights := openWeights;
     interleaved := existing ≫= x_interleaved;
     status := existing ≫= x_status;
     cost := cost;
     limit := {| context := contextTokens; output := outputTokens |};
     modalities := {| input := inputModalities; m_output := ["text"] |} |}.

(** *** [detectChanges] *)

(** One reported change.  [formatValue] only renders the two values for the
    log, so the record keeps the values themselves. *)
Record Changes : Type := {
  field : string;
  oldValue : unknown;
  newValue : unknown
}.

(** The closure [compare]: exact comparison of the serialised values;
    [changes.push] is the returned list. *)
Definition compare (changes : list Changes) (field : string)
    (oldVal newVal : unknown) : list Changes :=
  if negb (json_eqb oldVal newVal)
  then (changes ++ [{| field := field; oldValue := oldVal; newValue := newVal |}])%list
  else changes.

(** [existing.cost?.context_over_200k] *)
Definition x_over (e : ExistingModel) : option ExistingCostTier :=
  c ← x_cost e; xc_context_over_200k c.

(** [merged.cost?.context_over_200k] *)
Definition over (m : MergedModel) : option CostTier :=
  c ← cost m; c_context_over_200k c.

Definition detectChanges (existing : option ExistingModel) (merged : MergedModel)
  : list Changes :=
  match existing with
  | None => []
  | Some existing =>
      let changes := [] in
      let changes := compare changes "name" (of_str (x_name existing)) (VStr (name merged)) in
      let changes := compare changes "family" (of_str (x_family existing)) (of_str (family merged)) in
      let changes := compare changes "attachment" (of_bool (x_attachment existing)) (VBool (attachment merged)) in
      let changes := compare changes "reasoning" (of_bool (x_reasoning existing)) (VBool (reasoning merged)) in
      let changes := compare changes "tool_call" (of_bool (x_tool_call existing)) (VBool (tool_call merged)) in
      let changes := compare changes "structured_output" (of_bool (x_structured_output existing)) (of_bool (structured_output merged)) in
      let changes := compare changes "open_weights" (of_bool (x_open_weights existing)) (VBool (open_weights merged)) in
      let changes := compare changes "release_date" (of_str (x_release_date existing)) (VStr (release_date merged)) in
      let changes := compare changes "cost.input" (of_num (x_cost existing ≫= xc_input)) (of_num (c_input <$> cost merged)) in
      let changes := compare changes "cost.output" (of_num (x_cost existing ≫= xc_output)) (of_num (c_output <$> cost merged)) in
      let changes := compare changes "cost.cache_read" (of_num (x_cost existing ≫= xc_cache_read)) (of_num (cost merged ≫= c_cache_read)) in
      let changes := compare changes "cost.cache_write" (of_num (x_cost existing ≫= xc_cache_write)) (of_num (cost merged ≫= c_cache_write)) in
      let changes := compare changes "cost.context_over_200k.input" (of_num (x_over existing ≫= xt_input)) (of_num (t_input <$> over merged)) in
      let changes := compare changes "cost.context_over_200k.output" (of_num (x_over existing ≫= xt_output)) (of_num (t_output <$> over merged)) in
      let changes := compare changes "cost.context_over_200k.cache_read" (of_num (x_over existing ≫= xt_cache_read)) (of_num (over merged ≫= t_cache_read)) in
      let changes := compare changes "cost.context_over_200k.cache_write" (of_num (x_over existing ≫= xt_cache_write)) (of_num (over merged ≫= t_cache_write)) in
      let changes := compare changes "limit.context" (of_int (x_limit existing ≫= xl_context)) (VInt (context (limit merged))) in
      let changes := compare changes "limit.output" (of_int (x_limit existing ≫= xl_output)) (VInt (output (limit merged))) in
      let changes := compare changes "modalities.input" (of_arr (x_modalities existing ≫= xm_input)) (VArr (input (modalities merged))) in
      changes
  end.

(** The [compare] calls of [detectChanges] as data: field name, old value
    and new value, in call order. *)
Definition calls (existing : ExistingModel) (merged : MergedModel)
  : list (string * unknown * unknown) :=
  [ ("name", of_str (x_name existing), VStr (name merged));
    ("family", of_str (x_family existing), of_str (family merged));
    ("attachment", of_bool (x_attachment existing), VBool (attachment merged));
    ("reasoning", of_bool (x_reasoning existing), VBool (reasoning merged));
    ("tool_call", of_bool (x_tool_call existing), VBool (tool_call merged));
    ("structured_output", of_bool (x_structured_output existing), of_bool (structured_output merged));
    ("open_weights", of_bool (x_open_weights existing), VBool (open_weights merged));
    ("release_date", of_str (x_release_date existing), VStr (release_date merged));
    ("cost.input", of_num (x_cost existing ≫= xc_input), of_num (c_input <$> cost merged));
    ("cost.output", of_num (x_cost existing ≫= xc_output), of_num (c_output <$> cost merged));
    ("cost.cache_read", of_num (x_cost existing ≫= xc_cache_read), of_num (cost merged ≫= c_cache_read));
    ("cost.cache_write", of_num (x_cost existing ≫= xc_cache_write), of_num (cost merged ≫= c_cache_write));
    ("cost.context_over_200k.input", of_num (x_over existing ≫= xt_input), of_num (t_input <$> over merged));
    ("cost.context_over_200k.output", of_num (x_over existing ≫= xt_output), of_num (t_output <$> over merged));
    ("cost.context_over_200k.cache_read", of_num (x_over existing ≫= xt_cache_read), of_num (over merged ≫= t_cache_read));
    ("cost.context_over_200k.cache_write", of_num (x_over existing ≫= xt_cache_write), of_num (over merged ≫= t_cache_write));
    ("limit.context", of_int (x_limit existing ≫= xl_context), VInt (context (limit merged)));
    ("limit.output", of_int (x_limit existing ≫= xl_output), VInt (output (limit merged)));
    ("modalities.input", of_arr (x_modalities existing ≫= xm_input), VArr (input (modalities merged))) ].

(** Whether [compare] pushes a change: the guard of its [changes.push]. *)
Definition reported (a b : unknown) : bool := negb (json_eqb a b).

(** A merged record read as the persisted record of the next run: the
    structural view of a [MergedModel] as an [ExistingModel]. *)
Definition asExisting (m : MergedModel) : ExistingModel :=
  {| x_name := Some (name m);
     x_family := family m;
     x_attachment := Some (attachment m);
     x_reasoning := Some (reasoning m);
     x_tool_call := Some (tool_call m);
     x_structured_output := structured_output m;
     x_temperature := Some (temperature m);
     x_knowledge := knowledge m;
     x_release_date := Some (release_date m);
     x_last_updated := Some (last_updated m);
     x_open_weights := Some (open_weights m);
     x_interleaved := interleaved m;
     x_status := status m;
     x_cost :=
       (fun c =>
          {| xc_input := Some (c_input c);
             xc_output := Some (c_output c);
             xc_reasoning := None;
             xc_cache_read := c_cache_read c;
             xc_cache_write := c_cache_write c;
             xc_context_over_200k :=
               (fun t =>
                  {| xt_input := Some (t_input t);
                     xt_output := Some (t_output t);
                     xt_cache_read := t_cache_read t;
                     xt_cache_write := t_cache_write t |})
               <$> c_context_over_200k c |})
       <$> cost m;
     x_limit :=
       Some {| xl_context := Some (context (limit m));
               xl_input := None;
               xl_output := Some (output (limit m)) |};
     x_modalities :=
       Some {| xm_input := Some (input (modalities m));
               xm_output := Some (m_output (modalities m)) |};
     x_provider := None |}.

(** *** [formatToml], read back

    The document the emitted text lays out: which keys and sections
    [formatToml] writes, with the values it writes.  Whether a reader
    obtains these values from the text (the strings are written between
    quotes as they are, the numbers as JavaScript prints them) is
    [reads_back] of the drivers. *)

Definition written_interleaved (i : option Interleaved) : option Interleaved :=
  match i with
  | Some (IBool true) => Some (IBool true)
  | Some (IField f) => Some (IField f)
  | Some (IBool false) => None
  | None => None
  end.

Definition formatToml (model : MergedModel) : ExistingModel :=
  {| x_name := Some (name model);
     x_family := if otruthy (family model) then family model else None;
     x_attachment := Some (attachment model);
     x_reasoning := Some (reasoning model);
     x_tool_call := Some (tool_call model);
     x_structured_output := structured_output model;
     x_temperature := Some (temperature model);
     x_knowledge := if otruthy (knowledge model) then knowledge model else None;
     x_release_date := Some (release_date model);
     x_last_updated := Some (last_updated model);
     x_open_weights := Some (open_weights model);
     x_interleaved := written_interleaved (interleaved model);
     x_status := if otruthy (status model) then status model else None;
     x_cost :=
       (fun c =>
          {| xc_input := Some (c_input c);
             xc_output := Some (c_output c);
             xc_reasoning := None;
             xc_cache_read := c_cache_read c;
             xc_cache_write := c_cache_write c;
             xc_context_over_200k :=
               (fun t =>
                  {| xt_input := Some (t_input t);
                     xt_output := Some (t_output t);
                     xt_cache_read := t_cache_read t;
                     xt_cache_write := t_cache_write t |})
               <$> c_context_over_200k c |})
       <$> cost model;
     x_limit :=
       Some {| xl_context := Some (context (limit model));
               xl_input := None;
               xl_output := Some (output (limit model)) |};
     x_modalities :=
       Some {| xm_input := Some (input (modalities model));
               xm_output := Some (m_output (modalities model)) |};
     x_provider := None |}.

(** *** Agreement of a persisted and a merged record outside the cost block *)

Definition agree_elsewhere (e : ExistingModel) (m : MergedModel) : Prop :=
  x_name e = Some (name m) /\
  x_family e = family m /\
  x_attachment e = Some (attachment m) /\
  x_reasoning e = Some (reasoning m) /\
  x_tool_call e = Some (tool_call m) /\
  x_structured_output e = structured_output m /\
  x_open_weights e = Some (open_weights m) /\
  x_release_date e = Some (release_date m) /\
  x_limit e ≫= xl_context = Some (context (limit m)) /\
  x_limit e ≫= xl_output = Some (output (limit m)) /\
  x_modalities e ≫= xm_input = Some (input (modalities m)).

End Venice.

(* ===================================================================== *)
(** ** Vercel generator *)
(* ===================================================================== *)

Module Vercel.
Import Js.

(** *** API payload (the zod schemas) *)

Inductive ModelType : Type := Language | Embedding | Image | Video.

Record PricingTier : Type := {
  tier_cost : string;
  tier_min : Double.number;
  tier_max : option Double.number
}.

Record Pricing : Type := {
  p_input : option string;
  p_output : option string;
  input_cache_read : option string;
  input_cache_write : option string;
  input_tiers : option (list PricingTier);
  output_tiers : option (list PricingTier);
  input_cache_read_tiers : option (list PricingTier);
  input_cache_write_tiers : option (list PricingTier)
}.

Record VercelModel : Type := {
  id : string;
  api_name : string;
  created : Z;
  released : option Z;
  context_window : Z;
  max_tokens : Z;
  type_ : ModelType;
  tags : list string;
  pricing : option Pricing
}.

(** *** Persisted and merged records *)

Inductive Interleaved : Type :=
| IBool (b : bool)
| IField (field : string).

Record ExistingCost : Type := {
  xc_input : option Double.number;
  xc_output : option Double.number;
  xc_cache_read : option Double.number;
  xc_cache_write : option Double.number
}.

Record ExistingLimit : Type := {
  xl_context : option Z;
  xl_output : option Z
}.

Record ExistingModalities : Type := {
  xm_input : option (list string);
  xm_output : option (list string)
}.

Record ExistingModel : Type := {
  x_name : option string;
  x_family : option string;
  x_attachment : option bool;
  x_reasoning : option bool;
  x_tool_call : option bool;
  x_structured_output : option bool;
  x_temperature : option bool;
  x_knowledge : option string;
  x_release_date : option string;
  x_last_updated : option string;
  x_open_weights : option bool;
  x_interleaved : option Interleaved;
  x_status : option string;
  x_cost : option ExistingCost;
  x_limit : option ExistingLimit;
  x_modalities : option ExistingModalities
}.

Record Cost : Type := {
  c_input : Double.number;
  c_output : Double.number;
  c_cache_read : option Double.number;
  c_cache_write : option Double.number
}.

Record Limit : Type := { context : Z; output : Z }.

Record Modalities : Type := { input : list string; m_output : list string }.

Record MergedModel : Type := {
  name : string;
  family : option string;
  attachment : bool;
  reasoning : bool;
  tool_call : bool;
  structured_output : option bool;
  temperature : bool;
  knowledge : option string;
  release_date : string;
  last_updated : string;
  open_weights : bool;
  interleaved : option Interleaved;
  status : option string;
  cost : option Cost;
  limit : Limit;
  modalities : Modalities
}.

(** *** Family inference: substring tiers, then subsequence tiers *)

Definition or_else {A} (a : option A) (b : option A) : option A :=
  match a with Some x => Some x | None => b end.

Definition inferFamily (modelId modelName : string) : option string :=
  or_else (Family.first_match (Family.isSubstring modelId) Family.sortedFamilies)
 (or_else (Family.first_match (Family.isSubstring modelName) Family.sortedFamilies)
 (or_else (Family.first_match (Family.matchesFamily modelId) Family.sortedFamilies)
          (Family.first_match (Family.matchesFamily modelName) Family.sortedFamilies))).

Definition buildInputModalities (tags : list string) : list string :=
  (["text"]
    ++ (if arr_includes tags "vision" then ["image"] else [])
    ++ (if arr_includes tags "file-input" then ["pdf"] else []))%list.

Definition is_image (t : ModelType) : bool :=
  match t with Image => true | _ => false end.
Definition is_video (t : ModelType) : bool :=
  match t with Video => true | _ => false end.

Definition buildOutputModalities (modelType : ModelType) (tags : list string)
  : list string :=
  (["text"]
    ++ (if is_image modelType || arr_includes tags "image-generation"
        then ["image"]
        else if is_video modelType then ["video"] else []))%list.

(** [tiers?.[0]?.cost ?? flat] *)
Definition first_tier_cost (tiers : option (list PricingTier)) (flat : option string)
  : option string :=
  nullish_opt
    (match tiers with
     | Some (t :: _) => Some (tier_cost t)
     | _ => None
     end) flat.

(** [existing?.limit?.context] and [existing?.limit?.output] *)
Definition existing_limit_context (existing : option ExistingModel) : option Z :=
  e ← existing; l ← x_limit e; xl_context l.
Definition existing_limit_output (existing : option ExistingModel) : option Z :=
  e ← existing; l ← x_limit e; xl_output l.

(** [apiModel.released ? ... : ...]: [undefined] and [0] are falsy. *)
Definition released_truthy (r : option Z) : option Z :=
  match r with
  | Some t => if t =? 0 then None else Some t
  | None => None
  end.

(** [1_000_000] *)
Definition million : Double.number := Eval vm_compute in Double.of_Z 1000000.

(** The [[cost]] block computed from the payload's pricing. *)
Definition mergedCost `{JsHost} (apiModel : VercelModel) : option Cost :=
  match pricing apiModel with
  | None => None
  | Some p =>
      let inputPrice := first_tier_cost (input_tiers p) (p_input p) in
      let outputPrice := first_tier_cost (output_tiers p) (p_output p) in
      let cacheReadPrice :=
        first_tier_cost (input_cache_read_tiers p) (input_cache_read p) in
      let cacheWritePrice :=
        first_tier_cost (input_cache_write_tiers p) (input_cache_write p) in
      match inputPrice, outputPrice with
      | Some i, Some o =>
          if truthy i && truthy o then
            Some {| c_input := Double.mul (parseFloat i) million;
                    c_output := Double.mul (parseFloat o) million;
                    c_cache_read :=
                      match cacheReadPrice with
                      | Some r => if truthy r then Some (Double.mul (parseFloat r) million) else None
                      | None => None
                      end;
                    c_cache_write :=
                      match cacheWritePrice with
                      | Some w => if truthy w then Some (Double.mul (parseFloat w) million) else None
                      | None => None
                      end |}
          else None
      | _, _ => None
      end
  end.

(** *** [mergeModel] *)

Definition mergeModel `{JsHost} (today : string)
    (apiModel : VercelModel) (existing : option ExistingModel) : MergedModel :=
  let has := arr_includes (tags apiModel) in
  let inputModalities := buildInputModalities (tags apiModel) in
  let outputModalities := buildOutputModalities (type_ apiModel) (tags apiModel) in
  let name := nullish (existing ≫= x_name) (api_name apiModel) in
  let attachment :=
    nullish (existing ≫= x_attachment) (has "vision" || has "file-input") in
  let reasoning := nullish (existing ≫= x_reasoning) (has "reasoning") in
  let toolCall := nullish (existing ≫= x_tool_call) (has "tool-use") in
  let openWeights := nullish (existing ≫= x_open_weights) false in
  let family :=
    nullish_opt (existing ≫= x_family) (inferFamily (id apiModel) (api_name apiModel)) in
  let structuredOutput := existing ≫= x_structured_output in
  let knowledge := existing ≫= x_knowledge in
  let interleaved := existing ≫= x_interleaved in
  let status := existing ≫= x_status in
  let releaseDate :=
    match released_truthy (released apiModel) with
    | Some r => timestampToDate r
    | None => nullish (existing ≫= x_release_date) today
    end in
  let contextLimit :=
    if 0 <? context_window apiModel then context_window apiModel
    else nullish (existing_limit_context existing) 0 in
  let outputLimit :=
    if 0 <? max_tokens apiModel then max_tokens apiModel
    else nullish (existing_limit_output existing) 0 in
  {| name := name;
     family := family;
     attachment := attachment;
     reasoning := reasoning;
     tool_call := toolCall;
     structured_output := structuredOutput;
     temperature := true;
     knowledge := if otruthy knowledge then knowledge else None;
     release_date := releaseDate;
     last_updated := today;
     open_weights := openWeights;
     interleaved := interleaved;
     status := if otruthy status then status else None;
     cost := mergedCost apiModel;
     limit := {| context := contextLimit; output := outputLimit |};
     modalities := {| input := inputModalities; m_output := outputModalities |} |}.

(** *** [detectChanges] *)

Record Changes : Type := {
  field : string;
  oldValue : unknown;
  newValue : unknown
}.

(** [Object.values(SkipZeroFields)] *)
Definition SkipZeroFields : list string := ["limit.context"; "limit.output"].

(** price diff to ignore (per million tokens): the number the literal
    [0.001] denotes *)
Definition EPSILON : Double.number := S754_finite false 4611686018427388 (-62).

(** [typeof v === "number" && v === 0] *)
Definition is_zero (v : unknown) : bool :=
  match v with
  | VInt n => n =? 0
  | VNum x => Double.eqb x Double.zero
  | _ => false
  end.

Definition shouldSkipZero (field : string) (oldVal newVal : unknown) : bool :=
  if negb (arr_includes SkipZeroFields field) then false
  else is_zero oldVal || is_zero newVal.

(** [Math.abs(a - b) > EPSILON] *)
Definition exceeds_epsilon (a b : Double.number) : bool :=
  Double.gtb (Double.abs (Double.sub a b)) EPSILON.

Definition is_undefined (v : unknown) : bool :=
  match v with VUndefined => true | _ => false end.

(** [isMaterialPriceDiff].  Only the cost fields reach it, so a defined
    argument is a number (the source casts it [as number]). *)
Definition isMaterialPriceDiff (oldPrice newPrice : unknown) : bool :=
  (* 0 -> undefined is not material (cost removed) *)
  if is_zero oldPrice && is_undefined newPrice then false
  else if negb (is_undefined oldPrice) && negb (is_undefined newPrice) then
    match oldPrice, newPrice with
    | VNum a, VNum b => exceeds_epsilon a b
    | _, _ => false
    end
  else negb (json_eqb oldPrice newPrice).

Definition compare (changes : list Changes) (field : string)
    (oldVal newVal : unknown) : list Changes :=
  if shouldSkipZero field oldVal newVal then changes
  else
    let isDiff :=
      if startsWith field "cost." then isMaterialPriceDiff oldVal newVal
      else negb (json_eqb oldVal newVal) in
    if isDiff
    then (changes ++ [{| field := field; oldValue := oldVal; newValue := newVal |}])%list
    else changes.

Definition detectChanges (existing : option ExistingModel) (merged : MergedModel)
  : list Changes :=
  match existing with
  | None => []
  | Some existing =>
      let changes := [] in
      let changes := compare changes "name" (of_str (x_name existing)) (VStr (name merged)) in
      let changes := compare changes "family" (of_str (x_family existing)) (of_str (family merged)) in
      let changes := compare changes "attachment" (of_bool (x_attachment existing)) (VBool (attachment merged)) in
      let changes := compare changes "reasoning" (of_bool (x_reasoning existing)) (VBool (reasoning merged)) in
      let changes := compare changes "tool_call" (of_bool (x_tool_call existing)) (VBool (tool_call merged)) in
      let changes := compare changes "structured_output" (of_bool (x_structured_output existing)) (of_bool (structured_output merged)) in
      let changes := compare changes "open_weights" (of_bool (x_open_weights existing)) (VBool (open_weights merged)) in
      let changes := compare changes "release_date" (of_str (x_release_date existing)) (VStr (release_date merged)) in
      let changes := compare changes "cost.input" (of_num (x_cost existing ≫= xc_input)) (of_num (c_input <$> cost merged)) in
      let changes := compare changes "cost.output" (of_num (x_cost existing ≫= xc_output)) (of_num (c_output <$> cost merged)) in
      let changes := compare changes "cost.cache_read" (of_num (x_cost existing ≫= xc_cache_read)) (of_num (cost merged ≫= c_cache_read)) in
      let changes := compare changes "cost.cache_write" (of_num (x_cost existing ≫= xc_cache_write)) (of_num (cost merged ≫= c_cache_write)) in
      let changes := compare changes "limit.context" (of_int (x_limit existing ≫= xl_context)) (VInt (context (limit merged))) in
      let changes := compare changes "limit.output" (of_int (x_limit existing ≫= xl_output)) (VInt (output (limit merged))) in
      let changes := compare changes "modalities.input" (of_arr (x_modalities existing ≫= xm_input)) (VArr (input (modalities merged))) in
      changes
  end.

(** The [compare] calls of [detectChanges] as data: field name, old value
    and new value, in call order. *)
Definition calls (existing : ExistingModel) (merged : MergedModel)
  : list (string * unknown * unknown) :=
  [ ("name", of_str (x_name existing), VStr (name merged));
    ("family", of_str (x_family existing), of_str (family merged));
    ("attachment", of_bool (x_attachment existing), VBool (attachment merged));
    ("reasoning", of_bool (x_reasoning existing), VBool (reasoning merged));
    ("tool_call", of_bool (x_tool_call existing), VBool (tool_call merged));
    ("structured_output", of_bool (x_structured_output existing), of_bool (structured_output merged));
    ("open_weights", of_bool (x_open_weights existing), VBool (open_weights merged));
    ("release_date", of_str (x_release_date existing), VStr (release_date merged));
    ("cost.input", of_num (x_cost existing ≫= xc_input), of_num (c_input <$> cost merged));
    ("cost.output", of_num (x_cost existing ≫= xc_output), of_num (c_output <$> cost merged));
    ("cost.cache_read", of_num (x_cost existing ≫= xc_cache_read), of_num (cost merged ≫= c_cache_read));
    ("cost.cache_write", of_num (x_cost existing ≫= xc_cache_write), of_num (cost merged ≫= c_cache_write));
    ("limit.context", of_int (x_limit existing ≫= xl_context), VInt (context (limit merged)));
    ("limit.output", of_int (x_limit existing ≫= xl_output), VInt (output (limit merged)));
    ("modalities.input", of_arr (x_modalities existing ≫= xm_input), VArr (input (modalities merged))) ].

(** A merged record read as the persisted record of the next run. *)
Definition asExisting (m : MergedModel) : ExistingModel :=
  {| x_name := Some (name m);
     x_family := family m;
     x_attachment := Some (attachment m);
     x_reasoning := Some (reasoning m);
     x_tool_call := Some (tool_call m);
     x_structured_output := structured_output m;
     x_temperature := Some (temperature m);
     x_knowledge := knowledge m;
     x_release_date := Some (release_date m);
     x_last_updated := Some (last_updated m);
     x_open_weights := Some (open_weights m);
     x_interleaved := interleaved m;
     x_status := status m;
     x_cost :=
       (fun c =>
          {| xc_input := Some (c_input c);
             xc_output := Some (c_output c);
             xc_cache_read := c_cache_read c;
             xc_cache_write := c_cache_write c |})
       <$> cost m;
     x_limit :=
       Some {| xl_context := Some (context (limit m));
               xl_output := Some (output (limit m)) |};
     x_modalities :=
       Some {| xm_input := Some (input (modalities m));
               xm_output := Some (m_output (modalities m)) |} |}.

(** *** [formatToml], read back

    The document the emitted text lays out: which keys and sections
    [formatToml] writes, with the values it writes.  Whether a reader
    obtains these values from the text (the strings are written between
    quotes as they are, the numbers as JavaScript prints them) is
    [reads_back] of the drivers. *)

Definition written_interleaved (i : option Interleaved) : option Interleaved :=
  match i with
  | Some (IBool true) => Some (IBool true)
  | Some (IField f) => Some (IField f)
  | Some (IBool false) => None
  | None => None
  end.

Definition formatToml (model : MergedModel) : ExistingModel :=
  {| x_name := Some (name model);
     x_family := if otruthy (family model) then family model else None;
     x_attachment := Some (attachment model);
     x_reasoning := Some (reasoning model);
     x_tool_call := Some (tool_call model);
     x_structured_output := structured_output model;
     x_temperature := Some (temperature model);
     x_knowledge := if otruthy (knowledge model) then knowledge model else None;
     x_release_date := Some (release_date model);
     x_last_updated := Some (last_updated model);
     x_open_weights := Some (open_weights model);
     x_interleaved := written_interleaved (interleaved model);
     x_status := if otruthy (status model) then status model else None;
     x_cost :=
       (fun c =>
          {| xc_input := Some (c_input c);
             xc_output := Some (c_output c);
             xc_cache_read := c_cache_read c;
             xc_cache_write := c_cache_write c |})
       <$> cost model;
     x_limit :=
       Some {| xl_context := Some (context (limit model));
               xl_output := Some (output (limit model)) |};
     x_modalities :=
       Some {| xm_input := Some (input (modalities model));
               xm_output := Some (m_output (modalities model)) |} |}.

(** Whether [compare] pushes a change for a field: the guard of its
    [changes.push]. *)
Definition reported (f : string) (a b : unknown) : bool :=
  negb (shouldSkipZero f a b)
  && (if startsWith f "cost." then isMaterialPriceDiff a b
      else negb (json_eqb a b)).

(** *** Agreement of a persisted and a merged record, in the words of the
    change-detection rule *)

(** Two optional prices are within the tolerance of one another: both
    absent, or both present and [Math.abs(a - b) > EPSILON] false of them. *)
Definition price_within (a b : option Double.number) : Prop :=
  match a, b with
  | Some x, Some y => exceeds_epsilon x y = false
  | None, None => True
  | _, _ => False
  end.

Definition prices_within (e : ExistingModel) (m : MergedModel) : Prop :=
  price_within (x_cost e ≫= xc_input) (c_input <$> cost m) /\
  price_within (x_cost e ≫= xc_output) (c_output <$> cost m) /\
  price_within (x_cost e ≫= xc_cache_read) (cost m ≫= c_cache_read) /\
  price_within (x_cost e ≫= xc_cache_write) (cost m ≫= c_cache_write).

(** A price moved: both prices are present and [Math.abs(a - b) > EPSILON]
    holds of them, or only the new one is present, or only the old one is
    and it is not 0. *)
Definition price_change (oldPrice newPrice : option Double.number) : Prop :=
  match oldPrice, newPrice with
  | Some x, Some y => exceeds_epsilon x y = true
  | None, Some _ => True
  | Some x, None => Double.eqb x Double.zero = false
  | None, None => False
  end.

(** A limit moved: neither side reads 0 and the two sides differ. *)
Definition limit_change (oldLimit : option Z) (newLimit : Z) : Prop :=
  oldLimit <> Some 0 /\ newLimit <> 0 /\ oldLimit <> Some newLimit.

(** The persisted record carries exactly the merged record's value in every
    tracked field outside the cost block. *)
Definition agree_elsewhere (e : ExistingModel) (m : MergedModel) : Prop :=
  x_name e = Some (name m) /\
  x_family e = family m /\
  x_attachment e = Some (attachment m) /\
  x_reasoning e = Some (reasoning m) /\
  x_tool_call e = Some (tool_call m) /\
  x_structured_output e = structured_output m /\
  x_open_weights e = Some (open_weights m) /\
  x_release_date e = Some (release_date m) /\
  x_limit e ≫= xl_context = Some (context (limit m)) /\
  x_limit e ≫= xl_output = Some (output (limit m)) /\
  x_modalities e ≫= xm_input = Some (input (modalities m)).

End Vercel.

(* ===================================================================== *)
(** ** The sync drivers ([main] of the two generator scripts)

    The payload is the validated response of the fetch; the store is the
    file system, each path with what [import] reads from the file there.
    What it reads from a file the run itself wrote is up to the TOML reader
    ([TomlHost]).  Console output is not modelled: a run is known by its
    counters, its orphan list and the store it leaves.  No path is imported
    twice in the runs the theorems below speak about, so the module cache of
    [import] plays no part. *)
(* ===================================================================== *)

Module VercelSync.
Import Js Vercel.

(** A file of the store: a TOML document, or text [import] fails on. *)
Inductive file : Type :=
| Toml (doc : ExistingModel)
| Unreadable.

Definition modelsDir : string := "providers/vercel/models".

(** [loadExistingModel]: [null] when the file is absent or fails to parse. *)
Definition loadExistingModel (store : gmap string file) (filePath : string)
  : option ExistingModel :=
  match store !! filePath with
  | Some (Toml doc) => Some doc
  | Some Unreadable => None
  | None => None
  end.

(** The TOML reader belongs to the host: what [import] of a file yields
    once [formatToml] of a merged record has been written to it, a document
    or a failure. *)
Class TomlHost : Type := {
  imported : MergedModel -> file
}.

(** The reader gives back the document [formatToml] lays out: every string
    reads as it was written between its quotes and every number as it was
    printed. *)
Definition reads_back `{TomlHost} (merged : MergedModel) : Prop :=
  imported merged = Toml (formatToml merged).

(** The reader that always gives back the document laid out. *)
Definition plainReader : TomlHost :=
  {| imported := fun merged => Toml (formatToml merged) |}.

(** [Bun.write(filePath, tomlContent)] (after [mkdir -p] of its
    directory): the path holds what the text reads as. *)
Definition write (store : gmap string file) (filePath : string)
    (tomlContent : file) : gmap string file :=
  <[filePath := tomlContent]> store.

(** The variables of the loop. *)
Record Run : Type := {
  store : gmap string file;
  apiModelIds : gset string;
  created : nat;
  updated : nat;
  unchanged : nat
}.

Definition relativePath (apiModel : VercelModel) : string := id apiModel ++ ".toml".

Definition filePath `{FsHost} (apiModel : VercelModel) : string :=
  path_join modelsDir (relativePath apiModel).

(** [apiModel.type === ModelType.Image || apiModel.type === ModelType.Video] *)
Definition skipped (apiModel : VercelModel) : bool :=
  is_image (type_ apiModel) || is_video (type_ apiModel).

(** One iteration of [for (const apiModel of apiModels)]. *)
Definition step `{JsHost} `{FsHost} `{TomlHost} (dryRun newOnly : bool) (today : string)
    (run : Run) (apiModel : VercelModel) : Run :=
  (* Skip these since image / video generation is not supported yet *)
  if skipped apiModel then run
  else
    let ids := {[relativePath apiModel]} ∪ apiModelIds run in
    let existing := loadExistingModel (store run) (filePath apiModel) in
    let merged := mergeModel today apiModel existing in
    let tomlContent := imported merged in
    match existing with
    | None =>
        {| store := if dryRun then store run
                    else write (store run) (filePath apiModel) tomlContent;
           apiModelIds := ids;
           created := S (created run);
           updated := updated run;
           unchanged := unchanged run |}
    | Some _ =>
        if newOnly then
          {| store := store run; apiModelIds := ids; created := created run;
             updated := updated run; unchanged := S (unchanged run) |}
        else
          let changes := detectChanges existing merged in
          if (0 <? length changes)%nat then
            {| store := if dryRun then store run
                        else write (store run) (filePath apiModel) tomlContent;
               apiModelIds := ids;
               created := created run;
               updated := S (updated run);
               unchanged := unchanged run |}
          else
            {| store := store run; apiModelIds := ids; created := created run;
               updated := updated run; unchanged := S (unchanged run) |}
    end.

Definition start (store : gmap string file) : Run :=
  {| store := store; apiModelIds := ∅; created := 0; updated := 0; unchanged := 0 |}.

(** The loop over the payload, in payload order. *)
Definition loop `{JsHost} `{FsHost} `{TomlHost} (dryRun newOnly : bool) (today : string)
    (apiModels : list VercelModel) (store : gmap string file) : Run :=
  fold_left (step dryRun newOnly today) apiModels (start store).

(** What a run reports and leaves behind. *)
Record Summary : Type := {
  s_created : nat;
  s_updated : nat;
  s_unchanged : nat;
  orphaned : list string;
  s_store : gmap string file
}.

(** [main], from the validated payload on. *)
Definition main `{JsHost} `{FsHost} `{TomlHost} (dryRun newOnly : bool) (today : string)
    (apiModels : list VercelModel) (store : gmap string file) : Summary :=
  let existingFiles := glob_toml file modelsDir store in
  let run := loop dryRun newOnly today apiModels store in
  let orphaned :=
    List.filter (fun file => negb (bool_decide (file ∈ apiModelIds run))) existingFiles in
  {| s_created := created run;
     s_updated := updated run;
     s_unchanged := unchanged run;
     orphaned := orphaned;
     s_store := VercelSync.store run |}.

(** The four numbers of the summary line. *)
Definition counts (s : Summary) : nat * nat * nat * nat :=
  (s_created s, s_updated s, s_unchanged s, length (orphaned s)).

(** The counters of the loop. *)
Definition counters (run : Run) : nat * nat * nat :=
  (created run, updated run, unchanged run).

(** The number of entries the loop has counted. *)
Definition total (run : Run) : nat := (created run + updated run + unchanged run)%nat.

(** A persisted record the payload entry no longer changes: merged against
    it on any run date, the entry yields no reported change. *)
Definition settled `{JsHost} (apiModel : VercelModel) (doc : ExistingModel) : Prop :=
  forall today, detectChanges (Some doc) (mergeModel today apiModel (Some doc)) = [].

(** No readable record under a processed entry's file has the empty string
    as its family. *)
Definition families_nonblank `{FsHost} (apiModels : list VercelModel)
    (store : gmap string file) : Prop :=
  forall m doc,
    In m apiModels -> skipped m = false ->
    store !! filePath m = Some (Toml doc) -> x_family doc <> Some "".

(** The processed entries of the payload go to pairwise distinct files. *)
Definition distinct_paths `{FsHost} (apiModels : list VercelModel) : Prop :=
  List.NoDup (map filePath (List.filter (fun m => negb (skipped m)) apiModels)).

(** What a real run without [--new-only] writes for the payload reads back
    as laid out: the record of every processed entry whose file is new or
    for which changes are detected. *)
Definition written_read_back `{JsHost} `{FsHost} `{TomlHost} (today : string)
    (apiModels : list VercelModel) (store : gmap string file) : Prop :=
  forall m, In m apiModels -> skipped m = false ->
    let existing := loadExistingModel store (filePath m) in
    let merged := mergeModel today m existing in
    existing = None \/ detectChanges existing merged <> [] ->
    reads_back merged.

End VercelSync.

Module VeniceSync.
Import Js Venice.

Inductive file : Type :=
| Toml (doc : ExistingModel)
| Unreadable.

Definition modelsDir : string := "providers/venice/models".

Definition loadExistingModel (store : gmap string file) (filePath : string)
  : option ExistingModel :=
  match store !! filePath with
  | Some (Toml doc) => Some doc
  | Some Unreadable => None
  | None => None
  end.

(** The TOML reader belongs to the host: what [import] of a file yields
    once [formatToml] of a merged record has been written to it, a document
    or a failure. *)
Class TomlHost : Type := {
  imported : MergedModel -> file
}.

(** The reader gives back the document [formatToml] lays out: every string
    reads as it was written between its quotes and every number as it was
    printed. *)
Definition reads_back `{TomlHost} (merged : MergedModel) : Prop :=
  imported merged = Toml (formatToml merged).

(** The reader that always gives back the document laid out. *)
Definition plainReader : TomlHost :=
  {| imported := fun merged => Toml (formatToml merged) |}.

(** [Bun.write(filePath, tomlContent)] (after [mkdir -p] of its
    directory): the path holds what the text reads as. *)
Definition write (store : gmap string file) (filePath : string)
    (tomlContent : file) : gmap string file :=
  <[filePath := tomlContent]> store.

Record Run : Type := {
  store : gmap string file;
  apiModelIds : gset string;
  created : nat;
  updated : nat;
  unchanged : nat
}.

(** [id.replace(/\//g, "-")] *)
Fixpoint safeId (id : string) : string :=
  match id with
  | EmptyString => EmptyString
  | String c id' =>
      String (if Ascii.eqb c "/"%char then "-"%char else c) (safeId id')
  end.

Definition filename (apiModel : VeniceModel) : string :=
  safeId (id apiModel) ++ ".toml".

Definition filePath `{FsHost} (apiModel : VeniceModel) : string :=
  path_join modelsDir (filename apiModel).

(** One iteration of [for (const apiModel of apiModels)]. *)
Definition step `{JsHost} `{FsHost} `{TomlHost} (dryRun : bool) (today : string)
    (run : Run) (apiModel : VeniceModel) : Run :=
  let ids := {[filename apiModel]} ∪ apiModelIds run in
  let existing := loadExistingModel (store run) (filePath apiModel) in
  let merged := mergeModel today apiModel existing in
  let tomlContent := imported merged in
  match existing with
  | None =>
      (* New file *)
      {| store := if dryRun then store run
                  else write (store run) (filePath apiModel) tomlContent;
         apiModelIds := ids;
         created := S (created run);
         updated := updated run;
         unchanged := unchanged run |}
  | Some _ =>
      (* an existing file: look for changes *)
      let changes := detectChanges existing merged in
      if (0 <? length changes)%nat then
        {| store := if dryRun then store run
                    else write (store run) (filePath apiModel) tomlContent;
           apiModelIds := ids;
           created := created run;
           updated := S (updated run);
           unchanged := unchanged run |}
      else
        {| store := store run; apiModelIds := ids; created := created run;
           updated := updated run; unchanged := S (unchanged run) |}
  end.

Definition start (store : gmap string file) : Run :=
  {| store := store; apiModelIds := ∅; created := 0; updated := 0; unchanged := 0 |}.

Definition loop `{JsHost} `{FsHost} `{TomlHost} (dryRun : bool) (today : string)
    (apiModels : list VeniceModel) (store : gmap string file) : Run :=
  fold_left (step dryRun today) apiModels (start store).

Record Summary : Type := {
  s_created : nat;
  s_updated : nat;
  s_unchanged : nat;
  orphaned : list string;
  s_store : gmap string file
}.

(** [main], from the validated payload on. *)
Definition main `{JsHost} `{FsHost} `{TomlHost} (dryRun : bool) (today : string)
    (apiModels : list VeniceModel) (store : gmap string file) : Summary :=
  let existingFiles :=
    List.filter (fun file => endsWith file ".toml") (readdir file modelsDir store) in
  let run := loop dryRun today apiModels store in
  let orphaned :=
    List.filter (fun file => negb (bool_decide (file ∈ apiModelIds run))) existingFiles in
  {| s_created := created run;
     s_updated := updated run;
     s_unchanged := unchanged run;
     orphaned := orphaned;
     s_store := VeniceSync.store run |}.

Definition counts (s : Summary) : nat * nat * nat * nat :=
  (s_created s, s_updated s, s_unchanged s, length (orphaned s)).

Definition counters (run : Run) : nat * nat * nat :=
  (created run, updated run, unchanged run).

(** The number of entries the loop has counted. *)
Definition total (run : Run) : nat := (created run + updated run + unchanged run)%nat.

(** A persisted record the payload entry no longer changes: merged against
    it on any run date, the entry yields no reported change. *)
Definition settled `{JsHost} (apiModel : VeniceModel) (doc : ExistingModel) : Prop :=
  forall today, detectChanges (Some doc) (mergeModel today apiModel (Some doc)) = [].

(** The entries of the payload go to pairwise distinct files. *)
Definition distinct_paths `{FsHost} (apiModels : list VeniceModel) : Prop :=
  List.NoDup (map filePath apiModels).

(** What a real run writes for the payload reads back as laid out: the
    record of every entry whose file is new or for which changes are
    detected. *)
Definition written_read_back `{JsHost} `{FsHost} `{TomlHost} (today : string)
    (apiModels : list VeniceModel) (store : gmap string file) : Prop :=
  forall m, In m apiModels ->
    let existing := loadExistingModel store (filePath m) in
    let merged := mergeModel today m existing in
    existing = None \/ detectChanges existing merged <> [] ->
    reads_back merged.

End VeniceSync.

(* ===================================================================== *)
(** ** Cloudflare AI Gateway inclusion filter ([utils.sh]) *)
(* ===================================================================== *)

Module Cloudflare.

(** *** Configuration *)

(** Providers to include ALL models from *)
Definition INCLUDE_ALL_PROVIDERS : list string := ["workers-ai"].

(** Namespaces to skip entirely (provider/namespace format) *)
Definition SKIP_NAMESPACES : list string := ["replicate/replicate-internal"].

(** Specific models to skip *)
Definition SKIP_MODELS : list string := ["aura-1"; "whisper"].

(** The extended regular expressions of [WELL_KNOWN_MODELS], as the shell
    passes them to [grep -E] (double quotes keep the backslash and the final
    dollar sign). *)
Definition WELL_KNOWN_MODELS : list string :=
  [ "openai/gpt-5[\.-]2$";
    "openai/gpt-5[\.-]1$";
    "openai/gpt-5[\.-]1-codex$";
    "openai/gpt-4o$";
    "openai/gpt-4o-mini$";
    "openai/gpt-4-turbo$";
    "openai/gpt-4$";
    "openai/gpt-3[\.-]5-turbo$";
    "openai/o1$";
    "openai/o3$";
    "openai/o3-mini$";
    "openai/o3-pro$";
    "openai/o4-mini$";
    "anthropic/claude-sonnet-4-5$";
    "anthropic/claude-opus-4-6$";
    "anthropic/claude-opus-4-5$";
    "anthropic/claude-haiku-4-5$";
    "anthropic/claude-opus-4-1$";
    "anthropic/claude-sonnet-4$";
    "anthropic/claude-opus-4$";
    "anthropic/claude-3[\.-]5-sonnet$";
    "anthropic/claude-3[\.-]5-haiku$";
    "anthropic/claude-3-opus$";
    "anthropic/claude-3-sonnet$";
    "anthropic/claude-3-haiku$" ].

(** *** Shell primitives *)

Definition newline : string := String "010"%char EmptyString.

(** No newline character occurs in the text. *)
Fixpoint one_line (s : string) : bool :=
  match s with
  | EmptyString => true
  | String c s' => negb (Ascii.eqb c "010"%char) && one_line s'
  end.

(** The letters of the options of the builtin [echo] *)
Definition echo_flag (c : ascii) : bool :=
  Ascii.eqb c "n"%char || Ascii.eqb c "e"%char || Ascii.eqb c "E"%char.

(** A word [echo] takes as options: a hyphen and one or more of the letters
    [n], [e], [E]. *)
Definition echo_option (s : string) : bool :=
  match s with
  | String c (String f flags) =>
      Ascii.eqb c "-"%char && forallb echo_flag (f :: list_ascii_of_string flags)
  | _ => false
  end.

(** [echo "$s"]: the text and a newline; a word of options is not printed,
    and the newline is left out when [n] is among them. *)
Definition echo (s : string) : string :=
  if echo_option s then
    if existsb (Ascii.eqb "n"%char) (list_ascii_of_string s) then "" else newline
  else s ++ newline.

(** The lines of a text: the pieces its newline characters end, and the
    piece after the last one when that is not empty. *)
Fixpoint text_lines (s : string) : list string :=
  match s with
  | EmptyString => []
  | String c s' =>
      if Ascii.eqb c "010"%char then EmptyString :: text_lines s'
      else
        match text_lines s' with
        | [] => [String c EmptyString]
        | line :: rest => String c line :: rest
        end
  end.

(** Lines written out, each with its newline. *)
Fixpoint unlines (lines : list string) : string :=
  match lines with
  | [] => EmptyString
  | line :: rest => line ++ newline ++ unlines rest
  end.

(** [$(...)]: the output of the command without its trailing newlines. *)
Fixpoint command_substitution (output : string) : string :=
  match output with
  | EmptyString => EmptyString
  | String c output' =>
      let rest := command_substitution output' in
      if Ascii.eqb c "010"%char && String.eqb rest "" then EmptyString
      else String c rest
  end.

(** The first field of one line for the delimiter [/]: the text before the
    first slash, the whole line when there is none. *)
Fixpoint first_field (line : string) : string :=
  match line with
  | EmptyString => EmptyString
  | String c line' =>
      if Ascii.eqb c "/"%char then EmptyString else String c (first_field line')
  end.

(** [$(echo "$s" | cut -d'/' -f1)]: [cut] works line by line. *)
Definition cut_first_field (s : string) : string :=
  command_substitution (unlines (map first_field (text_lines (echo s)))).

(** [[[ "$s" == *"$sub"* ]]] *)
Definition glob_contains (s sub : string) : bool := Js.includes s sub.

(** [[[ "$s" == "$prefix"* ]]] *)
Definition glob_prefix (s prefix : string) : bool := Js.startsWith s prefix.

(** The fragment of POSIX extended regular expressions the configured
    patterns are written in: literal characters, the dot, bracket sets
    without ranges, a backslash escape, and the end-of-line anchor. *)
Inductive atom : Type :=
| Lit (c : ascii)
| AnyChar
| OneOf (cs : list ascii)
| EndOfLine.

(** The members of a bracket expression up to its closing bracket (a
    backslash inside brackets is an ordinary member), and the rest of the
    pattern. *)
Fixpoint bracket (s : string) (acc : list ascii) : list ascii * string :=
  match s with
  | EmptyString => (acc, EmptyString)
  | String c s' =>
      if Ascii.eqb c "]"%char then (acc, s') else bracket s' (acc ++ [c])
  end.

Fixpoint parse (fuel : nat) (s : string) : list atom :=
  match fuel with
  | O => []
  | S fuel =>
      match s with
      | EmptyString => []
      | String c s' =>
          if Ascii.eqb c "["%char then
            let '(cs, rest) := bracket s' [] in OneOf cs :: parse fuel rest
          else if Ascii.eqb c "."%char then AnyChar :: parse fuel s'
          else if Ascii.eqb c "$"%char then EndOfLine :: parse fuel s'
          else if Ascii.eqb c "\"%char then
            match s' with
            | String e s'' => Lit e :: parse fuel s''
            | EmptyString => []
            end
          else Lit c :: parse fuel s'
      end
  end.

Definition compile (pattern : string) : list atom :=
  parse (String.length pattern) pattern.

(** Match of the atoms against a prefix of the line, from its first
    character. *)
Fixpoint match_here (re : list atom) (line : string) : bool :=
  match re with
  | [] => true
  | EndOfLine :: re' =>
      match line with EmptyString => match_here re' line | _ => false end
  | Lit c :: re' =>
      match line with
      | String d line' => Ascii.eqb c d && match_here re' line'
      | EmptyString => false
      end
  | AnyChar :: re' =>
      match line with
      | String _ line' => match_here re' line'
      | EmptyString => false
      end
  | OneOf cs :: re' =>
      match line with
      | String d line' => existsb (Ascii.eqb d) cs && match_here re' line'
      | EmptyString => false
      end
  end.

(** [echo "$s" | grep -qE "^$pattern"]: some line of the text matches from
    its first character. *)
Definition grep_anchored (pattern s : string) : bool :=
  existsb (match_here (compile pattern)) (text_lines (echo s)).

(** *** [should_include_model] *)

(** [return 0] includes the model, [return 1] excludes it. *)
Inductive verdict : Type := Included | Excluded.

Definition should_include_model (model_id : string) : verdict :=
  let provider := cut_first_field model_id in
  (* skip words: partial match on the model id *)
  if existsb (fun skip => glob_contains model_id skip) SKIP_MODELS then Excluded
  (* skipped namespaces *)
  else if existsb (fun ns => glob_prefix model_id (ns ++ "/")) SKIP_NAMESPACES
  then Excluded
  (* providers on the include-all list *)
  else if existsb (fun p => String.eqb provider p) INCLUDE_ALL_PROVIDERS then
    (* Special case for workers-ai: only the workers-ai/@cf/ prefix *)
    if String.eqb provider "workers-ai"
       && negb (glob_prefix model_id "workers-ai/@cf/")
    then Excluded
    else Included
  (* well-known patterns *)
  else if existsb (fun pattern => grep_anchored pattern model_id) WELL_KNOWN_MODELS
  then Included
  else Excluded.

(** An id is hit by a skip rule: it contains a skip word or lies under a
    skipped namespace. *)
Definition skipped (model_id : string) : Prop :=
  (exists skip, In skip SKIP_MODELS /\ glob_contains model_id skip = true) \/
  (exists ns, In ns SKIP_NAMESPACES /\ glob_prefix model_id (ns ++ "/") = true).

(** An id is admitted by an allow rule: its provider is on the include-all
    list, or it matches a well-known pattern. *)
Definition allowed (model_id : string) : Prop :=
  In (cut_first_field model_id) INCLUDE_ALL_PROVIDERS \/
  (exists pattern, In pattern WELL_KNOWN_MODELS /\ grep_anchored pattern model_id = true).

End Cloudflare.

(* ===================================================================== *)
(** ** A concrete host for the worked examples *)
(* ===================================================================== *)

Module Host.
Import Js.

Definition digit (n : Z) : string :=
  String (ascii_of_nat (48 + Z.to_nat (n mod 10))) "".

Definition pad2 (n : Z) : string := digit (n / 10) ++ digit n.
Definition pad4 (n : Z) : string :=
  digit (n / 1000) ++ digit (n / 100) ++ digit (n / 10) ++ digit n.

(** Proleptic Gregorian date of a millisecond timestamp, for years 0000 to
    9999, as [YYYY-MM-DD]. *)
Definition civil (ms : Z) : string :=
  let z := ms / 86400000 + 719468 in
  let era := z / 146097 in
  let doe := z mod 146097 in
  let yoe := (doe - doe / 1460 + doe / 36524 - doe / 146096) / 365 in
  let doy := doe - (365 * yoe + yoe / 4 - yoe / 100) in
  let mp := (5 * doy + 2) / 153 in
  let d := doy - (153 * mp + 2) / 5 + 1 in
  let m := if mp <? 10 then mp + 3 else mp - 9 in
  let y := yoe + era * 400 + (if m <=? 2 then 1 else 0) in
  pad4 y ++ "-" ++ pad2 m ++ "-" ++ pad2 d.

Definition digit_value (c : ascii) : option Z :=
  let n := Z.of_nat (nat_of_ascii c) in
  if (48 <=? n) && (n <=? 57) then Some (n - 48) else None.

(** The digits of an unsigned decimal literal with its dot left out, and
    the number of digits after the dot. *)
Fixpoint fraction (s : string) (acc places : Z) : Z * Z :=
  match s with
  | EmptyString => (acc, places)
  | String c s' =>
      match digit_value c with
      | Some d => fraction s' (acc * 10 + d) (places + 1)
      | None => (acc, places)
      end
  end.

Fixpoint digits (s : string) (acc : Z) : Z * Z :=
  match s with
  | EmptyString => (acc, 0)
  | String c s' =>
      match digit_value c with
      | Some d => digits s' (acc * 10 + d)
      | None => if Ascii.eqb c "."%char then fraction s' acc 0 else (acc, 0)
      end
  end.

(** The number an unsigned decimal literal of at most 15 digits denotes: the
    quotient of two integers that are numbers themselves, rounded once. *)
Definition decimal (s : string) : Double.number :=
  let '(n, places) := digits s 0 in
  if places =? 0 then Double.of_Z n
  else Double.div (Double.of_Z n) (Double.of_Z (10 ^ places)).

(** Unsigned decimal literals such as ["0.000003"]. *)
#[export] Instance decimalHost : JsHost :=
  {| isoDate := civil; parseFloat := decimal |}.

(** [s] without its first [n] characters. *)
Definition drop_chars (n : nat) (s : string) : string :=
  substring n (String.length s - n) s.

(** Whether [s] has no slash. *)
Definition slashless (s : string) : bool := negb (Js.includes s "/").

(** The paths of the store below [dir], relative to it. *)
Definition below {F : Type} (dir : string) (store : gmap string F) : list string :=
  map (drop_chars (String.length dir + 1))
    (List.filter (fun p => Js.startsWith p (dir ++ "/")) (map fst (map_to_list store))).

(** A flat view of the file system: paths are joined with a slash, the
    glob reports every [.toml] path below the directory and [readdir] the
    files directly in it. *)
#[export] Instance flatFs : FsHost :=
  {| path_join := fun dir rel => dir ++ "/" ++ rel;
     glob_toml := fun F dir store =>
       List.filter (fun p => Js.endsWith p ".toml") (below dir store);
     readdir := fun F dir store => List.filter slashless (below dir store) |}.

End Host.

(* ===================================================================== *)
(** ** Sample payloads and persisted records *)
(* ===================================================================== *)

Module Samples.
Import Js.

Definition noCaps : Venice.Capabilities :=
  {| Venice.optimizedForCode := None; Venice.quantization := None;
     Venice.supportsAudioInput := None; Venice.supportsFunctionCalling := None;
     Venice.supportsLogProbs := None; Venice.supportsReasoning := None;
     Venice.supportsResponseSchema := None; Venice.supportsVideoInput := None;
     Venice.supportsVision := None; Venice.supportsWebSearch := None |}.

(** A Venice payload entry with the given id, display name, context window
    and pricing. *)
Definition veniceModel (id name : string) (contextTokens : Z)
    (pricing : option Venice.Pricing) : Venice.VeniceModel :=
  {| Venice.created := 1709164800;
     Venice.id := id;
     Venice.model_spec :=
       {| Venice.pricing := pricing;
          Venice.availableContextTokens := contextTokens;
          Venice.capabilities := noCaps;
          Venice.spec_name := name;
          Venice.modelSource := None;
          Venice.offline := None;
          Venice.privacy := None;
          Venice.traits := None |};
     Venice.object_ := "model";
     Venice.owned_by := "venice.ai";
     Venice.type_ := "text" |}.

(** A persisted Venice record carrying only the listed fields. *)
Definition veniceExisting (family knowledge status : option string)
    (interleaved : option Venice.Interleaved) (limitOutput : option Z)
    : Venice.ExistingModel :=
  {| Venice.x_name := None; Venice.x_family := family;
     Venice.x_attachment := None; Venice.x_reasoning := None;
     Venice.x_tool_call := None; Venice.x_structured_output := None;
     Venice.x_temperature := None; Venice.x_knowledge := knowledge;
     Venice.x_release_date := None; Venice.x_last_updated := None;
     Venice.x_open_weights := None; Venice.x_interleaved := interleaved;
     Venice.x_status := status; Venice.x_cost := None;
     Venice.x_limit :=
       Some {| Venice.xl_context := None; Venice.xl_input := None;
               Venice.xl_output := limitOutput |};
     Venice.x_modalities := None; Venice.x_provider := None |}.

(** A Vercel payload entry with the given id, name, type and output limit. *)
Definition vercelModel (id name : string) (type : Vercel.ModelType)
    (maxTokens : Z) : Vercel.VercelModel :=
  {| Vercel.id := id; Vercel.api_name := name;
     Vercel.created := 1709164800; Vercel.released := None;
     Vercel.context_window := 128000; Vercel.max_tokens := maxTokens;
     Vercel.type_ := type; Vercel.tags := []; Vercel.pricing := None |}.

(** A persisted Vercel record carrying only the listed fields. *)
Definition vercelExisting (name family knowledge status : option string)
    (limitOutput : option Z) : Vercel.ExistingModel :=
  {| Vercel.x_name := name; Vercel.x_family := family;
     Vercel.x_attachment := None; Vercel.x_reasoning := None;
     Vercel.x_tool_call := None; Vercel.x_structured_output := None;
     Vercel.x_temperature := None; Vercel.x_knowledge := knowledge;
     Vercel.x_release_date := None; Vercel.x_last_updated := None;
     Vercel.x_open_weights := None; Vercel.x_interleaved := None;
     Vercel.x_status := status; Vercel.x_cost := None;
     Vercel.x_limit :=
       Some {| Vercel.xl_context := None; Vercel.xl_output := limitOutput |};
     Vercel.x_modalities := None |}.

Definition runDate : string := "2025-06-01".

(** Venice: a 32k-context model whose persisted record tightened
    [limit.output] to 4000 and pinned a family by hand. *)
Definition venice32k : Venice.VeniceModel :=
  veniceModel "llama-3.3-70b" "Llama 3.3 70B" 32000 None.
Definition veniceTightened : Venice.ExistingModel :=
  veniceExisting (Some "mistral") (Some "2024-04") (Some "beta")
    (Some (Venice.IBool true)) (Some 4000).

(** Venice: a persisted record whose [knowledge] is the empty string. *)
Definition veniceBlankKnowledge : Venice.ExistingModel :=
  veniceExisting None (Some "") None None None.

(** Vercel: a persisted record whose [status] is the empty string. *)
Definition vercelBlankStatus : Vercel.ExistingModel :=
  vercelExisting (Some "GPT-4o") (Some "gpt") None (Some "") None.

(** Venice: an id no family tag matches. *)
Definition veniceUnknown : Venice.VeniceModel :=
  veniceModel "xyz" "XYZ" 32000 None.

(** Vercel: the payload reports 8000 output tokens for a model whose
    persisted record carries a curated name, a pinned family and a tightened
    [limit.output] of 4000. *)
Definition vercelGpt4o : Vercel.VercelModel :=
  vercelModel "openai/gpt-4o" "GPT-4o" Vercel.Language 8000.
Definition vercelCurated : Vercel.ExistingModel :=
  vercelExisting (Some "GPT-4o (curated)") (Some "gpt") (Some "2023-10")
    (Some "beta") (Some 4000).

(** Vercel: a payload entry that reports no output limit. *)
Definition vercelNoLimit : Vercel.VercelModel :=
  vercelModel "openai/gpt-4o" "GPT-4o" Vercel.Language 0.

(** Prices that differ by 0.0005 per million tokens, below the detector's
    tolerance of 0.001. *)
Definition venicePriced (inputUsd : Double.number) : Venice.VeniceModel :=
  veniceModel "llama-3.3-70b" "Llama 3.3 70B" 32000
    (Some {| Venice.p_input := {| Venice.usd := inputUsd; Venice.diem := None |};
             Venice.p_output := {| Venice.usd := Host.decimal "15"; Venice.diem := None |};
             Venice.p_cache_input := None;
             Venice.p_cache_write := None;
             Venice.extended := None |}).

Definition vercelPriced (input : string) : Vercel.VercelModel :=
  {| Vercel.id := "openai/gpt-4o"; Vercel.api_name := "GPT-4o";
     Vercel.created := 1709164800; Vercel.released := Some 1709164800;
     Vercel.context_window := 128000; Vercel.max_tokens := 8000;
     Vercel.type_ := Vercel.Language; Vercel.tags := ["tool-use"];
     Vercel.pricing :=
       Some {| Vercel.p_input := Some input;
               Vercel.p_output := Some "0.000015";
               Vercel.input_cache_read := None;
               Vercel.input_cache_write := None;
               Vercel.input_tiers := None;
               Vercel.output_tiers := None;
               Vercel.input_cache_read_tiers := None;
               Vercel.input_cache_write_tiers := None |} |}.

(** The record persisted by a first run, and the record merged by a second
    run after the upstream input price moved by 0.0005. *)
Definition venicePersisted : Venice.ExistingModel :=
  Venice.asExisting (@Venice.mergeModel Host.decimalHost runDate (venicePriced (Host.decimal "3")) None).
Definition veniceDrifted : Venice.MergedModel :=
  @Venice.mergeModel Host.decimalHost runDate (venicePriced (Host.decimal "3.0005"))
    (Some venicePersisted).

Definition vercelPersisted : Vercel.ExistingModel :=
  Vercel.asExisting (@Vercel.mergeModel Host.decimalHost runDate (vercelPriced "0.000003") None).
Definition vercelDrifted : Vercel.MergedModel :=
  @Vercel.mergeModel Host.decimalHost runDate (vercelPriced "0.0000030005")
    (Some vercelPersisted).

(** A persisted Vercel record whose [limit.output] reads 0. *)
Definition vercelZeroLimit : Vercel.ExistingModel :=
  vercelExisting (Some "GPT-4o") (Some "gpt") None None (Some 0).



(** A Vercel payload with two entries of distinct ids, one of them already
    persisted with an outdated output limit. *)
Definition vercelPair : list Vercel.VercelModel :=
  [ vercelGpt4o; vercelModel "openai/o3" "o3" Vercel.Language 100000 ].
Definition vercelStore : gmap string VercelSync.file :=
  {[ "providers/vercel/models/openai/gpt-4o.toml" := VercelSync.Toml vercelCurated ]}.

(** A Vercel payload in which an image model is persisted on disk, alone and
    next to a language model of the same id. *)
Definition vercelImage : Vercel.VercelModel :=
  vercelModel "openai/dall-e-3" "DALL-E 3" Vercel.Image 0.
Definition vercelImageTwin : Vercel.VercelModel :=
  vercelModel "openai/dall-e-3" "DALL-E 3" Vercel.Language 4096.
Definition vercelImageStore : gmap string VercelSync.file :=
  {[ "providers/vercel/models/openai/dall-e-3.toml" := VercelSync.Toml vercelCurated ]}.

End Samples.

(* ===================================================================== *)
(** ** Orders on the family candidates *)
(* ===================================================================== *)

Module FamilyOrder.

(** No later element is longer than an earlier one. *)
Definition longest_first : list string -> Prop :=
  StronglySorted (fun a b => (String.length b <= String.length a)%nat).

(** The elements of a given length, in order. *)
Definition of_length (k : nat) (l : list string) : list string :=
  List.filter (fun s => (String.length s =? k)%nat) l.

End FamilyOrder.

(* ===================================================================== *)
(** ** [formatNumber] (the same function in both generator scripts) *)
(* ===================================================================== *)

Module NumberFormat.

(** [Number.MAX_SAFE_INTEGER]: up to here every integer is a number of
    its own and prints with its exact digits. *)
Definition MAX_SAFE_INTEGER : Z := 2 ^ 53 - 1.

(** [n.toString()] of a safe integer: its decimal digits, with a minus sign
    when negative. *)
Definition toString (n : Z) : string := NilEmpty.string_of_int (Z.to_int n).

(** [\d] *)
Definition is_digit (c : ascii) : bool :=
  let n := nat_of_ascii c in ((48 <=? n)%nat && (n <=? 57)%nat)%bool.

(** [\w]: letters, digits and the underscore *)
Definition is_word (c : ascii) : bool :=
  let n := nat_of_ascii c in
  (is_digit c
   || ((65 <=? n)%nat && (n <=? 90)%nat)
   || ((97 <=? n)%nat && (n <=? 122)%nat)
   || (n =? 95)%nat)%bool.

(** The number of digits the text starts with. *)
Fixpoint digit_run (s : string) : nat :=
  match s with
  | String c s' => if is_digit c then S (digit_run s') else O
  | EmptyString => O
  end.

(** The lookahead [(?=(\d{3})+(?!\d))] at the start of [s]: some positive
    number of groups of three digits ends where no digit follows, that is,
    the run of digits [s] starts with has a positive multiple of three as
    its length. *)
Definition lookahead (s : string) : bool :=
  let d := digit_run s in ((3 <=? d)%nat && (d mod 3 =? 0)%nat)%bool.

(** [\B] between the character before a position and the one after it:
    both are word characters or neither is; outside the text counts as a
    non-word character. *)
Definition non_boundary (prev next : option ascii) : bool :=
  Bool.eqb (match prev with Some c => is_word c | None => false end)
           (match next with Some c => is_word c | None => false end).

Definition first_char (s : string) : option ascii :=
  match s with String c _ => Some c | EmptyString => None end.

(** [s.replace(/\B(?=(\d{3})+(?!\d))/g, "_")]: an underscore goes in at
    every position where the pattern matches the empty string; [prev] is
    the character before the current position. *)
Fixpoint separate (prev : option ascii) (s : string) : string :=
  let mark :=
    if (non_boundary prev (first_char s) && lookahead s)%bool then "_" else "" in
  match s with
  | EmptyString => mark
  | String c s' => mark ++ String c (separate (Some c) s')
  end.

Definition formatNumber (n : Z) : string :=
  if 1000 <=? n then separate None (toString n) else toString n.

(** The text without its underscores. *)
Fixpoint strip (s : string) : string :=
  match s with
  | EmptyString => EmptyString
  | String c s' => if Ascii.eqb c "_"%char then strip s' else String c (strip s')
  end.

(** The pieces of the text between its underscores. *)
Fixpoint groups (s : string) : list string :=
  match s with
  | EmptyString => [EmptyString]
  | String c s' =>
      if Ascii.eqb c "_"%char then EmptyString :: groups s'
      else match groups s' with
           | g :: gs => String c g :: gs
           | [] => [String c EmptyString]
           end
  end.

(** Whether every character is a digit. *)
Fixpoint digits_only (s : string) : bool :=
  match s with
  | EmptyString => true
  | String c s' => (is_digit c && digits_only s')%bool
  end.

End NumberFormat.

(* ===================================================================== *)
(** ** The record schema ([schema.ts]): the constraints used below *)
(* ===================================================================== *)

Module Schema.

(** [z.enum(["text", "audio", "image", "video", "pdf"])] *)
Definition modality_values : list string := ["text"; "audio"; "image"; "video"; "pdf"].

(** A [modalities] array the schema accepts. *)
Definition valid_modalities (l : list string) : Prop :=
  List.Forall (fun m => In m modality_values) l.

(** [\d] *)
Definition is_digit (c : ascii) : bool :=
  let n := nat_of_ascii c in ((48 <=? n)%nat && (n <=? 57)%nat)%bool.

Definition is_hyphen (c : ascii) : bool := Ascii.eqb c "-"%char.

(** [/^\d{4}-\d{2}(-\d{2})?$/] *)
Definition date_pattern (s : string) : bool :=
  match list_ascii_of_string s with
  | [y1; y2; y3; y4; h1; m1; m2] =>
      is_digit y1 && is_digit y2 && is_digit y3 && is_digit y4 && is_hyphen h1
      && is_digit m1 && is_digit m2
  | [y1; y2; y3; y4; h1; m1; m2; h2; d1; d2] =>
      is_digit y1 && is_digit y2 && is_digit y3 && is_digit y4 && is_hyphen h1
      && is_digit m1 && is_digit m2 && is_hyphen h2 && is_digit d1 && is_digit d2
  | _ => false
  end.

(** A [knowledge] string the schema accepts. *)
Definition valid_knowledge (s : string) : Prop := date_pattern s = true.

(** [z.enum(["alpha", "beta", "deprecated"])] *)
Definition status_values : list string := ["alpha"; "beta"; "deprecated"].

(** A [status] string the schema accepts. *)
Definition valid_status (s : string) : Prop := In s status_values.

End Schema.

(* ===================================================================== *)
(** ** The fields the change detectors track *)
(* ===================================================================== *)

Module Tracked.

(** The field names of the [compare] calls of the Vercel detector, in call
    order. *)
Definition vercel_fields : list string :=
  [ "name"; "family"; "attachment"; "reasoning"; "tool_call";
    "structured_output"; "open_weights"; "release_date";
    "cost.input"; "cost.output"; "cost.cache_read"; "cost.cache_write";
    "limit.context"; "limit.output"; "modalities.input" ].

(** The field names of the [compare] calls of the Venice detector, in call
    order. *)
Definition venice_fields : list string :=
  [ "name"; "family"; "attachment"; "reasoning"; "tool_call";
    "structured_output"; "open_weights"; "release_date";
    "cost.input"; "cost.output"; "cost.cache_read"; "cost.cache_write";
    "cost.context_over_200k.input"; "cost.context_over_200k.output";
    "cost.context_over_200k.cache_read"; "cost.context_over_200k.cache_write";
    "limit.context"; "limit.output"; "modalities.input" ].

End Tracked.

(* ===================================================================== *)
(** ** Cloudflare AI Gateway: cross-referencing ([utils.sh]) *)
(* ===================================================================== *)

Module CrossReference.

(** Providers to cross-reference from source provider files *)
Definition CROSS_REFERENCE_PROVIDERS : list string := ["openai"; "anthropic"].

(** [sed 's/\./-/g'] *)
Fixpoint dots_to_hyphens (s : string) : string :=
  match s with
  | EmptyString => EmptyString
  | String c s' =>
      String (if Ascii.eqb c "."%char then "-"%char else c) (dots_to_hyphens s')
  end.

(** The arms of the [case] statement of [get_mapped_name], in order: the
    normalised name and the source file name it maps to. *)
Definition name_arms : list (string * string) :=
  [ ("claude-sonnet-4-5", "claude-sonnet-4-5");
    ("claude-opus-4-6", "claude-opus-4-6");
    ("claude-opus-4-5", "claude-opus-4-5");
    ("claude-haiku-4-5", "claude-haiku-4-5");
    ("claude-opus-4-1", "claude-opus-4-1");
    ("claude-sonnet-4", "claude-sonnet-4-0");
    ("claude-opus-4", "claude-opus-4-0");
    ("claude-3-5-sonnet", "claude-3-5-sonnet-20241022");
    ("claude-3-5-haiku", "claude-3-5-haiku-latest");
    ("claude-3-opus", "claude-3-opus-20240229");
    ("claude-3-sonnet", "claude-3-sonnet-20240229");
    ("claude-3-haiku", "claude-3-haiku-20240307");
    ("gpt-5-1", "gpt-5.1");
    ("gpt-5-2", "gpt-5.2");
    ("gpt-5-1-codex", "gpt-5.1-codex");
    ("gpt-3-5-turbo", "gpt-3.5-turbo") ].

(** The first arm whose pattern is the word, if any. *)
Fixpoint first_arm (word : string) (arms : list (string * string)) : option string :=
  match arms with
  | [] => None
  | (pattern, result) :: arms' =>
      if String.eqb word pattern then Some result else first_arm word arms'
  end.

(** [$(get_mapped_name "$model_name")]: what the function prints, as the
    caller captures it. *)
Definition get_mapped_name (model_name : string) : string :=
  (* First convert dots to hyphens for consistent lookup *)
  let normalized_name :=
    Cloudflare.command_substitution (dots_to_hyphens (Cloudflare.echo model_name)) in
  Cloudflare.command_substitution
    (Cloudflare.echo
       match first_arm normalized_name name_arms with
       | Some mapped => mapped
       | None => normalized_name
       end).

(** The path of a provider's source file for a model name. *)
Definition source_path (providers_dir provider name : string) : string :=
  providers_dir ++ "/" ++ provider ++ "/models/" ++ name ++ ".toml".

(** [find_source_file]: the path it prints when it returns 0, [None] when
    it returns 1.  [is_file] is the test [-f] on the file system. *)
Definition find_source_file (is_file : string -> bool)
    (provider model_name providers_dir : string) : option string :=
  (* is the provider in the cross-reference list? *)
  let is_cross_ref := existsb (fun p => String.eqb provider p) CROSS_REFERENCE_PROVIDERS in
  if negb is_cross_ref then None
  else
    let mapped_name := get_mapped_name model_name in
    let source_file := source_path providers_dir provider mapped_name in
    if is_file source_file then Some source_file
    else
      (* Try original name if mapping didn't work *)
      if negb (String.eqb mapped_name model_name) then
        let source_file := source_path providers_dir provider model_name in
        if is_file source_file then Some source_file else None
      else None.

End CrossReference.

(* ===================================================================== *)
(** ** Cloudflare AI Gateway: display names ([02_generate_model_names.sh]) *)
(* ===================================================================== *)

Module CloudflareNames.
Import Cloudflare.

(** The fields of one line from the second on, for the delimiter [/]: the
    text after the first slash, the whole line when there is none. *)
Fixpoint rest_fields_from (line s : string) : string :=
  match s with
  | EmptyString => line
  | String c s' => if Ascii.eqb c "/"%char then s' else rest_fields_from line s'
  end.

Definition rest_fields (line : string) : string := rest_fields_from line line.

(** [$(echo "$s" | cut -d'/' -f2-)] *)
Definition cut_rest_fields (s : string) : string :=
  command_substitution (unlines (map rest_fields (text_lines (echo s)))).

(** The atoms spell out a whole line that lower-casing leaves as it is:
    letters in lower case only, no dot, and the end-of-line anchor. *)
Fixpoint lower_case_line (re : list atom) : bool :=
  match re with
  | [] => false
  | EndOfLine :: _ => true
  | Lit c :: re' => Ascii.eqb (Js.lower_ascii c) c && lower_case_line re'
  | OneOf cs :: re' =>
      forallb (fun c => Ascii.eqb (Js.lower_ascii c) c) cs && lower_case_line re'
  | AnyChar :: _ => false
  end.

(** [jq -r --arg id "$id" '.[$id] // empty'] on [model_names.json], an
    object from model ids to display names.  A value that is [null],
    [false] or the empty string reads as the empty line and is represented
    by the empty string. *)
Definition lookup_name (ns : gmap string string) (model_id : string) : string :=
  default "" (ns !! model_id).

Record Progress : Type := {
  table : gmap string string;
  ADDED_COUNT : nat;
  SKIPPED_COUNT : nat
}.

(** One turn of the [while read] loop, on the id [jq -r '.id'] printed. *)
Definition step (st : Progress) (MODEL_ID : string) : Progress :=
  (* Skip empty IDs *)
  if String.eqb MODEL_ID "" || String.eqb MODEL_ID "null" then st
  else
    match should_include_model MODEL_ID with
    | Excluded =>
        {| table := table st; ADDED_COUNT := ADDED_COUNT st;
           SKIPPED_COUNT := S (SKIPPED_COUNT st) |}
    | Included =>
        let EXISTING := lookup_name (table st) MODEL_ID in
        if String.eqb EXISTING "" then
          (* Add model ID with ID as placeholder *)
          {| table := <[MODEL_ID := MODEL_ID]> (table st);
             ADDED_COUNT := S (ADDED_COUNT st);
             SKIPPED_COUNT := SKIPPED_COUNT st |}
        else st
    end.

(** The script: [data] is the list of ids of [.data] when the response
    file exists and has data, [names_file] the names file when it exists.
    [None] is [exit 1]. *)
Definition main (data : option (list string)) (names_file : option (gmap string string))
  : option Progress :=
  match data with
  | None => None
  | Some ids =>
      if (length ids =? 0)%nat then None
      else
        (* Initialize model_names.json if it doesn't exist *)
        let ns := default ∅ names_file in
        Some (foldl step {| table := ns; ADDED_COUNT := 0; SKIPPED_COUNT := 0 |} ids)
  end.

(** An id the loop acts on: not blank, not the word [null], and kept by
    the filter. *)
Definition eligible (model_id : string) : Prop :=
  model_id <> "" /\ model_id <> "null" /\ should_include_model model_id = Included.

(** The turns that count as skipped: ids that are not blank and that the
    filter rejects. *)
Definition rejected (ids : list string) : nat :=
  length (List.filter
    (fun model_id =>
       negb (String.eqb model_id "" || String.eqb model_id "null")
       && match should_include_model model_id with
          | Excluded => true
          | Included => false
          end) ids).

(** The atoms of a compiled pattern begin with the characters of [p]. *)
Fixpoint literal_prefix (p : string) (re : list atom) : bool :=
  match p with
  | EmptyString => true
  | String c p' =>
      match re with
      | Lit d :: re' => Ascii.eqb c d && literal_prefix p' re'
      | _ => false
      end
  end.

(** The providers a well-known pattern can belong to. *)
Definition pattern_provider (pattern : string) : bool :=
  existsb (fun p => literal_prefix (p ++ "/") (compile pattern))
    CrossReference.CROSS_REFERENCE_PROVIDERS.

(** A response with a kept Workers AI model, a model of a provider that
    is not configured, and a well-known model that already has a curated
    display name. *)
Definition sample_ids : list string :=
  ["workers-ai/@cf/meta/llama-3-8b"; "replicate/flux"; "openai/gpt-4o"].
Definition sample_names : gmap string string := {[ "openai/gpt-4o" := "GPT-4o" ]}.

End CloudflareNames.

(* ===================================================================== *)
(** ** Sample runs *)
(* ===================================================================== *)

Module Runs.

(** A Venice payload of two entries that go to different files, and a
    store that holds a hand-edited record for the first of them. *)
Definition venicePair : list Venice.VeniceModel :=
  [Samples.venice32k; Samples.veniceUnknown].
Definition veniceStore : gmap string VeniceSync.file :=
  {[ "providers/venice/models/llama-3.3-70b.toml" :=
       VeniceSync.Toml Samples.veniceTightened ]}.

(** A Vercel store whose record holds the empty string as its family. *)
Definition vercelBlankFamily : gmap string VercelSync.file :=
  {[ "providers/vercel/models/openai/gpt-4o.toml" :=
       VercelSync.Toml
         (Samples.vercelExisting (Some "GPT-4o") (Some "") None None None) ]}.

End Runs.

(* ===================================================================== *)
(** ** Cloudflare AI Gateway: the model files ([03_generate_model_toml.sh]) *)
(* ===================================================================== *)

(** The script runs under [set -eo pipefail]: a command that fails ends it,
    which is [None] below.  The file tree is a finite map from the paths of
    regular files to their text, and a directory is there when a file lies
    below it: no links, no empty directories.  Paths are compared as the
    strings the script forms, which name different files when they are
    different strings as long as the provider directory and the ids are
    plain paths ([plain_dir], [plain_response]); the statements about the
    tree are made within that scope.  The programs the script calls on
    single values are a host. *)
Module CloudflareToml.
Import Js Cloudflare CrossReference CloudflareNames.

Class ShellHost : Type := {
  (** [get_model_family]: the family of the first pattern of
      [model_families.json] that matches the id, else the empty string *)
  get_model_family : string -> string;
  (** [date -r "$t" +%Y-%m-%d || date -d "@$t" +%Y-%m-%d || date +%Y-%m-%d] *)
  date_of : string -> string;
  (** [date +%Y-%m-%d] *)
  today : string;
  (** [echo "$c * 1000000" | bc -l | sed 's/^\./0./' | sed 's/0*$//' | sed 's/\.$//'] *)
  times_million : string -> string;
  (** [(( $(echo "$v < 0" | bc -l) ))] *)
  below_zero : string -> bool
}.

(** One line of [jq -c '.data[]'], as the four [jq -r] calls read it. *)
Record Entry : Type := {
  MODEL_ID : string;
  COST_IN : string;
  COST_OUT : string;
  CREATED_AT : string
}.

Definition quote : string := String "034"%char EmptyString.
Definition backslash : string := String "092"%char EmptyString.
(** [${DISPLAY_NAME//\"/\\\"}] *)
Fixpoint escape_quotes (s : string) : string :=
  match s with
  | EmptyString => EmptyString
  | String c s' =>
      if Ascii.eqb c "034"%char then backslash ++ quote ++ escape_quotes s'
      else String c (escape_quotes s')
  end.

(** [tr 'E' 'e'] *)
Fixpoint tr_E_e (s : string) : string :=
  match s with
  | EmptyString => EmptyString
  | String c s' => String (if Ascii.eqb c "E"%char then "e"%char else c) (tr_E_e s')
  end.

(** The text after the last slash: [basename] of a path that does not end
    in a slash. *)
Fixpoint basename (s : string) : string :=
  match s with
  | EmptyString => EmptyString
  | String c s' =>
      if Ascii.eqb c "/"%char || includes s' "/" then basename s' else s
  end.

(** The directories a path lies in: its non-empty prefixes that a slash
    follows. *)
Fixpoint directories_from (before rest : string) : list string :=
  match rest with
  | EmptyString => []
  | String c rest' =>
      (if Ascii.eqb c "/"%char && negb (String.eqb before "") then [before] else [])
      ++ directories_from (before ++ String c EmptyString) rest'
  end.

Definition directories (path : string) : list string :=
  directories_from EmptyString path.

(** [[[ -f "$path" ]]] *)
Definition is_file (fs : gmap string string) (path : string) : bool :=
  match fs !! path with Some _ => true | None => false end.

(** [[[ -d "$path" ]]] *)
Definition is_dir (fs : gmap string string) (path : string) : bool :=
  existsb (fun file => startsWith file (path ++ "/")) (map fst (map_to_list fs)).

(** [mkdir -p "$(dirname "$path")"] succeeds unless one of the directories
    to make is a regular file. *)
Definition mkdir_p (fs : gmap string string) (path : string) : bool :=
  forallb (fun d => negb (is_file fs d)) (directories path).

(** [cp "$source" "$target"]: into the target when that is a directory. *)
Definition cp (fs : gmap string string) (source target : string)
  : option (gmap string string) :=
  match fs !! source with
  | None => None
  | Some text =>
      if is_dir fs target then
        let inside := target ++ "/" ++ basename source in
        if is_dir fs inside then None else Some (<[inside := text]> fs)
      else Some (<[target := text]> fs)
  end.

(** The pieces of a path between its slashes. *)
Fixpoint segments (path : string) : list string :=
  match path with
  | EmptyString => [EmptyString]
  | String c path' =>
      if Ascii.eqb c "/"%char then EmptyString :: segments path'
      else
        match segments path' with
        | [] => [String c EmptyString]
        | segment :: rest => String c segment :: rest
        end
  end.

(** A plain path: one line, and no segment that is empty, [.] or [..], so
    that the string is the name [find] prints for the file. *)
Definition plain_path (path : string) : bool :=
  one_line path
  && forallb (fun segment =>
                negb (String.eqb segment "") && negb (String.eqb segment ".")
                && negb (String.eqb segment ".."))
       (segments path).

(** Every file name of the tree is one line. *)
Definition one_line_tree (fs : gmap string string) : bool :=
  forallb one_line (map fst (map_to_list fs)).

(** [find ... | wc -l]: the lines of the listing, in which every name is
    followed by a newline. *)
Definition wc_l (names : list string) : nat := length (text_lines (unlines names)).

(** [find "$dir" -name "*.toml" -type f] *)
Definition find_toml (fs : gmap string string) (dir : string) : list string :=
  List.filter (fun file => startsWith file (dir ++ "/") && endsWith file ".toml")
    (map fst (map_to_list fs)).

Record State : Type := {
  files : gmap string string;
  (** [model_names.json], when the file exists *)
  names_file : option (gmap string string);
  API_MODEL_FILES : list string;
  GENERATED_COUNT : nat;
  SKIPPED_COUNT : nat;
  CROSS_REF_COUNT : nat
}.

Record Summary : Type := {
  s_files : gmap string string;
  s_names_file : option (gmap string string);
  s_generated : nat;
  s_skipped : nat;
  s_cross_referenced : nat;
  s_removed : nat;
  FINAL_COUNT : nat
}.

Section Script.
Context `{ShellHost}.
Variable PROVIDER_DIR : string.

Definition MODELS_DIR : string := PROVIDER_DIR ++ "/models".
Definition PROVIDERS_DIR : string := PROVIDER_DIR ++ "/..".

Definition MODEL_PATH (model_id : string) : string := model_id ++ ".toml".
Definition FULL_PATH (model_id : string) : string :=
  MODELS_DIR ++ "/" ++ MODEL_PATH model_id.

(** Convert cost per token to cost per million tokens; negative or
    missing costs give 0. *)
Definition cost_per_million (COST : string) : string :=
  if negb (String.eqb COST "0") && negb (String.eqb COST "null") then
    let COST_BC := command_substitution (tr_E_e (echo COST)) in
    let PER_M := times_million COST_BC in
    if below_zero PER_M then "0" else PER_M
  else "0".

Definition release_date (created_at : string) : string :=
  if negb (String.eqb created_at "0") && negb (String.eqb created_at "null")
  then date_of created_at
  else today.

(** [echo "${TOML_CONTENT}"] *)
Definition toml_content (DISPLAY_NAME MODEL_FAMILY RELEASE_DATE
    COST_IN_PER_M COST_OUT_PER_M : string) : string :=
  "name = " ++ quote ++ DISPLAY_NAME ++ quote
  ++ (if negb (String.eqb MODEL_FAMILY "")
      then newline ++ "family = " ++ quote ++ MODEL_FAMILY ++ quote
      else "")
  ++ newline ++ "release_date = " ++ quote ++ RELEASE_DATE ++ quote
  ++ newline ++ "last_updated = " ++ quote ++ RELEASE_DATE ++ quote
  ++ newline ++ "attachment = false"
  ++ newline ++ "reasoning = false"
  ++ newline ++ "temperature = true"
  ++ newline ++ "tool_call = false"
  ++ newline ++ "open_weights = false"
  ++ newline
  ++ newline ++ "[cost]"
  ++ newline ++ "input = " ++ COST_IN_PER_M
  ++ newline ++ "output = " ++ COST_OUT_PER_M
  ++ newline
  ++ newline ++ "[limit]"
  ++ newline ++ "context = 128000"
  ++ newline ++ "output = 16384"
  ++ newline
  ++ newline ++ "[modalities]"
  ++ newline ++ "input = [" ++ quote ++ "text" ++ quote ++ "]"
  ++ newline ++ "output = [" ++ quote ++ "text" ++ quote ++ "]"
  ++ newline.

(** One turn of the [while read] loop. *)
Definition step (st : State) (e : Entry) : option State :=
  let id := MODEL_ID e in
  (* Skip empty IDs *)
  if String.eqb id "" || String.eqb id "null" then Some st
  else
    match should_include_model id with
    | Excluded =>
        Some {| files := files st; names_file := names_file st;
                API_MODEL_FILES := API_MODEL_FILES st;
                GENERATED_COUNT := GENERATED_COUNT st;
                SKIPPED_COUNT := S (SKIPPED_COUNT st);
                CROSS_REF_COUNT := CROSS_REF_COUNT st |}
    | Included =>
        (* Extract provider and model name *)
        let PROVIDER := cut_first_field id in
        let MODEL_NAME := cut_rest_fields id in
        (* echo "${FULL_PATH}" >> "${API_MODEL_FILES}" *)
        let listed := (API_MODEL_FILES st ++ text_lines (echo (FULL_PATH id)))%list in
        (* Create directory if needed *)
        if negb (mkdir_p (files st) (FULL_PATH id)) then None
        else
          let SOURCE_FILE :=
            default "" (find_source_file (is_file (files st)) PROVIDER MODEL_NAME
                          PROVIDERS_DIR) in
          if negb (String.eqb SOURCE_FILE "") && is_file (files st) SOURCE_FILE then
            match cp (files st) SOURCE_FILE (FULL_PATH id) with
            | None => None
            | Some copied =>
                Some {| files := copied; names_file := names_file st;
                        API_MODEL_FILES := listed;
                        GENERATED_COUNT := GENERATED_COUNT st;
                        SKIPPED_COUNT := SKIPPED_COUNT st;
                        CROSS_REF_COUNT := S (CROSS_REF_COUNT st) |}
            end
          else
            (* Generate file with defaults *)
            match names_file st with
            | None => None
            | Some names =>
                let found := lookup_name names id in
                let names' :=
                  if String.eqb found "" then <[id := id]> names else names in
                let DISPLAY_NAME :=
                  escape_quotes (if String.eqb found "" then id else found) in
                let text :=
                  toml_content DISPLAY_NAME (get_model_family id)
                    (release_date (CREATED_AT e))
                    (cost_per_million (COST_IN e)) (cost_per_million (COST_OUT e)) in
                (* Always overwrite *)
                if is_dir (files st) (FULL_PATH id) then None
                else
                  Some {| files := <[FULL_PATH id := text]> (files st);
                          names_file := Some names';
                          API_MODEL_FILES := listed;
                          GENERATED_COUNT := S (GENERATED_COUNT st);
                          SKIPPED_COUNT := SKIPPED_COUNT st;
                          CROSS_REF_COUNT := CROSS_REF_COUNT st |}
            end
    end.

Fixpoint loop (st : State) (entries : list Entry) : option State :=
  match entries with
  | [] => Some st
  | e :: entries' =>
      match step st e with
      | Some st' => loop st' entries'
      | None => None
      end
  end.

(** [grep -qxF "$file" "$API_MODEL_FILES"]: each line of the pattern text
    is a pattern, and some line of the list is one of them. *)
Definition listed_in (lines : list string) (file : string) : bool :=
  existsb (fun pattern => existsb (String.eqb pattern) lines)
    (text_lines (file ++ newline)).

(** Find and remove models that are not in the API response. *)
Definition remove_unlisted (lines : list string) (acc : gmap string string * nat)
    (EXISTING_FILE : string) : gmap string string * nat :=
  if negb (listed_in lines EXISTING_FILE)
  then (delete EXISTING_FILE (fst acc), S (snd acc))
  else acc.

(** The script: [data] is the list of entries of [.data] when the response
    file exists and has data.  The count at the end fails when no models
    directory is left. *)
Definition main (data : option (list Entry)) (fs : gmap string string)
    (names : option (gmap string string)) : option Summary :=
  match data with
  | None => None
  | Some entries =>
      if (length entries =? 0)%nat then None
      else
        match loop {| files := fs; names_file := names; API_MODEL_FILES := [];
                      GENERATED_COUNT := 0; SKIPPED_COUNT := 0;
                      CROSS_REF_COUNT := 0 |} entries with
        | None => None
        | Some st =>
            let '(kept, REMOVED_COUNT) :=
              foldl (remove_unlisted (API_MODEL_FILES st)) (files st, 0%nat)
                (find_toml (files st) MODELS_DIR) in
            if is_dir kept MODELS_DIR || is_file kept MODELS_DIR then
              Some {| s_files := kept; s_names_file := names_file st;
                      s_generated := GENERATED_COUNT st;
                      s_skipped := SKIPPED_COUNT st;
                      s_cross_referenced := CROSS_REF_COUNT st;
                      s_removed := REMOVED_COUNT;
                      FINAL_COUNT := wc_l (find_toml kept MODELS_DIR) |}
            else None
        end
  end.

(** A path below the models directory. *)
Definition below_models (path : string) : bool :=
  startsWith path (MODELS_DIR ++ "/").

(** The provider directory as [pwd] prints it: a slash and a plain path. *)
Definition plain_dir : bool :=
  match PROVIDER_DIR with
  | String c rel => Ascii.eqb c "/"%char && plain_path rel
  | EmptyString => false
  end.

(** The provider directory is not itself the directory of a provider the
    script copies from. *)
Definition apart_from_sources : bool :=
  negb (existsb (String.eqb (basename PROVIDER_DIR)) CROSS_REFERENCE_PROVIDERS).

(** The ids of the response the loop acts on, in order: not blank, not the
    word [null], and kept by the filter. *)
Definition kept_ids (entries : list Entry) : list string :=
  List.filter
    (fun model_id =>
       negb (String.eqb model_id "" || String.eqb model_id "null")
       && match should_include_model model_id with
          | Included => true
          | Excluded => false
          end) (map MODEL_ID entries).

(** The ids the loop acts on are plain paths. *)
Definition plain_response (entries : list Entry) : bool :=
  forallb plain_path (kept_ids entries).

(** The file of some id of the response that the loop acts on. *)
Definition file_of_kept (entries : list Entry) (path : string) : Prop :=
  exists e, In e entries /\ eligible (MODEL_ID e) /\ path = FULL_PATH (MODEL_ID e).

End Script.

(** A host for the worked examples: no families file, one fixed day for
    every date, and [bc] on the two prices the examples use. *)
#[export] Instance sampleShell : ShellHost :=
  {| get_model_family := fun _ => "";
     date_of := fun _ => "2024-02-29";
     today := "2025-06-01";
     times_million := fun c =>
       if String.eqb c "0.000003" then "3"
       else if String.eqb c "-0.000001" then "-1"
       else "0";
     below_zero := fun v => startsWith v "-" |}.

(** A checkout in which the OpenAI provider has a file for [gpt-4o] and the
    models directory holds the file of a model of an earlier response, and a
    response with a Workers AI model, a model of a provider that is not
    configured, and [openai/gpt-4o]. *)
Definition sample_dir : string := "/repo/providers/cloudflare-ai-gateway".
Definition sample_source : string :=
  "/repo/providers/cloudflare-ai-gateway/../openai/models/gpt-4o.toml".
Definition sample_stale : string :=
  "/repo/providers/cloudflare-ai-gateway/models/workers-ai/@cf/meta/llama-2-7b.toml".
Definition sample_tree : gmap string string :=
  {[ sample_source := "name = GPT-4o"; sample_stale := "name = Llama 2 7B" ]}.
Definition sample_entry (model_id cost : string) : Entry :=
  {| MODEL_ID := model_id; COST_IN := cost; COST_OUT := cost; CREATED_AT := "0" |}.
Definition sample_response : list Entry :=
  [ sample_entry "workers-ai/@cf/meta/llama-3-8b" "0.000003";
    sample_entry "replicate/flux" "0";
    sample_entry "openai/gpt-4o" "0" ].

End CloudflareToml.
(** The longest tags are tried first, ties in declaration order. *)
Example sortedFamilies_head :
  firstn 4 Family.sortedFamilies =
  ["sonar-deep-research"; "gemini-flash-lite"; "deepseek-thinking";
   "gemini-embedding"].
Proof. reflexivity. Qed.

(** The tie-break of the inference: the longer tag wins over the prefix it
    contains. *)
Example infer_claude_opus :
  Vercel.inferFamily "claude-opus-4-6" "Claude Opus 4.6" = Some "claude-opus" /\
  Venice.inferFamily "claude-opus-4-6" "Claude Opus 4.6" = Some "claude-opus".
Proof. split; vm_compute; reflexivity. Qed.

(* ===================================================================== *)
(** ** Facts about the JavaScript primitives *)
(* ===================================================================== *)

Module DoubleFacts.

Lemma number_eqb_refl x : Double.json_eqb x x = true.
Proof.
  destruct x as [s|s| |s m e]; cbn; try done.
  by rewrite Bool.eqb_reflx, Pos.eqb_refl, Z.eqb_refl.
Qed.

Lemma number_eqb_same x y : Double.json_eqb x y = true <-> Double.same x y.
Proof.
  unfold Double.same. split.
  - destruct x as [s|s| |s m e], y as [s'|s'| |s' m' e']; cbn; try done;
      try (intros _; right; left; by eauto);
      try (intros _; right; right; by split).
    rewrite !andb_true_iff, Pos.eqb_eq, Z.eqb_eq.
    intros [[Hs ->] ->]. apply Bool.eqb_prop in Hs as ->. by left.
  - intros [->|[(s & s' & -> & ->)|[Hx Hy]]].
    + apply number_eqb_refl.
    + done.
    + by destruct x, y.
Qed.

(** [x - x] is 0 for a finite [x] and NaN otherwise. *)
Lemma sub_diag x :
  Double.sub x x = S754_zero false \/ Double.sub x x = S754_nan.
Proof.
  destruct x as [s|s| |s m e]; cbn.
  - left. by destruct s.
  - right. by destruct s.
  - by right.
  - left. unfold Double.sub, SFsub.
    rewrite Z.min_id. unfold shl_align.
    match goal with |- binary_normalize _ _ ?d _ _ = _ =>
      assert (Hd : d = 0) by apply Z.sub_diag; rewrite Hd end.
    reflexivity.
Qed.

End DoubleFacts.

Module JsFacts.
Import Js.

Lemma list_eqb_refl l : list_eqb l l = true.
Proof. induction l as [|x l IH]; simpl; [done|]. by rewrite String.eqb_refl, IH. Qed.

Lemma list_eqb_eq l1 l2 : list_eqb l1 l2 = true <-> l1 = l2.
Proof.
  split; [|intros ->; apply list_eqb_refl].
  revert l2; induction l1 as [|x l1 IH]; intros [|y l2]; simpl; try done.
  rewrite andb_true_iff, String.eqb_eq. intros [-> ?]. f_equal. by apply IH.
Qed.

Lemma json_eqb_refl v : json_eqb v v = true.
Proof.
  destruct v; simpl;
    auto using Bool.eqb_reflx, String.eqb_refl, list_eqb_refl, Z.eqb_refl,
      DoubleFacts.number_eqb_refl.
Qed.

Lemma str_differs a b : json_eqb (of_str a) (of_str b) = false <-> a <> b.
Proof.
  destruct a as [x|], b as [y|]; cbn; try (split; [done|congruence]).
  rewrite String.eqb_neq. split; congruence.
Qed.

Lemma bool_differs a b : json_eqb (of_bool a) (of_bool b) = false <-> a <> b.
Proof.
  destruct a as [[]|], b as [[]|]; cbn; split; congruence.
Qed.

Lemma int_differs a b : json_eqb (of_int a) (of_int b) = false <-> a <> b.
Proof.
  destruct a as [x|], b as [y|]; cbn; try (split; [done|congruence]).
  rewrite Z.eqb_neq. split; congruence.
Qed.

Lemma arr_differs a b : json_eqb (of_arr a) (of_arr b) = false <-> a <> b.
Proof.
  destruct a as [x|], b as [y|]; cbn; try (split; [done|congruence]).
  rewrite <- not_true_iff_false, list_eqb_eq. split; congruence.
Qed.

Lemma num_differs a b :
  json_eqb (of_num a) (of_num b) = false <-> ~ same_price a b.
Proof.
  destruct a as [x|], b as [y|]; cbn; try (split; [tauto|done]);
    try (split; [discriminate|tauto]).
  by rewrite <- not_true_iff_false, DoubleFacts.number_eqb_same.
Qed.

End JsFacts.

(* ===================================================================== *)
(** ** Sanity checks of the example host *)
(* ===================================================================== *)

Module HostExamples.
Import Js Host.

Example civil_epoch : civil 0 = "1970-01-01".
Proof. reflexivity. Qed.

Example civil_leap_day : timestampToDate 1709164800 = "2024-02-29".
Proof. reflexivity. Qed.

Example parse_price :
  Double.mul (parseFloat "0.000003") Vercel.million = decimal "3".
Proof. reflexivity. Qed.

(** [0.001], the literal of the tolerance *)
Example parse_epsilon : decimal "0.001" = Vercel.EPSILON.
Proof. reflexivity. Qed.

End HostExamples.

(* ===================================================================== *)
(** ** The reconcilers: field provenance *)
(* ===================================================================== *)

Section Provenance.
Import Js.
Context (host : JsHost).

(** Shared unfolding step for the projections of a merged record. *)
Ltac merged_field := unfold Venice.mergeModel, Vercel.mergeModel; cbn [
  Venice.name Venice.family Venice.knowledge Venice.interleaved Venice.status
  Venice.limit Venice.output Venice.context
  Vercel.name Vercel.family Vercel.knowledge Vercel.interleaved Vercel.status
  Vercel.limit Vercel.output Vercel.context ].

(** C1 (as amended): in the Venice reconciler an existing [limit.output]
    smaller than the proposal (a quarter of the context window) is kept and
    otherwise the proposal is used; in the Vercel reconciler the payload's
    [max_tokens] is used whenever it is positive and the existing
    [limit.output] (else 0) only when it is not. *)
Theorem limit_output_by_provider (today : string) :
  (forall api e o,
      Venice.existing_limit_output e = Some o ->
      o < Venice.proposedOutputTokens api ->
      Venice.output (Venice.limit (Venice.mergeModel today api e)) = o) /\
  (forall api e,
      (forall o, Venice.existing_limit_output e = Some o ->
                 Venice.proposedOutputTokens api <= o) ->
      Venice.output (Venice.limit (Venice.mergeModel today api e))
      = Venice.proposedOutputTokens api) /\
  (forall api e,
      0 < Vercel.max_tokens api ->
      Vercel.output (Vercel.limit (Vercel.mergeModel today api e))
      = Vercel.max_tokens api) /\
  (forall api e,
      Vercel.max_tokens api <= 0 ->
      Vercel.output (Vercel.limit (Vercel.mergeModel today api e))
      = nullish (Vercel.existing_limit_output e) 0).
Proof.
  split_and!.
  - intros api e o He Hlt. merged_field. rewrite He.
    destruct (Z.ltb_spec o (Venice.proposedOutputTokens api)); lia.
  - intros api e Hge. merged_field.
    destruct (Venice.existing_limit_output e) as [o|]; [|done].
    specialize (Hge o eq_refl).
    destruct (Z.ltb_spec o (Venice.proposedOutputTokens api)); lia.
  - intros api e Hpos. merged_field.
    destruct (Z.ltb_spec 0 (Vercel.max_tokens api)); lia.
  - intros api e Hnonpos. merged_field.
    destruct (Z.ltb_spec 0 (Vercel.max_tokens api)); [lia|done].
Qed.

(** C2 (as amended): the Venice reconciler always takes the payload's name;
    the Vercel reconciler keeps the existing record's name whenever it has
    one and takes the payload's name only otherwise. *)
Theorem name_by_provider (today : string) :
  (forall api e,
      Venice.name (Venice.mergeModel today api e)
      = Venice.spec_name (Venice.model_spec api)) /\
  (forall api e n,
      Vercel.x_name e = Some n ->
      Vercel.name (Vercel.mergeModel today api (Some e)) = n) /\
  (forall api e,
      e ≫= Vercel.x_name = None ->
      Vercel.name (Vercel.mergeModel today api e) = Vercel.api_name api).
Proof.
  split_and!.
  - done.
  - intros api e n Hn. merged_field. cbn. by rewrite Hn.
  - intros api e Hn. merged_field. by rewrite Hn.
Qed.

(** The family rule of the two reconcilers.  The Vercel reconciler keeps a
    pinned existing family and infers one only when none is pinned; the
    Venice reconciler takes the inferred family whenever inference yields
    one and falls back to the existing family only when it yields none. *)
Theorem family_by_provider (today : string) :
  (forall api e f,
      Vercel.x_family e = Some f ->
      Vercel.family (Vercel.mergeModel today api (Some e)) = Some f) /\
  (forall api e,
      e ≫= Vercel.x_family = None ->
      Vercel.family (Vercel.mergeModel today api e)
      = Vercel.inferFamily (Vercel.id api) (Vercel.api_name api)) /\
  (forall api e f,
      Venice.inferFamily (Venice.id api) (Venice.spec_name (Venice.model_spec api))
      = Some f ->
      Venice.family (Venice.mergeModel today api e) = Some f) /\
  (forall api e,
      Venice.inferFamily (Venice.id api) (Venice.spec_name (Venice.model_spec api))
      = None ->
      Venice.family (Venice.mergeModel today api e) = e ≫= Venice.x_family).
Proof.
  split_and!; intros api e; [intros f Hf | intros Hf | intros f Hf | intros Hf];
    merged_field; cbn [mbind option_bind]; by rewrite Hf.
Qed.

(** The three manual fields on any existing record, schema-valid or not:
    [interleaved] is copied whenever the existing record has it;
    [knowledge] is copied when it is a non-empty string; [status] is copied
    whenever present by the Venice reconciler and when non-empty by the
    Vercel reconciler; a field the existing record lacks, and every one of
    the three when there is no existing record, is omitted; none depends on
    the payload or the run date. *)
Lemma pass_through_truthy (today : string) :
  (forall api e v,
      Venice.x_knowledge e = Some v -> v <> "" ->
      Venice.knowledge (Venice.mergeModel today api (Some e)) = Some v) /\
  (forall api e,
      Venice.interleaved (Venice.mergeModel today api (Some e)) = Venice.x_interleaved e
      /\ Venice.status (Venice.mergeModel today api (Some e)) = Venice.x_status e) /\
  (forall api e,
      Venice.x_knowledge e = None ->
      Venice.knowledge (Venice.mergeModel today api (Some e)) = None) /\
  (forall api,
      let m := Venice.mergeModel today api None in
      Venice.knowledge m = None /\ Venice.interleaved m = None /\ Venice.status m = None) /\
  (forall api e v,
      Vercel.x_knowledge e = Some v -> v <> "" ->
      Vercel.knowledge (Vercel.mergeModel today api (Some e)) = Some v) /\
  (forall api e v,
      Vercel.x_status e = Some v -> v <> "" ->
      Vercel.status (Vercel.mergeModel today api (Some e)) = Some v) /\
  (forall api e,
      Vercel.interleaved (Vercel.mergeModel today api (Some e)) = Vercel.x_interleaved e) /\
  (forall api e,
      (Vercel.x_knowledge e = None ->
       Vercel.knowledge (Vercel.mergeModel today api (Some e)) = None) /\
      (Vercel.x_status e = None ->
       Vercel.status (Vercel.mergeModel today api (Some e)) = None)) /\
  (forall api,
      let m := Vercel.mergeModel today api None in
      Vercel.knowledge m = None /\ Vercel.interleaved m = None /\ Vercel.status m = None) /\
  (forall today' api api' e,
      let m := Venice.mergeModel today api e in
      let m' := Venice.mergeModel today' api' e in
      Venice.knowledge m = Venice.knowledge m'
      /\ Venice.interleaved m = Venice.interleaved m'
      /\ Venice.status m = Venice.status m') /\
  (forall today' api api' e,
      let m := Vercel.mergeModel today api e in
      let m' := Vercel.mergeModel today' api' e in
      Vercel.knowledge m = Vercel.knowledge m'
      /\ Vercel.interleaved m = Vercel.interleaved m'
      /\ Vercel.status m = Vercel.status m').
Proof.
  assert (Hk : forall v : string, v <> "" -> otruthy (Some v) = true).
  { intros v Hv. cbn. unfold truthy. by destruct (String.eqb_spec v ""). }
  split_and!; try (intros; merged_field; by cbn).
  - intros api e v He Hv. merged_field. cbn. by rewrite He, Hk.
  - intros api e He. merged_field. cbn. by rewrite He.
  - intros api e v He Hv. merged_field. cbn. by rewrite He, Hk.
  - intros api e v He Hv. merged_field. cbn. by rewrite He, Hk.
  - intros api e. split; intros He; merged_field; cbn; by rewrite He.
Qed.

Lemma valid_knowledge_truthy (o : option string) :
  (forall v, o = Some v -> Schema.valid_knowledge v) ->
  (if otruthy o then o else None) = o.
Proof.
  destruct o as [v|]; [|done]. intros Hv. cbn.
  destruct (String.eqb_spec v "") as [->|Hne].
  - by specialize (Hv "" eq_refl).
  - unfold truthy. by destruct (String.eqb_spec v "").
Qed.

Lemma valid_status_truthy (o : option string) :
  (forall v, o = Some v -> Schema.valid_status v) ->
  (if otruthy o then o else None) = o.
Proof.
  destruct o as [v|]; [|done]. intros Hv. cbn.
  destruct (Hv v eq_refl) as [<-|[<-|[<-|[]]]]; reflexivity.
Qed.

(** C4.  For either reconciler and an existing record whose [knowledge] and
    [status], where present, are values the catalog schema accepts
    ([YYYY-MM] or [YYYY-MM-DD]; [alpha], [beta] or [deprecated]): the merged
    record carries [knowledge], [interleaved] and [status] exactly as the
    existing record has them, set where it has the field and omitted where
    it lacks it; with no existing record all three are omitted; and none of
    the three depends on the payload or the run date. *)
Theorem pass_through_on_valid_records (today : string) :
  (forall api e,
      (forall v, Venice.x_knowledge e = Some v -> Schema.valid_knowledge v) ->
      (forall v, Venice.x_status e = Some v -> Schema.valid_status v) ->
      let m := Venice.mergeModel today api (Some e) in
      Venice.knowledge m = Venice.x_knowledge e /\
      Venice.interleaved m = Venice.x_interleaved e /\
      Venice.status m = Venice.x_status e) /\
  (forall api,
      let m := Venice.mergeModel today api None in
      Venice.knowledge m = None /\ Venice.interleaved m = None /\ Venice.status m = None) /\
  (forall api e,
      (forall v, Vercel.x_knowledge e = Some v -> Schema.valid_knowledge v) ->
      (forall v, Vercel.x_status e = Some v -> Schema.valid_status v) ->
      let m := Vercel.mergeModel today api (Some e) in
      Vercel.knowledge m = Vercel.x_knowledge e /\
      Vercel.interleaved m = Vercel.x_interleaved e /\
      Vercel.status m = Vercel.x_status e) /\
  (forall api,
      let m := Vercel.mergeModel today api None in
      Vercel.knowledge m = None /\ Vercel.interleaved m = None /\ Vercel.status m = None) /\
  (forall today' api api' e,
      let m := Venice.mergeModel today api e in
      let m' := Venice.mergeModel today' api' e in
      Venice.knowledge m = Venice.knowledge m'
      /\ Venice.interleaved m = Venice.interleaved m'
      /\ Venice.status m = Venice.status m') /\
  (forall today' api api' e,
      let m := Vercel.mergeModel today api e in
      let m' := Vercel.mergeModel today' api' e in
      Vercel.knowledge m = Vercel.knowledge m'
      /\ Vercel.interleaved m = Vercel.interleaved m'
      /\ Vercel.status m = Vercel.status m').
Proof.
  split_and!; try (intros; merged_field; by cbn).
  - intros api e Hk Hs. cbv zeta. merged_field. cbn [mbind option_bind].
    by rewrite valid_knowledge_truthy.
  - intros api e Hk Hs. cbv zeta. merged_field. cbn [mbind option_bind].
    by rewrite valid_knowledge_truthy, valid_status_truthy.
Qed.

End Provenance.

(** *** Worked instances *)

Lemma limit_output_by_provider_witness :
  Venice.output (Venice.limit
    (@Venice.mergeModel Host.decimalHost Samples.runDate Samples.venice32k
       (Some Samples.veniceTightened))) = 4000.
Proof.
  apply (proj1 (limit_output_by_provider Host.decimalHost Samples.runDate)).
  - reflexivity.
  - vm_compute. reflexivity.
Defined.

(** C1 fails in the Vercel reconciler: the existing limit is 4000, the
    payload proposes 8000, and the merged limit is 8000. *)
Lemma limit_output_not_sticky_in_vercel :
  Vercel.existing_limit_output (Some Samples.vercelCurated) = Some 4000 /\
  Vercel.max_tokens Samples.vercelGpt4o = 8000 /\
  Vercel.output (Vercel.limit
    (@Vercel.mergeModel Host.decimalHost Samples.runDate Samples.vercelGpt4o
       (Some Samples.vercelCurated))) = 8000 /\
  Vercel.output (Vercel.limit
    (@Vercel.mergeModel Host.decimalHost Samples.runDate Samples.vercelGpt4o
       (Some Samples.vercelCurated))) <> 4000.
Proof. split_and!; try reflexivity. vm_compute. discriminate. Qed.

Lemma name_by_provider_witness :
  Vercel.name (@Vercel.mergeModel Host.decimalHost Samples.runDate
                 Samples.vercelGpt4o (Some Samples.vercelCurated))
  = "GPT-4o (curated)".
Proof.
  apply (proj1 (proj2 (name_by_provider Host.decimalHost Samples.runDate))).
  reflexivity.
Defined.

(** C2 fails in the Vercel reconciler: the payload provides the name
    ["GPT-4o"], yet the merged record carries the existing record's name. *)
Lemma name_not_from_source_in_vercel :
  Vercel.api_name Samples.vercelGpt4o = "GPT-4o" /\
  Vercel.name (@Vercel.mergeModel Host.decimalHost Samples.runDate
                 Samples.vercelGpt4o (Some Samples.vercelCurated))
  <> Vercel.api_name Samples.vercelGpt4o.
Proof. split; [reflexivity|]. vm_compute. discriminate. Qed.

Lemma family_by_provider_witness :
  Vercel.family (@Vercel.mergeModel Host.decimalHost Samples.runDate
                   Samples.vercelGpt4o (Some Samples.vercelCurated))
  = Some "gpt".
Proof.
  apply (proj1 (family_by_provider Host.decimalHost Samples.runDate)).
  reflexivity.
Defined.

(** C3, at the failing input of the Venice reconciler: the existing record
    pins the family ["mistral"], inference on the id [llama-3.3-70b] yields
    ["llama"], and the merged record carries ["llama"], not the pinned
    value.  The Vercel reconciler, on its own pinned record, keeps it. *)
Theorem family_pin_overridden_in_venice :
  Venice.x_family Samples.veniceTightened = Some "mistral" /\
  Venice.inferFamily (Venice.id Samples.venice32k)
    (Venice.spec_name (Venice.model_spec Samples.venice32k)) = Some "llama" /\
  Venice.family (@Venice.mergeModel Host.decimalHost Samples.runDate
                   Samples.venice32k (Some Samples.veniceTightened))
  = Some "llama" /\
  Venice.family (@Venice.mergeModel Host.decimalHost Samples.runDate
                   Samples.venice32k (Some Samples.veniceTightened))
  <> Venice.x_family Samples.veniceTightened /\
  Vercel.family (@Vercel.mergeModel Host.decimalHost Samples.runDate
                   Samples.vercelGpt4o (Some Samples.vercelCurated))
  = Vercel.x_family Samples.vercelCurated.
Proof. split_and!; vm_compute; try reflexivity. discriminate. Qed.

Lemma pass_through_on_valid_records_witness :
  let m := @Venice.mergeModel Host.decimalHost Samples.runDate
             Samples.venice32k (Some Samples.veniceTightened) in
  Venice.knowledge m = Some "2024-04" /\
  Venice.interleaved m = Venice.x_interleaved Samples.veniceTightened /\
  Venice.status m = Venice.x_status Samples.veniceTightened.
Proof.
  apply (proj1 (pass_through_on_valid_records Host.decimalHost Samples.runDate)).
  - intros v [= <-]. reflexivity.
  - intros v [= <-]. right. left. reflexivity.
Defined.

(** Outside the schema: an existing record whose [knowledge] is the empty
    string has the field dropped by the merge, and the Vercel reconciler
    drops an empty [status] as well. *)
Example blank_knowledge_dropped :
  (Venice.x_knowledge Samples.veniceBlankKnowledge = Some "" /\
   Venice.knowledge (@Venice.mergeModel Host.decimalHost Samples.runDate
                       Samples.venice32k (Some Samples.veniceBlankKnowledge))
   = None) /\
  (Vercel.x_status Samples.vercelBlankStatus = Some "" /\
   Vercel.status (@Vercel.mergeModel Host.decimalHost Samples.runDate
                    Samples.vercelGpt4o (Some Samples.vercelBlankStatus))
   = None).
Proof. split_and!; reflexivity. Qed.

(* ===================================================================== *)
(** ** The change detectors on equal values *)
(* ===================================================================== *)

Section CompareFacts.
Import Js.

Lemma venice_compare_same changes f v :
  Venice.compare changes f v v = changes.
Proof. unfold Venice.compare. by rewrite JsFacts.json_eqb_refl. Qed.

Lemma exceeds_epsilon_same a : Vercel.exceeds_epsilon a a = false.
Proof.
  unfold Vercel.exceeds_epsilon.
  by destruct (DoubleFacts.sub_diag a) as [-> | ->].
Qed.

Lemma isMaterialPriceDiff_same v : Vercel.isMaterialPriceDiff v v = false.
Proof.
  unfold Vercel.isMaterialPriceDiff.
  destruct v; cbn; rewrite ?andb_false_r; try done.
  apply exceeds_epsilon_same.
Qed.

Lemma vercel_compare_same changes f v :
  Vercel.compare changes f v v = changes.
Proof.
  unfold Vercel.compare.
  destruct (Vercel.shouldSkipZero f v v); [done|].
  rewrite isMaterialPriceDiff_same, JsFacts.json_eqb_refl.
  by destruct (startsWith f "cost.").
Qed.

End CompareFacts.

(* ===================================================================== *)
(** ** Idempotence of reconciliation *)
(* ===================================================================== *)

Section Idempotence.
Import Js.
Context (host : JsHost).

(** Projections of a record literal, and the optional chains into it. *)
Ltac venice_proj := cbn [
  Venice.name Venice.family Venice.attachment Venice.reasoning Venice.tool_call
  Venice.structured_output Venice.temperature Venice.knowledge
  Venice.release_date Venice.last_updated Venice.open_weights
  Venice.interleaved Venice.status Venice.cost Venice.limit Venice.modalities
  Venice.context Venice.output Venice.input Venice.m_output
  Venice.asExisting Venice.existing_limit_output Venice.existing_modalities_input
  Venice.x_name Venice.x_family Venice.x_attachment Venice.x_reasoning
  Venice.x_tool_call Venice.x_structured_output Venice.x_knowledge
  Venice.x_release_date Venice.x_open_weights Venice.x_interleaved
  Venice.x_status Venice.x_cost Venice.x_limit Venice.x_modalities
  Venice.xl_context Venice.xl_output Venice.xm_input
  Venice.xc_input Venice.xc_output Venice.xc_cache_read Venice.xc_cache_write
  Venice.xc_context_over_200k Venice.xt_input Venice.xt_output
  Venice.xt_cache_read Venice.xt_cache_write
  Venice.c_input Venice.c_output Venice.c_cache_read Venice.c_cache_write
  Venice.c_context_over_200k Venice.t_input Venice.t_output
  Venice.t_cache_read Venice.t_cache_write Venice.x_over Venice.over
  mbind option_bind fmap option_fmap option_map nullish nullish_opt
  of_str of_bool of_num of_int of_arr ].

(** Re-merging the Venice payload against its own merge result reproduces
    every field except possibly [last_updated]. *)
Lemma venice_remerge d1 d2 s e :
  let m1 := Venice.mergeModel d1 s e in
  let m2 := Venice.mergeModel d2 s (Some (Venice.asExisting m1)) in
  Venice.name m2 = Venice.name m1 /\
  Venice.family m2 = Venice.family m1 /\
  Venice.attachment m2 = Venice.attachment m1 /\
  Venice.reasoning m2 = Venice.reasoning m1 /\
  Venice.tool_call m2 = Venice.tool_call m1 /\
  Venice.structured_output m2 = Venice.structured_output m1 /\
  Venice.open_weights m2 = Venice.open_weights m1 /\
  Venice.release_date m2 = Venice.release_date m1 /\
  Venice.cost m2 = Venice.cost m1 /\
  Venice.limit m2 = Venice.limit m1 /\
  Venice.modalities m2 = Venice.modalities m1.
Proof.
  cbn zeta. split_and!; try reflexivity.
  - unfold Venice.mergeModel; venice_proj.
    by destruct (Venice.inferFamily _ _).
  - unfold Venice.mergeModel; venice_proj. f_equal.
    set (p := Venice.proposedOutputTokens s).
    destruct (Venice.existing_limit_output e) as [o|].
    + destruct (Z.ltb_spec o p) as [Hlt|Hge].
      * destruct (Z.ltb_spec o p); [done|lia].
      * by rewrite Z.ltb_irrefl.
    + by rewrite Z.ltb_irrefl.
  - unfold Venice.mergeModel; venice_proj. f_equal.
    set (caps := Venice.capabilities (Venice.model_spec s)).
    set (b := Venice.buildInputModalities caps).
    assert (Hb : arr_includes b "pdf" = false).
    { subst b. unfold Venice.buildInputModalities.
      by destruct (Venice.is_true (Venice.supportsVision caps)),
                  (Venice.is_true (Venice.supportsAudioInput caps)),
                  (Venice.is_true (Venice.supportsVideoInput caps)). }
    rewrite Hb, !andb_true_r.
    destruct (match Venice.existing_modalities_input e with
              | Some l => arr_includes l "pdf" | None => false end); [|by rewrite Hb].
    assert (Hp : arr_includes (b ++ ["pdf"]) "pdf" = true).
    { unfold arr_includes. rewrite existsb_app. cbn. apply orb_true_r. }
    by rewrite Hp.
Qed.

(** A merged record that agrees with the persisted one on every tracked
    field yields no change. *)
Lemma venice_detect_agree m m' :
  Venice.name m' = Venice.name m ->
  Venice.family m' = Venice.family m ->
  Venice.attachment m' = Venice.attachment m ->
  Venice.reasoning m' = Venice.reasoning m ->
  Venice.tool_call m' = Venice.tool_call m ->
  Venice.structured_output m' = Venice.structured_output m ->
  Venice.open_weights m' = Venice.open_weights m ->
  Venice.release_date m' = Venice.release_date m ->
  Venice.cost m' = Venice.cost m ->
  Venice.limit m' = Venice.limit m ->
  Venice.modalities m' = Venice.modalities m ->
  Venice.detectChanges (Some (Venice.asExisting m)) m' = [].
Proof.
  intros Hn Hf Ha Hr Ht Hs Ho Hd Hc Hl Hm.
  unfold Venice.detectChanges, Venice.x_over, Venice.over.
  rewrite Hn, Hf, Ha, Hr, Ht, Hs, Ho, Hd, Hc, Hl, Hm.
  venice_proj.
  destruct (Venice.cost m) as [c|]; venice_proj;
    [destruct (Venice.c_context_over_200k c) as [t|]; venice_proj|];
    by rewrite !venice_compare_same.
Qed.

Ltac vercel_proj := cbn [
  Vercel.name Vercel.family Vercel.attachment Vercel.reasoning Vercel.tool_call
  Vercel.structured_output Vercel.temperature Vercel.knowledge
  Vercel.release_date Vercel.last_updated Vercel.open_weights
  Vercel.interleaved Vercel.status Vercel.cost Vercel.limit Vercel.modalities
  Vercel.context Vercel.output Vercel.input Vercel.m_output
  Vercel.asExisting Vercel.existing_limit_output Vercel.existing_limit_context
  Vercel.x_name Vercel.x_family Vercel.x_attachment Vercel.x_reasoning
  Vercel.x_tool_call Vercel.x_structured_output Vercel.x_knowledge
  Vercel.x_release_date Vercel.x_open_weights Vercel.x_interleaved
  Vercel.x_status Vercel.x_cost Vercel.x_limit Vercel.x_modalities
  Vercel.xl_context Vercel.xl_output Vercel.xm_input
  Vercel.xc_input Vercel.xc_output Vercel.xc_cache_read Vercel.xc_cache_write
  Vercel.c_input Vercel.c_output Vercel.c_cache_read Vercel.c_cache_write
  mbind option_bind fmap option_fmap option_map nullish nullish_opt
  of_str of_bool of_num of_int of_arr ].

(** Re-merging the Vercel payload against its own merge result reproduces
    every field except possibly [last_updated]. *)
Lemma vercel_remerge d1 d2 s e :
  let m1 := Vercel.mergeModel d1 s e in
  let m2 := Vercel.mergeModel d2 s (Some (Vercel.asExisting m1)) in
  Vercel.name m2 = Vercel.name m1 /\
  Vercel.family m2 = Vercel.family m1 /\
  Vercel.attachment m2 = Vercel.attachment m1 /\
  Vercel.reasoning m2 = Vercel.reasoning m1 /\
  Vercel.tool_call m2 = Vercel.tool_call m1 /\
  Vercel.structured_output m2 = Vercel.structured_output m1 /\
  Vercel.open_weights m2 = Vercel.open_weights m1 /\
  Vercel.release_date m2 = Vercel.release_date m1 /\
  Vercel.cost m2 = Vercel.cost m1 /\
  Vercel.limit m2 = Vercel.limit m1 /\
  Vercel.modalities m2 = Vercel.modalities m1.
Proof.
  cbn zeta. split_and!; try reflexivity.
  - unfold Vercel.mergeModel; vercel_proj.
    by destruct (e ≫= Vercel.x_family), (Vercel.inferFamily _ _).
  - unfold Vercel.mergeModel; vercel_proj.
    by destruct (Vercel.released_truthy _).
  - unfold Vercel.mergeModel; vercel_proj.
    by destruct (0 <? Vercel.context_window s), (0 <? Vercel.max_tokens s).
Qed.

Lemma vercel_detect_agree m m' :
  Vercel.name m' = Vercel.name m ->
  Vercel.family m' = Vercel.family m ->
  Vercel.attachment m' = Vercel.attachment m ->
  Vercel.reasoning m' = Vercel.reasoning m ->
  Vercel.tool_call m' = Vercel.tool_call m ->
  Vercel.structured_output m' = Vercel.structured_output m ->
  Vercel.open_weights m' = Vercel.open_weights m ->
  Vercel.release_date m' = Vercel.release_date m ->
  Vercel.cost m' = Vercel.cost m ->
  Vercel.limit m' = Vercel.limit m ->
  Vercel.modalities m' = Vercel.modalities m ->
  Vercel.detectChanges (Some (Vercel.asExisting m)) m' = [].
Proof.
  intros Hn Hf Ha Hr Ht Hs Ho Hd Hc Hl Hm.
  unfold Vercel.detectChanges.
  rewrite Hn, Hf, Ha, Hr, Ht, Hs, Ho, Hd, Hc, Hl, Hm.
  vercel_proj.
  destruct (Vercel.cost m) as [c|]; vercel_proj;
    by rewrite !vercel_compare_same.
Qed.

(** C5: idempotence.  For either reconciler, merging a payload [s] against
    any existing record [e] on run date [d1] and then merging the same
    payload against the result on run date [d2] makes the change detector
    report nothing. *)
Theorem second_run_reports_no_change :
  (forall (s : Venice.VeniceModel) (e : option Venice.ExistingModel) (d1 d2 : string),
      let m1 := Venice.mergeModel d1 s e in
      Venice.detectChanges (Some (Venice.asExisting m1))
        (Venice.mergeModel d2 s (Some (Venice.asExisting m1))) = []) /\
  (forall (s : Vercel.VercelModel) (e : option Vercel.ExistingModel) (d1 d2 : string),
      let m1 := Vercel.mergeModel d1 s e in
      Vercel.detectChanges (Some (Vercel.asExisting m1))
        (Vercel.mergeModel d2 s (Some (Vercel.asExisting m1))) = []).
Proof.
  split; intros s e d1 d2 m1.
  - destruct (venice_remerge d1 d2 s e) as (?&?&?&?&?&?&?&?&?&?&?).
    by apply venice_detect_agree.
  - destruct (vercel_remerge d1 d2 s e) as (?&?&?&?&?&?&?&?&?&?&?).
    by apply vercel_detect_agree.
Qed.

End Idempotence.

(* ===================================================================== *)
(** ** Change detection: exact comparison and price tolerance *)
(* ===================================================================== *)

Section ChangeDetection.
Import Js.

Lemma vercel_compare_fields changes f a b :
  map Vercel.field (Vercel.compare changes f a b)
  = (map Vercel.field changes ++ (if Vercel.reported f a b then [f] else []))%list.
Proof.
  unfold Vercel.compare, Vercel.reported.
  destruct (Vercel.shouldSkipZero f a b); cbn; [by rewrite app_nil_r|].
  destruct (if startsWith f "cost." then _ else _).
  - by rewrite map_app.
  - by rewrite app_nil_r.
Qed.

Lemma venice_compare_fields changes f a b :
  map Venice.field (Venice.compare changes f a b)
  = (map Venice.field changes ++ (if json_eqb a b then [] else [f]))%list.
Proof.
  unfold Venice.compare.
  destruct (json_eqb a b); cbn; [by rewrite app_nil_r|by rewrite map_app].
Qed.

Lemma price_within_not_material a b :
  Vercel.price_within a b ->
  Vercel.isMaterialPriceDiff (of_num a) (of_num b) = false.
Proof.
  destruct a as [x|], b as [y|]; cbn; try done.
  intros Hw. unfold Vercel.isMaterialPriceDiff. cbn.
  by rewrite andb_false_r.
Qed.

Lemma vercel_cost_field_close changes f a b :
  startsWith f "cost." = true ->
  Vercel.price_within a b ->
  Vercel.compare changes f (of_num a) (of_num b) = changes.
Proof.
  unfold Vercel.compare. intros Hf Hw.
  destruct (Vercel.shouldSkipZero _ _ _); [done|].
  by rewrite Hf, price_within_not_material.
Qed.

(** The detectors are the fold of [compare] over their calls. *)
Lemma vercel_detect_calls e m :
  Vercel.detectChanges (Some e) m
  = fold_left (fun changes '(f, a, b) => Vercel.compare changes f a b)
      (Vercel.calls e m) [].
Proof. reflexivity. Qed.

Lemma venice_detect_calls e m :
  Venice.detectChanges (Some e) m
  = fold_left (fun changes '(f, a, b) => Venice.compare changes f a b)
      (Venice.calls e m) [].
Proof. reflexivity. Qed.

Lemma vercel_fold_fields l changes :
  map Vercel.field
    (fold_left (fun changes '(f, a, b) => Vercel.compare changes f a b) l changes)
  = (map Vercel.field changes
     ++ concat (map (fun '(f, a, b) => if Vercel.reported f a b then [f] else []) l))%list.
Proof.
  revert changes. induction l as [|[[f a] b] l IH]; intros changes; cbn [fold_left map concat].
  - by rewrite app_nil_r.
  - by rewrite IH, vercel_compare_fields, <- app_assoc.
Qed.

Lemma venice_fold_fields l changes :
  map Venice.field
    (fold_left (fun changes '(f, a, b) => Venice.compare changes f a b) l changes)
  = (map Venice.field changes
     ++ concat (map (fun '(f, a, b) => if Venice.reported a b then [f] else []) l))%list.
Proof.
  revert changes. induction l as [|[[f a] b] l IH]; intros changes; cbn [fold_left map concat].
  - by rewrite app_nil_r.
  - rewrite IH, venice_compare_fields, <- app_assoc. unfold Venice.reported.
    by destruct (json_eqb a b).
Qed.

(** The fields reported by the detectors, one test per tracked field in
    the order of the calls. *)
Lemma vercel_detect_fields e m :
  map Vercel.field (Vercel.detectChanges (Some e) m)
  = concat (map (fun '(f, a, b) => if Vercel.reported f a b then [f] else [])
      (Vercel.calls e m)).
Proof. by rewrite vercel_detect_calls, vercel_fold_fields. Qed.

Lemma venice_detect_fields e m :
  map Venice.field (Venice.detectChanges (Some e) m)
  = concat (map (fun '(f, a, b) => if Venice.reported a b then [f] else [])
      (Venice.calls e m)).
Proof. by rewrite venice_detect_calls, venice_fold_fields. Qed.

(** A list of tests with distinct names reports a name exactly when the
    test of that name holds. *)
Lemma tested_names (test : string -> unknown -> unknown -> bool) f l :
  In f (concat (map (fun '(g, x, y) => if test g x y then [g] else []) l)) ->
  In f (map (fun t : string * unknown * unknown => t.1.1) l).
Proof.
  induction l as [|[[g x] y] l IH]; cbn [map concat]; [done|].
  rewrite in_app_iff. intros [H|H].
  - left. destruct (test g x y); [|done]. by destruct H.
  - right. by apply IH.
Qed.

Lemma in_tested (test : string -> unknown -> unknown -> bool) f a b l :
  List.NoDup (map (fun t : string * unknown * unknown => t.1.1) l) ->
  In (f, a, b) l ->
  In f (concat (map (fun '(g, x, y) => if test g x y then [g] else []) l))
  <-> test f a b = true.
Proof.
  induction l as [|[[g x] y] l IH]; [done|].
  cbn [map concat]. rewrite in_app_iff. intros Hnd Hin.
  apply List.NoDup_cons_iff in Hnd as [Hfresh Hnd]. cbn in Hfresh.
  destruct Hin as [Heq|Hin].
  - injection Heq as -> -> ->. split.
    + intros [H|H]; [by destruct (test f a b)|].
      by apply tested_names in H.
    + intros ->. left. by left.
  - rewrite <- (IH Hnd Hin). split; [|tauto].
    intros [H|H]; [|done]. exfalso. apply Hfresh.
    destruct (test g x y); [|done]. destruct H as [->|[]].
    by apply (in_map (fun t : string * unknown * unknown => t.1.1) _ (f, a, b)).
Qed.

Lemma vercel_calls_distinct e m :
  List.NoDup (map (fun t : string * unknown * unknown => t.1.1) (Vercel.calls e m)).
Proof.
  change (List.NoDup Tracked.vercel_fields).
  apply NoDup_ListNoDup. by apply (bool_decide_unpack _).
Qed.

Lemma venice_calls_distinct e m :
  List.NoDup (map (fun t : string * unknown * unknown => t.1.1) (Venice.calls e m)).
Proof.
  change (List.NoDup Tracked.venice_fields).
  apply NoDup_ListNoDup. by apply (bool_decide_unpack _).
Qed.

Ltac in_calls := cbn [In Vercel.calls Venice.calls]; repeat first [by left | right].

Lemma vercel_field_reported e m f a b :
  In (f, a, b) (Vercel.calls e m) ->
  In f (map Vercel.field (Vercel.detectChanges (Some e) m))
  <-> Vercel.reported f a b = true.
Proof.
  intros Hin. rewrite vercel_detect_fields.
  by apply in_tested; [apply vercel_calls_distinct|].
Qed.

Lemma venice_field_reported e m f a b :
  In (f, a, b) (Venice.calls e m) ->
  In f (map Venice.field (Venice.detectChanges (Some e) m))
  <-> json_eqb a b = false.
Proof.
  intros Hin. rewrite venice_detect_fields.
  rewrite (in_tested (fun _ => Venice.reported) f a b)
    by (done || apply venice_calls_distinct).
  apply negb_true_iff.
Qed.

Lemma vercel_fields_tracked e m f :
  In f (map Vercel.field (Vercel.detectChanges (Some e) m)) ->
  In f Tracked.vercel_fields.
Proof. rewrite vercel_detect_fields. apply tested_names. Qed.

Lemma venice_fields_tracked e m f :
  In f (map Venice.field (Venice.detectChanges (Some e) m)) ->
  In f Tracked.venice_fields.
Proof.
  rewrite venice_detect_fields. apply (tested_names (fun _ => Venice.reported)).
Qed.

(** The guard of [compare], by kind of field. *)
Lemma vercel_reported_exact f a b :
  startsWith f "cost." = false ->
  arr_includes Vercel.SkipZeroFields f = false ->
  Vercel.reported f a b = true <-> json_eqb a b = false.
Proof.
  intros Hf Hs. unfold Vercel.reported, Vercel.shouldSkipZero.
  rewrite Hf, Hs. cbn. apply negb_true_iff.
Qed.

Lemma vercel_reported_cost f a b :
  startsWith f "cost." = true ->
  arr_includes Vercel.SkipZeroFields f = false ->
  Vercel.reported f (of_num a) (of_num b) = true <-> Vercel.price_change a b.
Proof.
  intros Hf Hs. unfold Vercel.reported, Vercel.shouldSkipZero.
  rewrite Hf, Hs. cbn [negb andb].
  unfold Vercel.isMaterialPriceDiff.
  destruct a as [x|], b as [y|]; cbn.
  - by rewrite andb_false_r.
  - rewrite andb_true_r. destruct (Double.eqb x Double.zero); split; done.
  - done.
  - split; done.
Qed.

Lemma vercel_reported_limit f a b :
  startsWith f "cost." = false ->
  arr_includes Vercel.SkipZeroFields f = true ->
  Vercel.reported f (of_int a) (VInt b) = true <-> Vercel.limit_change a b.
Proof.
  intros Hf Hs. unfold Vercel.reported, Vercel.shouldSkipZero, Vercel.limit_change.
  rewrite Hf, Hs. cbn [negb].
  rewrite andb_true_iff, !negb_true_iff, orb_false_iff.
  change (VInt b) with (of_int (Some b)). rewrite JsFacts.int_differs.
  destruct a as [x|]; cbn; rewrite !Z.eqb_neq.
  - intuition congruence.
  - intuition congruence.
Qed.

Lemma vercel_within_unchanged e m :
  Vercel.agree_elsewhere e m ->
  Vercel.prices_within e m ->
  Vercel.detectChanges (Some e) m = [].
Proof.
  intros (Hn & Hf & Ha & Hr & Ht & Hs & Ho & Hd & Hlc & Hlo & Hm)
         (Pi & Po & Pr & Pw).
  unfold Vercel.detectChanges.
  rewrite Hn, Hf, Ha, Hr, Ht, Hs, Ho, Hd, Hlc, Hlo, Hm.
  cbn [of_str of_bool of_int of_arr].
  rewrite !vercel_compare_same.
  rewrite (vercel_cost_field_close _ "cost.input") by done.
  rewrite (vercel_cost_field_close _ "cost.output") by done.
  rewrite (vercel_cost_field_close _ "cost.cache_read") by done.
  by rewrite (vercel_cost_field_close _ "cost.cache_write").
Qed.

(** C9 (as amended).  With no persisted record either detector reports
    nothing.  Otherwise the Vercel detector reports exactly these fields:
    [name], [family], [attachment], [reasoning], [tool_call],
    [structured_output], [open_weights], [release_date] and
    [modalities.input] when the persisted and the merged value differ; each
    of the four cost fields when the price moved ([Vercel.price_change]:
    both prices present and [Math.abs(old - new) > 0.001] in double
    arithmetic, or only the new price present, or only the old one present
    and not 0); [limit.context] and [limit.output] when the two values
    differ and neither reads 0.  So two records that agree outside the cost
    block and whose prices are pairwise within the tolerance yield no
    change, and a price never differs from itself by more than the
    tolerance.  The Venice detector has no tolerance: it reports each of
    its nineteen fields, the eight cost fields included, exactly when the
    two values differ in print, and no other field. *)
Theorem change_detection_by_provider :
  (forall m, Vercel.detectChanges None m = []) /\
  (forall e m,
      let changed f := In f (map Vercel.field (Vercel.detectChanges (Some e) m)) in
      (changed "name" <-> Vercel.x_name e <> Some (Vercel.name m)) /\
      (changed "family" <-> Vercel.x_family e <> Vercel.family m) /\
      (changed "attachment" <-> Vercel.x_attachment e <> Some (Vercel.attachment m)) /\
      (changed "reasoning" <-> Vercel.x_reasoning e <> Some (Vercel.reasoning m)) /\
      (changed "tool_call" <-> Vercel.x_tool_call e <> Some (Vercel.tool_call m)) /\
      (changed "structured_output" <->
         Vercel.x_structured_output e <> Vercel.structured_output m) /\
      (changed "open_weights" <->
         Vercel.x_open_weights e <> Some (Vercel.open_weights m)) /\
      (changed "release_date" <->
         Vercel.x_release_date e <> Some (Vercel.release_date m)) /\
      (changed "cost.input" <->
         Vercel.price_change (Vercel.x_cost e ≫= Vercel.xc_input)
           (Vercel.c_input <$> Vercel.cost m)) /\
      (changed "cost.output" <->
         Vercel.price_change (Vercel.x_cost e ≫= Vercel.xc_output)
           (Vercel.c_output <$> Vercel.cost m)) /\
      (changed "cost.cache_read" <->
         Vercel.price_change (Vercel.x_cost e ≫= Vercel.xc_cache_read)
           (Vercel.cost m ≫= Vercel.c_cache_read)) /\
      (changed "cost.cache_write" <->
         Vercel.price_change (Vercel.x_cost e ≫= Vercel.xc_cache_write)
           (Vercel.cost m ≫= Vercel.c_cache_write)) /\
      (changed "limit.context" <->
         Vercel.limit_change (Vercel.x_limit e ≫= Vercel.xl_context)
           (Vercel.context (Vercel.limit m))) /\
      (changed "limit.output" <->
         Vercel.limit_change (Vercel.x_limit e ≫= Vercel.xl_output)
           (Vercel.output (Vercel.limit m))) /\
      (changed "modalities.input" <->
         Vercel.x_modalities e ≫= Vercel.xm_input
         <> Some (Vercel.input (Vercel.modalities m))) /\
      (forall f, changed f -> In f Tracked.vercel_fields)) /\
  (forall e m,
      Vercel.agree_elsewhere e m ->
      Vercel.prices_within e m ->
      Vercel.detectChanges (Some e) m = []) /\
  (forall x, Vercel.exceeds_epsilon x x = false) /\
  (forall m, Venice.detectChanges None m = []) /\
  (forall e m,
      let changed f := In f (map Venice.field (Venice.detectChanges (Some e) m)) in
      (changed "name" <-> Venice.x_name e <> Some (Venice.name m)) /\
      (changed "family" <-> Venice.x_family e <> Venice.family m) /\
      (changed "attachment" <-> Venice.x_attachment e <> Some (Venice.attachment m)) /\
      (changed "reasoning" <-> Venice.x_reasoning e <> Some (Venice.reasoning m)) /\
      (changed "tool_call" <-> Venice.x_tool_call e <> Some (Venice.tool_call m)) /\
      (changed "structured_output" <->
         Venice.x_structured_output e <> Venice.structured_output m) /\
      (changed "open_weights" <->
         Venice.x_open_weights e <> Some (Venice.open_weights m)) /\
      (changed "release_date" <->
         Venice.x_release_date e <> Some (Venice.release_date m)) /\
      (changed "cost.input" <->
         ~ same_price (Venice.x_cost e ≫= Venice.xc_input)
             (Venice.c_input <$> Venice.cost m)) /\
      (changed "cost.output" <->
         ~ same_price (Venice.x_cost e ≫= Venice.xc_output)
             (Venice.c_output <$> Venice.cost m)) /\
      (changed "cost.cache_read" <->
         ~ same_price (Venice.x_cost e ≫= Venice.xc_cache_read)
             (Venice.cost m ≫= Venice.c_cache_read)) /\
      (changed "cost.cache_write" <->
         ~ same_price (Venice.x_cost e ≫= Venice.xc_cache_write)
             (Venice.cost m ≫= Venice.c_cache_write)) /\
      (changed "cost.context_over_200k.input" <->
         ~ same_price (Venice.x_over e ≫= Venice.xt_input)
             (Venice.t_input <$> Venice.over m)) /\
      (changed "cost.context_over_200k.output" <->
         ~ same_price (Venice.x_over e ≫= Venice.xt_output)
             (Venice.t_output <$> Venice.over m)) /\
      (changed "cost.context_over_200k.cache_read" <->
         ~ same_price (Venice.x_over e ≫= Venice.xt_cache_read)
             (Venice.over m ≫= Venice.t_cache_read)) /\
      (changed "cost.context_over_200k.cache_write" <->
         ~ same_price (Venice.x_over e ≫= Venice.xt_cache_write)
             (Venice.over m ≫= Venice.t_cache_write)) /\
      (changed "limit.context" <->
         Venice.x_limit e ≫= Venice.xl_context
         <> Some (Venice.context (Venice.limit m))) /\
      (changed "limit.output" <->
         Venice.x_limit e ≫= Venice.xl_output
         <> Some (Venice.output (Venice.limit m))) /\
      (changed "modalities.input" <->
         Venice.x_modalities e ≫= Venice.xm_input
         <> Some (Venice.input (Venice.modalities m))) /\
      (forall f, changed f -> In f Tracked.venice_fields)).
Proof.
  split; [done|]. split; [|split; [|split; [|split; [done|]]]].
  - intros e m changed. subst changed. cbv beta.
    split; [rewrite vercel_field_reported, vercel_reported_exact by (done || in_calls);
            apply (JsFacts.str_differs _ (Some _))|].
    split; [rewrite vercel_field_reported, vercel_reported_exact by (done || in_calls);
            apply JsFacts.str_differs|].
    split; [rewrite vercel_field_reported, vercel_reported_exact by (done || in_calls);
            apply (JsFacts.bool_differs _ (Some _))|].
    split; [rewrite vercel_field_reported, vercel_reported_exact by (done || in_calls);
            apply (JsFacts.bool_differs _ (Some _))|].
    split; [rewrite vercel_field_reported, vercel_reported_exact by (done || in_calls);
            apply (JsFacts.bool_differs _ (Some _))|].
    split; [rewrite vercel_field_reported, vercel_reported_exact by (done || in_calls);
            apply JsFacts.bool_differs|].
    split; [rewrite vercel_field_reported, vercel_reported_exact by (done || in_calls);
            apply (JsFacts.bool_differs _ (Some _))|].
    split; [rewrite vercel_field_reported, vercel_reported_exact by (done || in_calls);
            apply (JsFacts.str_differs _ (Some _))|].
    split; [rewrite vercel_field_reported by in_calls; by apply vercel_reported_cost|].
    split; [rewrite vercel_field_reported by in_calls; by apply vercel_reported_cost|].
    split; [rewrite vercel_field_reported by in_calls; by apply vercel_reported_cost|].
    split; [rewrite vercel_field_reported by in_calls; by apply vercel_reported_cost|].
    split; [rewrite vercel_field_reported by in_calls; by apply vercel_reported_limit|].
    split; [rewrite vercel_field_reported by in_calls; by apply vercel_reported_limit|].
    split; [rewrite vercel_field_reported, vercel_reported_exact by (done || in_calls);
            apply (JsFacts.arr_differs _ (Some _))|].
    apply vercel_fields_tracked.
  - apply vercel_within_unchanged.
  - apply exceeds_epsilon_same.
  - intros e m changed. subst changed. cbv beta.
    split; [rewrite venice_field_reported by in_calls;
            apply (JsFacts.str_differs _ (Some _))|].
    split; [rewrite venice_field_reported by in_calls; apply JsFacts.str_differs|].
    split; [rewrite venice_field_reported by in_calls;
            apply (JsFacts.bool_differs _ (Some _))|].
    split; [rewrite venice_field_reported by in_calls;
            apply (JsFacts.bool_differs _ (Some _))|].
    split; [rewrite venice_field_reported by in_calls;
            apply (JsFacts.bool_differs _ (Some _))|].
    split; [rewrite venice_field_reported by in_calls; apply JsFacts.bool_differs|].
    split; [rewrite venice_field_reported by in_calls;
            apply (JsFacts.bool_differs _ (Some _))|].
    split; [rewrite venice_field_reported by in_calls;
            apply (JsFacts.str_differs _ (Some _))|].
    split; [rewrite venice_field_reported by in_calls; apply JsFacts.num_differs|].
    split; [rewrite venice_field_reported by in_calls; apply JsFacts.num_differs|].
    split; [rewrite venice_field_reported by in_calls; apply JsFacts.num_differs|].
    split; [rewrite venice_field_reported by in_calls; apply JsFacts.num_differs|].
    split; [rewrite venice_field_reported by in_calls; apply JsFacts.num_differs|].
    split; [rewrite venice_field_reported by in_calls; apply JsFacts.num_differs|].
    split; [rewrite venice_field_reported by in_calls; apply JsFacts.num_differs|].
    split; [rewrite venice_field_reported by in_calls; apply JsFacts.num_differs|].
    split; [rewrite venice_field_reported by in_calls;
            apply (JsFacts.int_differs _ (Some _))|].
    split; [rewrite venice_field_reported by in_calls;
            apply (JsFacts.int_differs _ (Some _))|].
    split; [rewrite venice_field_reported by in_calls;
            apply (JsFacts.arr_differs _ (Some _))|].
    apply venice_fields_tracked.
Qed.

End ChangeDetection.

Lemma change_detection_by_provider_witness :
  Vercel.detectChanges (Some Samples.vercelPersisted) Samples.vercelDrifted = [].
Proof.
  apply (proj1 (proj2 (proj2 change_detection_by_provider))).
  - repeat split.
  - repeat split.
Defined.

(** The tolerance is applied to the difference as the detector computes it:
    0.0000030005 and 0.000003 dollars per token are 3.0005 and 3 per
    million and within the tolerance; 0.000000009 and 0.00000001 dollars per
    token are 0.009 and 0.01 per million in decimals, but the doubles the
    detector subtracts are further apart than the double of 0.001. *)
Example tolerance_in_doubles :
  let scaled s := Double.mul (Host.decimal s) Vercel.million in
  Vercel.exceeds_epsilon (scaled "0.000003") (scaled "0.0000030005") = false /\
  Vercel.exceeds_epsilon (scaled "0.000000009") (scaled "0.00000001") = true.
Proof. split; vm_compute; reflexivity. Qed.

(** C9 fails twice.  In the Venice detector two records that agree outside
    the cost block and whose input prices, 3 and 3.0005, are within the
    tolerance of the Vercel detector (their exact values differ by less
    than 0.001) yield a change; in the Vercel detector a [limit.output]
    that differs (0 against 8000) is not reported. *)
Lemma change_detection_not_uniform :
  (Venice.agree_elsewhere Samples.venicePersisted Samples.veniceDrifted /\
   Venice.x_cost Samples.venicePersisted ≫= Venice.xc_input
   = Some (Host.decimal "3") /\
   Venice.c_input <$> Venice.cost Samples.veniceDrifted
   = Some (Host.decimal "3.0005") /\
   Vercel.exceeds_epsilon (Host.decimal "3") (Host.decimal "3.0005") = false /\
   (Qabs (Double.to_Q (Host.decimal "3") - Double.to_Q (Host.decimal "3.0005"))
    <= 1 # 1000)%Q /\
   map Venice.field
     (Venice.detectChanges (Some Samples.venicePersisted) Samples.veniceDrifted)
   = ["cost.input"]) /\
  (Vercel.x_limit Samples.vercelZeroLimit ≫= Vercel.xl_output = Some 0 /\
   Vercel.output (Vercel.limit
     (@Vercel.mergeModel Host.decimalHost Samples.runDate Samples.vercelGpt4o
        (Some Samples.vercelZeroLimit))) = 8000 /\
   ~ In "limit.output"
       (map Vercel.field
          (Vercel.detectChanges (Some Samples.vercelZeroLimit)
             (@Vercel.mergeModel Host.decimalHost Samples.runDate
                Samples.vercelGpt4o (Some Samples.vercelZeroLimit))))).
Proof.
  split_and!; try reflexivity.
  - repeat split.
  - vm_compute. discriminate.
  - vm_compute. intuition discriminate.
Qed.

(* ===================================================================== *)
(** ** Strings and the shell primitives *)
(* ===================================================================== *)

Section StringFacts.
Import Js.

Lemma append_cons (c : ascii) (s t : string) :
  (String c s ++ t)%string = String c (s ++ t)%string.
Proof. reflexivity. Qed.

Lemma append_nil (t : string) : ("" ++ t)%string = t.
Proof. reflexivity. Qed.

Lemma append_length (s t : string) :
  String.length (s ++ t) = (String.length s + String.length t)%nat.
Proof.
  induction s as [|c s IH]; [done|].
  rewrite append_cons. cbn [String.length]. by rewrite IH.
Qed.

Lemma substring_whole (p : string) : substring 0 (String.length p) p = p.
Proof. induction p as [|c p IH]; [done|]. cbn. by rewrite IH. Qed.

Lemma substring_suffix (s p : string) :
  substring (String.length s) (String.length p) (s ++ p) = p.
Proof.
  induction s as [|c s IH]; [apply substring_whole|].
  rewrite append_cons. cbn [String.length substring]. exact IH.
Qed.

Lemma endsWith_suffix (s p : string) : endsWith (s ++ p) p = true.
Proof.
  unfold endsWith. rewrite append_length.
  replace (String.length s + String.length p - String.length p)%nat
    with (String.length s) by lia.
  rewrite substring_suffix, String.eqb_refl, andb_true_r.
  apply Nat.leb_le. lia.
Qed.

Lemma startsWith_slash (c : ascii) (s : string) :
  startsWith (String c s) "/" = Ascii.eqb "/" c.
Proof. cbn [startsWith]. destruct s; apply andb_true_r. Qed.

End StringFacts.

Section ShellFacts.
Import Js Cloudflare CrossReference CloudflareNames.

Lemma startsWith_split (s p : string) :
  startsWith s p = true -> exists rest, s = (p ++ rest)%string.
Proof.
  revert s. induction p as [|a p IH]; intros s.
  - intros _. by exists s.
  - destruct s as [|b s]; [done|]. cbn [startsWith].
    intros H. apply andb_prop in H as [Hab Hrest].
    apply Ascii.eqb_eq in Hab as <-.
    destruct (IH _ Hrest) as [rest ->]. by exists rest.
Qed.

Lemma literal_prefix_match (p : string) (re : list atom) (line : string) :
  literal_prefix p re = true -> match_here re line = true -> startsWith line p = true.
Proof.
  revert re line. induction p as [|c p IH]; intros re line.
  - intros _ _. by destruct line.
  - cbn [literal_prefix]. destruct re as [|[d| |cs|] re]; try done.
    intros H. apply andb_prop in H as [Hcd Hp].
    apply Ascii.eqb_eq in Hcd as <-.
    cbn [match_here]. destruct line as [|e line]; [done|].
    intros H. apply andb_prop in H as [Hce Hm].
    cbn [startsWith]. rewrite Hce. cbn [andb]. by eapply IH.
Qed.

Lemma well_known_patterns_cross_referenced (pattern : string) :
  In pattern WELL_KNOWN_MODELS -> pattern_provider pattern = true.
Proof.
  assert (forallb pattern_provider WELL_KNOWN_MODELS = true) as Hall
    by (vm_compute; reflexivity).
  rewrite forallb_forall in Hall. apply Hall.
Qed.

(** On one line that is not a word of options, the pipelines act on the
    text itself. *)
Lemma text_lines_one_line (s : string) :
  one_line s = true -> text_lines (s ++ newline) = [s].
Proof.
  induction s as [|c s IH]; [done|].
  cbn [one_line]. intros H. apply andb_prop in H as [Hc Hs].
  rewrite append_cons. cbn [text_lines].
  apply negb_true_iff in Hc. rewrite Hc. by rewrite (IH Hs).
Qed.

Lemma command_substitution_line (s : string) :
  one_line s = true -> command_substitution (s ++ newline) = s.
Proof.
  induction s as [|c s IH]; [done|].
  cbn [one_line]. intros H. apply andb_prop in H as [Hc Hs].
  rewrite append_cons. cbn [command_substitution].
  apply negb_true_iff in Hc. rewrite Hc. cbn [andb]. by rewrite (IH Hs).
Qed.

Lemma first_field_one_line (s : string) :
  one_line s = true -> one_line (first_field s) = true.
Proof.
  induction s as [|c s IH]; [done|].
  cbn [one_line first_field]. intros H. apply andb_prop in H as [Hc Hs].
  destruct (Ascii.eqb c "/"); [done|]. cbn [one_line]. by rewrite Hc, IH.
Qed.

Lemma rest_fields_from_one_line (line s : string) :
  one_line line = true -> one_line s = true ->
  one_line (rest_fields_from line s) = true.
Proof.
  intros Hline. induction s as [|c s IH]; [done|].
  cbn [one_line rest_fields_from]. intros H. apply andb_prop in H as [Hc Hs].
  destruct (Ascii.eqb c "/"); [done|]. by apply IH.
Qed.

Lemma echo_plain (s : string) : echo_option s = false -> echo s = (s ++ newline)%string.
Proof. intros H. unfold echo. by rewrite H. Qed.

Lemma cut_first_field_one_line (s : string) :
  one_line s = true -> echo_option s = false -> cut_first_field s = first_field s.
Proof.
  intros Hs Ho. unfold cut_first_field.
  rewrite echo_plain, text_lines_one_line by done. cbn [map unlines].
  change (first_field s ++ newline ++ "")%string with (first_field s ++ newline)%string.
  by rewrite command_substitution_line by by apply first_field_one_line.
Qed.

Lemma cut_rest_fields_one_line (s : string) :
  one_line s = true -> echo_option s = false -> cut_rest_fields s = rest_fields s.
Proof.
  intros Hs Ho. unfold cut_rest_fields.
  rewrite echo_plain, text_lines_one_line by done. cbn [map unlines].
  change (rest_fields s ++ newline ++ "")%string with (rest_fields s ++ newline)%string.
  by rewrite command_substitution_line by by apply rest_fields_from_one_line.
Qed.

Lemma grep_anchored_one_line (pattern s : string) :
  one_line s = true -> echo_option s = false ->
  grep_anchored pattern s = match_here (compile pattern) s.
Proof.
  intros Hs Ho. unfold grep_anchored.
  rewrite echo_plain, text_lines_one_line by done. cbn [existsb].
  apply orb_false_r.
Qed.

(** A word of options is made of hyphens and option letters. *)
Lemma echo_option_flags (s : string) :
  echo_option s = true ->
  forallb (fun c => Ascii.eqb c "-" || echo_flag c) (list_ascii_of_string s) = true.
Proof.
  destruct s as [|c [|f flags]]; try done. cbn [echo_option].
  intros H. apply andb_prop in H as [Hc Hf].
  cbn [list_ascii_of_string forallb] in *.
  apply andb_prop in Hf as [Hf Hflags]. rewrite Hc, Hf. cbn [orb andb].
  rewrite orb_true_r. cbn [andb].
  rewrite forallb_forall in Hflags. apply forallb_forall.
  intros x Hx. by rewrite (Hflags x Hx), orb_true_r.
Qed.

(** A word of options prints no text: it has no provider and matches no
    pattern, so the filter excludes it unless a skip rule did already. *)
Lemma option_word_excluded (s : string) :
  echo_option s = true -> should_include_model s = Excluded.
Proof.
  intros Ho. unfold should_include_model.
  destruct (existsb _ SKIP_MODELS); [done|].
  destruct (existsb _ SKIP_NAMESPACES); [done|].
  assert (cut_first_field s = "") as ->.
  { unfold cut_first_field, echo. rewrite Ho. by destruct (existsb _ _). }
  cbn [existsb INCLUDE_ALL_PROVIDERS String.eqb orb].
  assert (existsb (fun pattern => grep_anchored pattern s) WELL_KNOWN_MODELS = false)
    as ->; [|done].
  unfold grep_anchored, echo. rewrite Ho.
  destruct (existsb _ (list_ascii_of_string s)); vm_compute; reflexivity.
Qed.

Lemma field_at_provider (p rest : string) :
  includes p "/" = false ->
  first_field (p ++ "/" ++ rest) = p /\
  rest_fields_from (p ++ "/" ++ rest) (p ++ "/" ++ rest) = rest.
Proof.
  intros Hp.
  assert (forall line, first_field (p ++ "/" ++ rest) = p /\
                       rest_fields_from line (p ++ "/" ++ rest) = rest) as H;
    [|apply H].
  induction p as [|c p IH]; intros line.
  - rewrite append_nil. split; reflexivity.
  - cbn [includes] in Hp. rewrite startsWith_slash in Hp.
    apply orb_false_elim in Hp as [Hc Hp].
    rewrite append_cons. cbn [first_field rest_fields_from].
    rewrite Ascii.eqb_sym, Hc.
    destruct (IH Hp line) as [-> ->]. done.
Qed.

Lemma append_slash (p rest : string) :
  ((p ++ "/") ++ rest = p ++ "/" ++ rest)%string.
Proof. induction p as [|c p IH]; [done|]. by rewrite !append_cons, IH. Qed.

(** The two ways the filter keeps a one-line id: a Workers AI id under
    [@cf/], or an id that a well-known pattern of a cross-referenced
    provider matches. *)
Lemma kept_cases (model_id : string) :
  one_line model_id = true ->
  should_include_model model_id = Included ->
  (first_field model_id = "workers-ai" /\
   startsWith model_id "workers-ai/@cf/" = true) \/
  (exists p pattern rest,
      In p CROSS_REFERENCE_PROVIDERS /\ In pattern WELL_KNOWN_MODELS /\
      match_here (compile pattern) model_id = true /\
      model_id = (p ++ "/" ++ rest)%string).
Proof.
  intros Hline Hkept.
  assert (echo_option model_id = false) as Hplain.
  { destruct (echo_option model_id) eqn:Ho; [|done].
    by rewrite option_word_excluded in Hkept. }
  revert Hkept. unfold should_include_model.
  rewrite cut_first_field_one_line by done.
  destruct (existsb _ SKIP_MODELS); [done|].
  destruct (existsb _ SKIP_NAMESPACES); [done|].
  destruct (existsb _ INCLUDE_ALL_PROVIDERS) eqn:Hall.
  - apply existsb_exists in Hall as (p & Hp & Heq).
    destruct Hp as [<-|[]]. rewrite Heq. cbn [andb].
    unfold glob_prefix.
    destruct (startsWith model_id "workers-ai/@cf/") eqn:Hpre; [|done].
    intros _. apply String.eqb_eq in Heq. by left.
  - destruct (existsb _ WELL_KNOWN_MODELS) eqn:Hwk; [|done].
    intros _. apply existsb_exists in Hwk as (pattern & Hin & Hmatch).
    rewrite grep_anchored_one_line in Hmatch by done.
    pose proof (well_known_patterns_cross_referenced _ Hin) as Hprov.
    apply existsb_exists in Hprov as (p & Hp & Hlit).
    pose proof (literal_prefix_match _ _ _ Hlit Hmatch) as Hpre.
    apply startsWith_split in Hpre as [rest Hid].
    rewrite append_slash in Hid.
    right. by exists p, pattern, rest.
Qed.

(** A line that a lower-case pattern matches is in lower case. *)
Lemma lower_case_line_match (re : list atom) (line : string) :
  lower_case_line re = true -> match_here re line = true ->
  toLowerCase line = line.
Proof.
  revert line. induction re as [|[c| |cs|] re IH]; intros line; cbn [lower_case_line];
    try done.
  - intros H. apply andb_prop in H as [Hc Hre].
    destruct line as [|d line]; [done|]. cbn [match_here toLowerCase].
    intros H. apply andb_prop in H as [Hcd Hm].
    apply Ascii.eqb_eq in Hcd as <-. apply Ascii.eqb_eq in Hc.
    by rewrite Hc, (IH _ Hre Hm).
  - intros H. apply andb_prop in H as [Hcs Hre].
    destruct line as [|d line]; [done|]. cbn [match_here toLowerCase].
    intros H. apply andb_prop in H as [Hd Hm].
    apply existsb_exists in Hd as (c & Hin & Hdc). apply Ascii.eqb_eq in Hdc as ->.
    rewrite forallb_forall in Hcs. specialize (Hcs _ Hin).
    apply Ascii.eqb_eq in Hcs. by rewrite Hcs, (IH _ Hre Hm).
  - intros _. by destruct line.
Qed.

Lemma well_known_patterns_lower_case (pattern : string) :
  In pattern WELL_KNOWN_MODELS -> lower_case_line (compile pattern) = true.
Proof.
  assert (forallb (fun pattern => lower_case_line (compile pattern))
            WELL_KNOWN_MODELS = true) as Hall
    by (vm_compute; reflexivity).
  rewrite forallb_forall in Hall. apply Hall.
Qed.

End ShellFacts.

(* ===================================================================== *)
(** ** The Cloudflare inclusion filter *)
(* ===================================================================== *)

Section InclusionFilter.
Import Cloudflare.

(** A skip rule decides before any allow rule is looked at. *)
Lemma skipped_excluded model_id :
  skipped model_id -> should_include_model model_id = Excluded.
Proof.
  intros [(skip & Hin & Hhit) | (ns & Hin & Hhit)]; unfold should_include_model.
  - assert (H : existsb (fun skip => glob_contains model_id skip) SKIP_MODELS = true)
      by (apply existsb_exists; eauto).
    by rewrite H.
  - assert (H : existsb (fun ns => glob_prefix model_id (ns ++ "/")) SKIP_NAMESPACES = true)
      by (apply existsb_exists; eauto).
    rewrite H. by destruct (existsb _ SKIP_MODELS).
Qed.

(** C7: the filter on the specified ids.  [foo/whisper-large-v3] contains
    the skip word [whisper] and is excluded; for the include-all provider
    [workers-ai], [workers-ai/@cf/meta/llama] is included and
    [workers-ai/embedding-model], which lacks the [@cf/] namespace, is
    excluded; and every id hit by a skip rule is excluded even when an allow
    rule admits it. *)
Theorem filter_skip_dominates :
  glob_contains "foo/whisper-large-v3" "whisper" = true /\
  should_include_model "foo/whisper-large-v3" = Excluded /\
  In (cut_first_field "workers-ai/@cf/meta/llama") INCLUDE_ALL_PROVIDERS /\
  should_include_model "workers-ai/@cf/meta/llama" = Included /\
  In (cut_first_field "workers-ai/embedding-model") INCLUDE_ALL_PROVIDERS /\
  glob_prefix "workers-ai/embedding-model" "workers-ai/@cf/" = false /\
  should_include_model "workers-ai/embedding-model" = Excluded /\
  (forall model_id,
      skipped model_id -> allowed model_id ->
      should_include_model model_id = Excluded).
Proof.
  split_and!; try reflexivity; try (cbn; tauto).
  intros model_id Hskip _. by apply skipped_excluded.
Qed.

(** C8 (as amended): the filter compares letter for letter, without case
    folding.  For every one-line id that it includes, the provider segment
    is spelled exactly [workers-ai], [openai] or [anthropic]; an included
    id of [openai] or [anthropic] contains no upper-case letter, and an
    included id of [workers-ai] begins with [workers-ai/@cf/].  So a
    one-line id whose provider segment contains an upper-case letter is
    excluded, however its lower-cased form is classified. *)
Theorem filter_case_sensitive :
  (forall model_id,
      one_line model_id = true ->
      should_include_model model_id = Included ->
      In (cut_first_field model_id) ["workers-ai"; "openai"; "anthropic"] /\
      (cut_first_field model_id = "workers-ai" ->
       Js.startsWith model_id "workers-ai/@cf/" = true) /\
      (cut_first_field model_id <> "workers-ai" ->
       Js.toLowerCase model_id = model_id)) /\
  (forall model_id,
      one_line model_id = true ->
      Js.toLowerCase (cut_first_field model_id) <> cut_first_field model_id ->
      should_include_model model_id = Excluded).
Proof.
  assert (Hkept : forall model_id,
      one_line model_id = true ->
      should_include_model model_id = Included ->
      In (cut_first_field model_id) ["workers-ai"; "openai"; "anthropic"] /\
      (cut_first_field model_id = "workers-ai" ->
       Js.startsWith model_id "workers-ai/@cf/" = true) /\
      (cut_first_field model_id <> "workers-ai" ->
       Js.toLowerCase model_id = model_id)).
  { intros model_id Hline Hkept.
    assert (echo_option model_id = false) as Hplain.
    { destruct (echo_option model_id) eqn:Ho; [|done].
      by rewrite option_word_excluded in Hkept. }
    rewrite cut_first_field_one_line by done.
    destruct (kept_cases model_id Hline Hkept)
      as [[Hp Hpre]|(p & pattern & rest & Hp & Hin & Hmatch & Hid)].
    - rewrite Hp. split_and!; [by left|done|done].
    - assert (Js.includes p "/" = false) as Hslash.
      { destruct Hp as [<-|[<-|[]]]; reflexivity. }
      destruct (field_at_provider p rest Hslash) as [Hfield _].
      rewrite Hid, Hfield. split_and!.
      + destruct Hp as [<-|[<-|[]]]; cbn; tauto.
      + intros ->. by destruct Hp as [?|[?|[]]].
      + intros _. rewrite <- Hid.
        eapply lower_case_line_match; [|exact Hmatch].
        by apply well_known_patterns_lower_case. }
  split; [exact Hkept|].
  intros model_id Hline Hcase.
  destruct (should_include_model model_id) eqn:Hverdict; [|done].
  exfalso. apply Hcase.
  destruct (Hkept model_id Hline Hverdict) as [[<-|[<-|[<-|[]]]] _]; reflexivity.
Qed.

End InclusionFilter.

Lemma filter_skip_dominates_witness :
  Cloudflare.should_include_model "workers-ai/@cf/openai/whisper"
  = Cloudflare.Excluded.
Proof.
  apply filter_skip_dominates.
  - left. exists "whisper". split; [cbn; tauto | reflexivity].
  - left. cbn. tauto.
Defined.

Lemma filter_case_sensitive_witness :
  Cloudflare.should_include_model "OpenAI/gpt-4o" = Cloudflare.Excluded.
Proof.
  apply (proj2 filter_case_sensitive).
  - reflexivity.
  - vm_compute. discriminate.
Defined.

(** C8 fails: the provider segment written with capitals is not recognised,
    so the id is excluded while its lower-cased form is included; and a skip
    word written with a capital is not recognised, so the id is included
    while its lower-cased form is excluded. *)
Lemma filter_not_case_insensitive :
  (Cloudflare.should_include_model "Workers-AI/@cf/meta/llama" = Cloudflare.Excluded /\
   Cloudflare.should_include_model (Js.toLowerCase "Workers-AI/@cf/meta/llama")
   = Cloudflare.Included) /\
  (Cloudflare.should_include_model "workers-ai/@cf/openai/Whisper" = Cloudflare.Included /\
   Cloudflare.should_include_model (Js.toLowerCase "workers-ai/@cf/openai/Whisper")
   = Cloudflare.Excluded).
Proof. split_and!; reflexivity. Qed.

(* ===================================================================== *)
(** ** The sync drivers: dry run against real run *)
(* ===================================================================== *)

Section VercelDriver.
Import Js VercelSync.
Context (js : JsHost) (fs : FsHost) (toml : TomlHost).
Variables (newOnly : bool) (today : string).

Lemma vercel_step_skipped dryRun run m :
  skipped m = true -> step dryRun newOnly today run m = run.
Proof. intros Hs. unfold step. by rewrite Hs. Qed.

(** A dry-run iteration never touches the store. *)
Lemma vercel_step_dry_store run m :
  store (step true newOnly today run m) = store run.
Proof.
  unfold step. destruct (skipped m); [done|].
  destruct (loadExistingModel _ _); [|done].
  destruct newOnly; [done|]. by destruct (0 <? _)%nat.
Qed.

Lemma vercel_loop_dry_store apiModels store0 :
  store (loop true newOnly today apiModels store0) = store0.
Proof.
  unfold loop.
  assert (H : forall run, store (fold_left (step true newOnly today) apiModels run)
                          = store run).
  { induction apiModels as [|m l IH]; intros run; cbn [fold_left]; [done|].
    by rewrite IH, vercel_step_dry_store. }
  by rewrite H.
Qed.

(** A real iteration writes at most the file of its own entry. *)
Lemma vercel_step_store_other dryRun run m p :
  p <> filePath m ->
  store (step dryRun newOnly today run m) !! p = store run !! p.
Proof.
  intros Hp. unfold step. destruct (skipped m); [done|].
  destruct (loadExistingModel _ _); cbn [store].
  - destruct newOnly; [done|]. destruct (0 <? _)%nat; cbn [store]; [|done].
    destruct dryRun; [done|]. unfold write. by rewrite lookup_insert_ne.
  - destruct dryRun; [done|]. unfold write. by rewrite lookup_insert_ne.
Qed.






(** What the real run leaves at a path that is the file of no processed
    entry is what it found there. *)
Lemma vercel_loop_store_other apiModels store0 p :
  (forall m, In m apiModels -> skipped m = false -> p <> filePath m) ->
  store (loop false newOnly today apiModels store0) !! p = store0 !! p.
Proof.
  unfold loop.
  assert (H : forall l run,
             (forall m, In m l -> skipped m = false -> p <> filePath m) ->
             store (fold_left (step false newOnly today) l run) !! p = store run !! p).
  { induction l as [|m l IH]; intros run Hp; cbn [fold_left]; [done|].
    rewrite IH by (intros; apply Hp; [by right|done]).
    destruct (skipped m) eqn:Hm; [by rewrite vercel_step_skipped|].
    apply vercel_step_store_other, Hp; [by left|done]. }
  intros Hp. by rewrite H.
Qed.

End VercelDriver.

Section VeniceDriver.
Import Js VeniceSync.
Context (js : JsHost) (fs : FsHost) (toml : TomlHost).
Variable today : string.

Lemma venice_step_dry_store run m :
  store (step true today run m) = store run.
Proof.
  unfold step. destruct (loadExistingModel _ _); [|done].
  by destruct (0 <? _)%nat.
Qed.

Lemma venice_loop_dry_store apiModels store0 :
  store (loop true today apiModels store0) = store0.
Proof.
  unfold loop.
  assert (H : forall run, store (fold_left (step true today) apiModels run) = store run).
  { induction apiModels as [|m l IH]; intros run; cbn [fold_left]; [done|].
    by rewrite IH, venice_step_dry_store. }
  by rewrite H.
Qed.

Lemma venice_step_store_other dryRun run m p :
  p <> filePath m ->
  store (step dryRun today run m) !! p = store run !! p.
Proof.
  intros Hp. unfold step.
  destruct (loadExistingModel _ _); cbn [store].
  - destruct (0 <? _)%nat; cbn [store]; [|done].
    destruct dryRun; [done|]. unfold write. by rewrite lookup_insert_ne.
  - destruct dryRun; [done|]. unfold write. by rewrite lookup_insert_ne.
Qed.






Lemma venice_loop_store_other apiModels store0 p :
  (forall m, In m apiModels -> p <> filePath m) ->
  store (loop false today apiModels store0) !! p = store0 !! p.
Proof.
  unfold loop.
  assert (H : forall l run,
             (forall m, In m l -> p <> filePath m) ->
             store (fold_left (step false today) l run) !! p = store run !! p).
  { induction l as [|m l IH]; intros run Hp; cbn [fold_left]; [done|].
    rewrite IH by (intros; apply Hp; by right).
    apply venice_step_store_other, Hp. by left. }
  intros Hp. by rewrite H.
Qed.

End VeniceDriver.




(* ===================================================================== *)
(** ** The Vercel driver: skipped media models and the orphan report *)
(* ===================================================================== *)

Section VercelOrphans.
Import Js VercelSync.
Context (js : JsHost) (fs : FsHost) (toml : TomlHost).

(** An iteration adds the entry's relative path to the processed ids exactly
    when the entry is not skipped. *)
Lemma vercel_step_ids dryRun newOnly today run m :
  apiModelIds (step dryRun newOnly today run m)
  = if skipped m then apiModelIds run else {[relativePath m]} ∪ apiModelIds run.
Proof.
  unfold step. destruct (skipped m); [done|].
  destruct (loadExistingModel _ _); [|done].
  destruct newOnly; [done|]. by destruct (0 <? _)%nat.
Qed.

Lemma vercel_fold_ids dryRun newOnly today l :
  forall run x,
    x ∈ apiModelIds (fold_left (step dryRun newOnly today) l run) <->
    x ∈ apiModelIds run \/
    exists m, In m l /\ skipped m = false /\ relativePath m = x.
Proof.
  induction l as [|m l IH]; intros run x; cbn [fold_left].
  - split; [by left|]. intros [H|(m & [] & _)]. done.
  - rewrite IH, vercel_step_ids. split.
    + intros [H|(m' & Hin & Hs & Hx)].
      * destruct (skipped m) eqn:Hm; [by left|].
        apply elem_of_union in H as [H|H]; [|by left].
        apply elem_of_singleton in H. right. exists m. split_and!; [by left|done|done].
      * right. exists m'. split_and!; [by right|done|done].
    + intros [H|(m' & [->|Hin] & Hs & Hx)].
      * left. destruct (skipped m); [done|]. apply elem_of_union. by right.
      * left. rewrite Hs. apply elem_of_union. left. by apply elem_of_singleton.
      * right. exists m'. by split_and!.
Qed.

(** C10 (as amended): in the Vercel driver an entry of type image or video
    is skipped before its id joins the processed ids: the iteration leaves
    the counters, the processed ids and the store as they were.  Hence, when
    such an entry has a persisted file and no language or embedding entry of
    the payload carries the same id, the run lists that file as orphaned
    although the payload contains the entry. *)
Theorem skipped_media_reported_orphaned :
  (forall dryRun newOnly today run m,
      Vercel.type_ m = Vercel.Image \/ Vercel.type_ m = Vercel.Video ->
      step dryRun newOnly today run m = run) /\
  (forall dryRun newOnly today apiModels store0 m,
      In m apiModels ->
      Vercel.type_ m = Vercel.Image \/ Vercel.type_ m = Vercel.Video ->
      In (relativePath m) (glob_toml file modelsDir store0) ->
      (forall m', In m' apiModels -> relativePath m' = relativePath m ->
                  skipped m' = true) ->
      In (relativePath m) (orphaned (main dryRun newOnly today apiModels store0))).
Proof.
  assert (Hskip : forall m,
             Vercel.type_ m = Vercel.Image \/ Vercel.type_ m = Vercel.Video ->
             skipped m = true).
  { intros m [H|H]; unfold skipped; by rewrite H. }
  split.
  - intros. by apply vercel_step_skipped, Hskip.
  - intros dryRun newOnly today apiModels store0 m Hin Hty Hfile Honly.
    unfold main. cbn [orphaned]. apply filter_In. split; [done|].
    apply negb_true_iff, bool_decide_eq_false.
    unfold loop. rewrite vercel_fold_ids.
    intros [H|(m' & Hin' & Hs' & Hx)].
    + cbn in H. by apply not_elem_of_empty in H.
    + rewrite (Honly m' Hin' Hx) in Hs'. done.
Qed.

End VercelOrphans.

Lemma skipped_media_reported_orphaned_witness :
  In "openai/dall-e-3.toml"
    (VercelSync.orphaned
       (@VercelSync.main Host.decimalHost Host.flatFs VercelSync.plainReader false false Samples.runDate
          [Samples.vercelImage] Samples.vercelImageStore)).
Proof.
  apply (proj2 (skipped_media_reported_orphaned Host.decimalHost Host.flatFs
                  VercelSync.plainReader)
           false false Samples.runDate [Samples.vercelImage]
           Samples.vercelImageStore Samples.vercelImage).
  - cbn. tauto.
  - left. reflexivity.
  - vm_compute. tauto.
  - intros m' [<-|[]] _. reflexivity.
Defined.

(** C10 fails when a language entry of the payload carries the id of the
    image entry: the image entry is in the payload and its file is on disk,
    yet nothing is reported as orphaned. *)
Lemma media_twin_not_orphaned :
  In Samples.vercelImage [Samples.vercelImage; Samples.vercelImageTwin] /\
  Vercel.type_ Samples.vercelImage = Vercel.Image /\
  In (VercelSync.relativePath Samples.vercelImage)
     (@Js.glob_toml Host.flatFs VercelSync.file VercelSync.modelsDir
        Samples.vercelImageStore) /\
  VercelSync.orphaned
    (@VercelSync.main Host.decimalHost Host.flatFs VercelSync.plainReader false false Samples.runDate
       [Samples.vercelImage; Samples.vercelImageTwin] Samples.vercelImageStore)
  = [].
Proof.
  split_and!.
  - cbn. tauto.
  - reflexivity.
  - vm_compute. tauto.
  - vm_compute. reflexivity.
Qed.

(* ===================================================================== *)
(** ** Family inference: the candidate order and the tiers *)
(* ===================================================================== *)

Section FamilyOrderFacts.
Import Family FamilyOrder.

Lemma insert_by_length_perm x l : Permutation (x :: l) (insert_by_length x l).
Proof.
  induction l as [|y l IH]; cbn [insert_by_length]; [reflexivity|].
  destruct (String.length y <? String.length x)%nat; [reflexivity|].
  rewrite perm_swap. by constructor.
Qed.

Lemma insert_by_length_sorted x l :
  longest_first l -> longest_first (insert_by_length x l).
Proof.
  unfold longest_first.
  induction l as [|y l IH]; intros Hs; cbn [insert_by_length].
  - repeat constructor.
  - apply StronglySorted_inv in Hs as [Hl Hy].
    destruct (Nat.ltb_spec (String.length y) (String.length x)) as [Hlt|Hge].
    + constructor; [by constructor|].
      constructor; [lia|].
      eapply List.Forall_impl; [|exact Hy]. cbn. intros; lia.
    + constructor; [by apply IH|].
      rewrite <- (insert_by_length_perm x l). by constructor.
Qed.

Lemma filter_none {A} (p : A -> bool) (l : list A) :
  (forall a, In a l -> p a = false) -> List.filter p l = [].
Proof.
  induction l as [|a l IH]; intros Hp; cbn [List.filter]; [done|].
  rewrite (Hp a) by (by left). apply IH. intros b Hb. apply Hp. by right.
Qed.

Lemma insert_by_length_of_length k x l :
  longest_first l ->
  of_length k (insert_by_length x l)
  = (of_length k l ++ of_length k [x])%list.
Proof.
  unfold longest_first, of_length.
  induction l as [|y l IH]; intros Hs; [done|].
  apply StronglySorted_inv in Hs as [Hl Hy]. cbn [insert_by_length].
  destruct (Nat.ltb_spec (String.length y) (String.length x)) as [Hlt|Hge].
  - cbn [List.filter].
    destruct (Nat.eqb_spec (String.length x) k) as [Hk|Hk]; [|by rewrite app_nil_r].
    (* nothing from [y] on has the length of [x] *)
    assert (Hnone : List.filter (fun s => (String.length s =? k)%nat) (y :: l) = []).
    { apply filter_none. intros s Hin. apply Nat.eqb_neq.
      destruct Hin as [<-|Hin]; [lia|].
      rewrite List.Forall_forall in Hy. specialize (Hy s Hin). cbn in Hy. lia. }
    cbn [List.filter] in Hnone. by rewrite Hnone.
  - cbn [List.filter]. rewrite IH by done.
    by destruct (String.length y =? k)%nat.
Qed.

Lemma sort_from acc xs :
  longest_first acc ->
  let out := fold_left (fun acc x => insert_by_length x acc) xs acc in
  Permutation (acc ++ xs) out /\ longest_first out /\
  forall k, of_length k out = (of_length k acc ++ of_length k xs)%list.
Proof.
  revert acc. induction xs as [|x xs IH]; intros acc Hs; cbn [fold_left].
  - cbn zeta. rewrite app_nil_r. split_and!; [done|done|].
    intros k. unfold of_length at 3. cbn. by rewrite app_nil_r.
  - destruct (IH (insert_by_length x acc) (insert_by_length_sorted x acc Hs))
      as (Hp & Hso & Hk).
    cbn zeta. split_and!; [|done|].
    + rewrite <- Hp, <- insert_by_length_perm.
      symmetry. apply Permutation_middle.
    + intros k. rewrite Hk, insert_by_length_of_length by done.
      unfold of_length. rewrite <- app_assoc. f_equal.
      cbn [List.filter]. by destruct (String.length x =? k)%nat.
Qed.

(** X1: the candidate order.  Sorting by descending length keeps every
    element (a permutation), puts no longer element behind a shorter one,
    and keeps the elements of equal length in their original order. *)
Theorem sort_by_length_desc_stable (xs : list string) :
  Permutation xs (sort_by_length_desc xs) /\
  longest_first (sort_by_length_desc xs) /\
  forall k, of_length k (sort_by_length_desc xs) = of_length k xs.
Proof.
  destruct (sort_from [] xs) as (Hp & Hs & Hk); [constructor|].
  unfold sort_by_length_desc. split_and!; [exact Hp|exact Hs|exact Hk].
Qed.

Lemma sortedFamilies_sorted :
  sortedFamilies = sort_by_length_desc ModelFamilyValues.
Proof. vm_compute. reflexivity. Qed.

Lemma sortedFamilies_known f : In f sortedFamilies <-> In f ModelFamilyValues.
Proof.
  rewrite sortedFamilies_sorted.
  destruct (sort_from [] ModelFamilyValues) as (Hp & _); [constructor|].
  change (Permutation ModelFamilyValues (sort_by_length_desc ModelFamilyValues)) in Hp.
  split; intros Hin.
  - eapply Permutation_in; [symmetry; exact Hp|exact Hin].
  - eapply Permutation_in; [exact Hp|exact Hin].
Qed.

(** The first match on a list with the longest first is a longest match. *)
Lemma first_match_longest p l r :
  longest_first l ->
  first_match p l = Some r ->
  In r l /\ p r = true /\
  forall f, In f l -> p f = true -> (String.length f <= String.length r)%nat.
Proof.
  unfold first_match, longest_first.
  induction l as [|y l IH]; intros Hs Hfind; [done|].
  apply StronglySorted_inv in Hs as [Hl Hy]. cbn [find] in Hfind.
  destruct (p y) eqn:Hpy.
  - injection Hfind as <-. split_and!; [by left|done|].
    intros f [<-|Hin] _; [done|].
    rewrite List.Forall_forall in Hy. by apply Hy.
  - destruct (IH Hl Hfind) as (Hin & Hpr & Hmax). split_and!; [by right|done|].
    intros f [<-|Hf] Hpf; [congruence|by apply Hmax].
Qed.

Lemma first_match_some p l f :
  In f l -> p f = true -> exists r, first_match p l = Some r.
Proof.
  unfold first_match. intros Hin Hp.
  destruct (find p l) as [r|] eqn:Hfind; [by eexists|].
  by rewrite (find_none _ _ Hfind f Hin) in Hp.
Qed.

Lemma sortedFamilies_longest_first : longest_first sortedFamilies.
Proof.
  rewrite sortedFamilies_sorted.
  destruct (sort_from [] ModelFamilyValues) as (_ & Hs & _); [constructor|].
  exact Hs.
Qed.

Lemma first_match_declared p f :
  first_match p sortedFamilies = Some f -> In f ModelFamilyValues.
Proof.
  intros Hp. apply sortedFamilies_known.
  by apply (first_match_longest p _ _ sortedFamilies_longest_first).
Qed.

Lemma vercel_inferred_declared modelId modelName f :
  Vercel.inferFamily modelId modelName = Some f -> In f ModelFamilyValues.
Proof.
  unfold Vercel.inferFamily, Vercel.or_else. intros H.
  repeat match type of H with
         | match first_match ?p ?l with _ => _ end = _ =>
             destruct (first_match p l) eqn:?
         end;
    first [ injection H as ->; by eapply first_match_declared
          | by eapply first_match_declared | done ].
Qed.

Lemma venice_inferred_declared modelId modelName f :
  Venice.inferFamily modelId modelName = Some f -> In f ModelFamilyValues.
Proof.
  unfold Venice.inferFamily. intros H.
  repeat match type of H with
         | match first_match ?p ?l with _ => _ end = _ =>
             destruct (first_match p l) eqn:?
         end;
    first [ injection H as ->; by eapply first_match_declared
          | by eapply first_match_declared | done ].
Qed.

(** X2: family inference only ever yields a declared family tag. *)
Theorem inferred_family_declared (modelId modelName f : string) :
  Vercel.inferFamily modelId modelName = Some f \/
  Venice.inferFamily modelId modelName = Some f ->
  In f ModelFamilyValues.
Proof.
  intros [Hvercel|Hvenice].
  - by eapply vercel_inferred_declared.
  - by eapply venice_inferred_declared.
Qed.

(** X3: the most specific tag wins.  When some declared tag occurs in the
    id as a substring, the Vercel inference answers with a tag that occurs
    in the id and is at least as long as every declared tag occurring in it;
    likewise for the Venice inference and tags that are subsequences of the
    id. *)
Theorem most_specific_family_wins (modelId modelName f : string) :
  In f ModelFamilyValues ->
  (isSubstring modelId f = true ->
   exists r, Vercel.inferFamily modelId modelName = Some r /\
             isSubstring modelId r = true /\
             (String.length f <= String.length r)%nat) /\
  (matchesFamily modelId f = true ->
   exists r, Venice.inferFamily modelId modelName = Some r /\
             matchesFamily modelId r = true /\
             (String.length f <= String.length r)%nat).
Proof.
  intros Hf%sortedFamilies_known. split; intros Hm.
  - destruct (first_match_some _ _ _ Hf Hm) as [r Hr].
    destruct (first_match_longest _ _ _ sortedFamilies_longest_first Hr)
      as (_ & Hpr & Hmax).
    exists r. unfold Vercel.inferFamily, Vercel.or_else. rewrite Hr. eauto.
  - destruct (first_match_some _ _ _ Hf Hm) as [r Hr].
    destruct (first_match_longest _ _ _ sortedFamilies_longest_first Hr)
      as (_ & Hpr & Hmax).
    exists r. unfold Venice.inferFamily. rewrite Hr. eauto.
Qed.

End FamilyOrderFacts.

Lemma inferred_family_declared_witness : In "llama" Family.ModelFamilyValues.
Proof.
  apply (inferred_family_declared "llama-3.3-70b" "Llama 3.3 70B").
  left. vm_compute. reflexivity.
Defined.

Lemma most_specific_family_wins_witness :
  exists r, Vercel.inferFamily "anthropic/claude-opus-4-6" "Claude Opus 4.6" = Some r /\
            Family.isSubstring "anthropic/claude-opus-4-6" r = true /\
            (String.length "claude" <= String.length r)%nat.
Proof.
  apply (most_specific_family_wins "anthropic/claude-opus-4-6" "Claude Opus 4.6" "claude").
  - vm_compute. tauto.
  - vm_compute. reflexivity.
Defined.

Section FamilyTiers.
Import Js Family.

(** Dropping the head of the pattern, or adding a head to the target, keeps
    a subsequence match. *)
Lemma subsequence_weaken target :
  (forall f family, subsequence target (String f family) = true ->
                    subsequence target family = true) /\
  (forall c family, subsequence target family = true ->
                    subsequence (String c target) family = true).
Proof.
  induction target as [|t target [IHdrop IHcons]].
  - split; [done|].
    intros c [|f family]; cbn; [done|discriminate].
  - assert (Hcons : forall c family,
               subsequence (String t target) family = true ->
               subsequence (String c (String t target)) family = true).
    { intros c [|f family] H; [done|].
      cbn [subsequence]. destruct (Ascii.eqb c f); [|exact H].
      cbn [subsequence] in H. destruct (Ascii.eqb t f).
      - by apply IHcons.
      - destruct family as [|g family]; [by destruct target|].
        cbn [subsequence]. destruct (Ascii.eqb t g).
        + eauto.
        + eauto. }
    split; [|exact Hcons].
    intros f family H. cbn [subsequence] in H.
    destruct (Ascii.eqb t f).
    + by apply IHcons.
    + destruct family as [|g family]; [done|].
      cbn [subsequence]. destruct (Ascii.eqb t g); eauto.
Qed.

Lemma startsWith_subsequence s p :
  startsWith s p = true -> subsequence s p = true.
Proof.
  revert p. induction s as [|c s IH]; intros [|a p]; cbn; try done.
  intros [Hc Hp]%andb_prop. rewrite Ascii.eqb_sym, Hc. by apply IH.
Qed.

Lemma includes_subsequence s sub :
  includes s sub = true -> subsequence s sub = true.
Proof.
  induction s as [|c s IH]; cbn [includes].
  - rewrite orb_false_r. apply startsWith_subsequence.
  - intros [H|H]%orb_prop; [by apply startsWith_subsequence|].
    apply subsequence_weaken. by apply IH.
Qed.

(** X4: a tag that occurs in the target as a substring also matches it as a
    subsequence, so the substring tiers of the Vercel inference never find a
    family where the subsequence tiers find none: the two inferences answer
    "none" on exactly the same ids and names. *)
Theorem substring_tier_within_subsequence_tier :
  (forall target family,
      isSubstring target family = true -> matchesFamily target family = true) /\
  (forall modelId modelName,
      Vercel.inferFamily modelId modelName = None <->
      Venice.inferFamily modelId modelName = None).
Proof.
  assert (Hsub : forall target family,
             isSubstring target family = true -> matchesFamily target family = true).
  { intros target family. apply includes_subsequence. }
  split; [exact Hsub|].
  assert (Hnone : forall target,
             first_match (matchesFamily target) sortedFamilies = None ->
             first_match (isSubstring target) sortedFamilies = None).
  { intros target Hm. unfold first_match in *.
    destruct (find (isSubstring target) sortedFamilies) as [r|] eqn:Hr; [|done].
    apply find_some in Hr as [Hin Hr].
    pose proof (find_none _ _ Hm r Hin) as Hno.
    by rewrite (Hsub _ _ Hr) in Hno. }
  intros modelId modelName.
  unfold Vercel.inferFamily, Venice.inferFamily, Vercel.or_else. split.
  - intros H.
    destruct (first_match (isSubstring modelId) _); [done|].
    destruct (first_match (isSubstring modelName) _); [done|].
    destruct (first_match (matchesFamily modelId) _); [done|]. exact H.
  - intros H.
    destruct (first_match (matchesFamily modelId) _) eqn:Hid; [done|].
    by rewrite (Hnone _ Hid), (Hnone _ H), H.
Qed.

Lemma lower_ascii_idempotent c : lower_ascii (lower_ascii c) = lower_ascii c.
Proof. destruct c as [[] [] [] [] [] [] [] []]; reflexivity. Qed.

Lemma toLowerCase_idempotent s : toLowerCase (toLowerCase s) = toLowerCase s.
Proof.
  induction s as [|c s IH]; cbn; [done|]. by rewrite lower_ascii_idempotent, IH.
Qed.

(** X5: family inference ignores the case of the id and of the display
    name: lower-casing either leaves the answer of both inferences
    unchanged. *)
Theorem inference_ignores_case (modelId modelName : string) :
  Vercel.inferFamily (toLowerCase modelId) (toLowerCase modelName)
  = Vercel.inferFamily modelId modelName /\
  Venice.inferFamily (toLowerCase modelId) (toLowerCase modelName)
  = Venice.inferFamily modelId modelName.
Proof.
  assert (Hm : forall t, matchesFamily (toLowerCase t) = matchesFamily t).
  { intros t. unfold matchesFamily. by rewrite toLowerCase_idempotent. }
  assert (Hs : forall t, isSubstring (toLowerCase t) = isSubstring t).
  { intros t. unfold isSubstring. by rewrite toLowerCase_idempotent. }
  unfold Vercel.inferFamily, Venice.inferFamily.
  by rewrite !Hm, !Hs.
Qed.

End FamilyTiers.

Lemma substring_tier_within_subsequence_tier_witness :
  Family.matchesFamily "openai/gpt-4o" "gpt" = true.
Proof.
  apply (proj1 substring_tier_within_subsequence_tier). vm_compute. reflexivity.
Defined.

(* ===================================================================== *)
(** ** [formatNumber]: digit grouping *)
(* ===================================================================== *)

Section NumberFormatFacts.
Import NumberFormat.

Example formatNumber_131072 : formatNumber 131072 = "131_072".
Proof. reflexivity. Qed.

Example formatNumber_small : formatNumber 999 = "999" /\ formatNumber 0 = "0".
Proof. split; reflexivity. Qed.

Example formatNumber_million : formatNumber 1000000 = "1_000_000".
Proof. reflexivity. Qed.

Lemma mark_underscore x : ("_" ++ x)%string = String "_"%char x.
Proof. reflexivity. Qed.

Lemma mark_nothing x : ("" ++ x)%string = x.
Proof. reflexivity. Qed.

Lemma strip_separate prev s : strip (separate prev s) = strip s.
Proof.
  revert prev. induction s as [|c s IH]; intros prev; cbn [separate].
  - by destruct (_ && _)%bool.
  - assert (Hus : forall x, strip (String "_" x) = strip x) by reflexivity.
    destruct (_ && _)%bool; rewrite ?mark_underscore, ?mark_nothing, ?Hus;
      cbn [strip];
      destruct (Ascii.eqb c "_"%char); by rewrite IH.
Qed.

Lemma strip_digits s : digits_only s = true -> strip s = s.
Proof.
  induction s as [|c s IH]; cbn [digits_only strip]; [done|].
  intros [Hc Hs]%andb_prop.
  destruct (Ascii.eqb_spec c "_"%char) as [->|_]; [discriminate Hc|].
  by rewrite IH.
Qed.

Lemma string_of_uint_digits u : digits_only (NilEmpty.string_of_uint u) = true.
Proof. induction u; cbn [NilEmpty.string_of_uint digits_only]; by rewrite ?IHu. Qed.

Lemma toString_digits n : 0 < n -> digits_only (toString n) = true.
Proof.
  destruct n as [|p|p]; try lia. intros _.
  unfold toString. cbn [Z.to_int NilEmpty.string_of_int].
  apply string_of_uint_digits.
Qed.

Lemma toString_nonempty n : 0 < n -> toString n <> "".
Proof.
  destruct n as [|p|p]; try lia. intros _.
  unfold toString. cbn [Z.to_int NilEmpty.string_of_int].
  pose proof (Unsigned.to_uint_nonnil p) as Hnil.
  destruct (Pos.to_uint p); try done.
Qed.

Lemma digit_run_digits s : digits_only s = true -> digit_run s = String.length s.
Proof.
  induction s as [|c s IH]; cbn [digits_only digit_run String.length]; [done|].
  intros [-> Hs]%andb_prop. by rewrite IH.
Qed.

Lemma is_digit_word c : is_digit c = true -> is_word c = true.
Proof. unfold is_word. by intros ->. Qed.

Lemma mod3_succ (n : nat) :
  ((S n mod 3 = 0 -> n mod 3 = 2) /\
   (S n mod 3 <> 0 -> S n mod 3 = S (n mod 3)))%nat.
Proof.
  pose proof (Nat.mod_upper_bound n 3 ltac:(lia)) as Hlt.
  assert (Hs : (S n mod 3 = S (n mod 3) mod 3)%nat).
  { rewrite (Nat.div_mod_eq n 3) at 1.
    replace (S (3 * (n / 3) + n mod 3))%nat
      with (S (n mod 3) + (n / 3) * 3)%nat by lia.
    apply Nat.Div0.mod_add. }
  rewrite Hs.
  destruct (n mod 3)%nat as [|[|[|k]]]; cbn; split; intros; lia.
Qed.

(** Inside a run of digits, the pieces after the first are three digits
    long, and the first piece holds what is left over. *)
Lemma groups_inside d s :
  is_digit d = true -> digits_only s = true ->
  exists g0 rest,
    groups (separate (Some d) s) = g0 :: rest /\
    String.length g0 = (String.length s mod 3)%nat /\
    List.Forall (fun g => String.length g = 3%nat) rest.
Proof.
  intros Hd. revert d Hd. induction s as [|c s IH]; intros d Hd Hs.
  - exists "", []. cbn [separate]. unfold lookahead. cbn [digit_run].
    rewrite andb_false_r. split_and!; [done|done|constructor].
  - cbn [digits_only] in Hs. apply andb_prop in Hs as [Hc Hs].
    destruct (IH c Hc Hs) as (g0 & rest & Hg & Hlen & Hrest).
    assert (Hnu : Ascii.eqb c "_"%char = false).
    { destruct (Ascii.eqb_spec c "_"%char) as [->|_]; [discriminate Hc|done]. }
    assert (Hrun : lookahead (String c s)
                   = (S (String.length s) mod 3 =? 0)%nat).
    { unfold lookahead. rewrite digit_run_digits
        by (cbn [digits_only]; by rewrite Hc, Hs).
      cbn [String.length].
      destruct (Nat.eqb_spec (S (String.length s) mod 3) 0) as [Hz|Hz].
      - rewrite andb_true_r. apply Nat.leb_le.
        destruct (String.length s) as [|[|n]]; cbn in Hz; try discriminate; lia.
      - apply andb_false_r. }
    cbn [separate first_char]. unfold non_boundary.
    rewrite (is_digit_word d Hd), (is_digit_word c Hc), Hrun.
    cbn [Bool.eqb andb].
    destruct (Nat.eqb_spec (S (String.length s) mod 3) 0) as [Hz|Hz].
    + exists "", (String c g0 :: rest).
      rewrite mark_underscore. cbn [groups]. rewrite Ascii.eqb_refl, Hnu, Hg.
      cbn [String.length]. split_and!; [done|lia|].
      constructor; [|done]. cbn [String.length]. rewrite Hlen.
      by rewrite (proj1 (mod3_succ (String.length s)) Hz).
    + exists (String c g0), rest.
      rewrite mark_nothing. cbn [groups]. rewrite Hnu, Hg.
      cbn [String.length]. split_and!; [done| |done]. rewrite Hlen.
      by rewrite (proj2 (mod3_succ (String.length s)) Hz).
Qed.

(** X6: [formatNumber] groups the digits in threes from the right.  Below
    1000 it is the plain decimal text.  For a safe integer from 1000 on, the
    text without its underscores is the decimal text, the first piece
    between underscores has one to three digits and every later piece
    exactly three. *)
Theorem formatNumber_groups_of_three (n : Z) :
  (n < 1000 -> formatNumber n = toString n) /\
  (1000 <= n <= MAX_SAFE_INTEGER ->
   strip (formatNumber n) = toString n /\
   exists g0 rest,
     groups (formatNumber n) = g0 :: rest /\
     (1 <= String.length g0 <= 3)%nat /\
     List.Forall (fun g => String.length g = 3%nat) rest).
Proof.
  unfold formatNumber. split.
  - intros Hlt. by destruct (Z.leb_spec 1000 n); [lia|].
  - intros [Hge _]. destruct (Z.leb_spec 1000 n); [|lia].
    assert (Hd : digits_only (toString n) = true) by (apply toString_digits; lia).
    assert (Hne : toString n <> "") by (apply toString_nonempty; lia).
    split; [by rewrite strip_separate, strip_digits|].
    destruct (toString n) as [|c s]; [done|].
    cbn [digits_only] in Hd. apply andb_prop in Hd as [Hc Hs].
    destruct (groups_inside c s Hc Hs) as (g0 & rest & Hg & Hlen & Hrest).
    assert (Hnu : Ascii.eqb c "_"%char = false).
    { destruct (Ascii.eqb_spec c "_"%char) as [->|_]; [discriminate Hc|done]. }
    exists (String c g0), rest.
    cbn [separate first_char]. unfold non_boundary. rewrite (is_digit_word c Hc).
    cbn [Bool.eqb andb]. rewrite mark_nothing. cbn [groups]. rewrite Hnu, Hg.
    cbn [String.length]. split_and!; [done|lia| |done].
    pose proof (Nat.mod_upper_bound (String.length s) 3). lia.
Qed.

End NumberFormatFacts.

Lemma formatNumber_groups_of_three_witness :
  NumberFormat.strip (NumberFormat.formatNumber 131072) = NumberFormat.toString 131072.
Proof.
  apply (proj2 (formatNumber_groups_of_three 131072)).
  unfold NumberFormat.MAX_SAFE_INTEGER. lia.
Defined.

(* ===================================================================== *)
(** ** The reconcilers: invariants of the merged record *)
(* ===================================================================== *)

Section MergedInvariants.
Import Js.
Context (host : JsHost).

Ltac valid_concrete :=
  split_and!;
  [ repeat constructor; cbn; tauto
  | repeat constructor; cbn; intuition discriminate
  | reflexivity ].

(** X7: the modalities of a merged record are well formed.  For both
    reconcilers, whatever the payload and the existing record, the input and
    output modalities are drawn from the schema's five values, hold no value
    twice, and begin with ["text"]. *)
Theorem merged_modalities_well_formed (today : string) :
  (forall api e,
      let m := Venice.modalities (Venice.mergeModel today api e) in
      (Schema.valid_modalities (Venice.input m) /\ List.NoDup (Venice.input m)
       /\ head (Venice.input m) = Some "text") /\
      (Schema.valid_modalities (Venice.m_output m) /\ List.NoDup (Venice.m_output m)
       /\ head (Venice.m_output m) = Some "text")) /\
  (forall api e,
      let m := Vercel.modalities (Vercel.mergeModel today api e) in
      (Schema.valid_modalities (Vercel.input m) /\ List.NoDup (Vercel.input m)
       /\ head (Vercel.input m) = Some "text") /\
      (Schema.valid_modalities (Vercel.m_output m) /\ List.NoDup (Vercel.m_output m)
       /\ head (Vercel.m_output m) = Some "text")).
Proof.
  unfold Schema.valid_modalities. split; intros api e; cbn zeta.
  - unfold Venice.mergeModel.
    cbn [Venice.modalities Venice.input Venice.m_output].
    split; [|valid_concrete].
    unfold Venice.buildInputModalities.
    destruct (Venice.is_true (Venice.supportsVision _)),
             (Venice.is_true (Venice.supportsAudioInput _)),
             (Venice.is_true (Venice.supportsVideoInput _));
      cbn [app];
      match goal with
      | |- context [if ?b then _ else _] => destruct b
      end; cbn [app]; valid_concrete.
  - unfold Vercel.mergeModel.
    cbn [Vercel.modalities Vercel.input Vercel.m_output].
    unfold Vercel.buildInputModalities, Vercel.buildOutputModalities.
    split.
    + destruct (arr_includes (Vercel.tags api) "vision"),
               (arr_includes (Vercel.tags api) "file-input");
        cbn [app]; valid_concrete.
    + destruct (Vercel.is_image (Vercel.type_ api)
                || arr_includes (Vercel.tags api) "image-generation"),
               (Vercel.is_video (Vercel.type_ api)); cbn [app]; valid_concrete.
Qed.

(** X8: the cost block is recomputed from the payload alone.  For both
    reconcilers the merged cost does not depend on the existing record or
    on the run date; when the payload carries no pricing the merged record
    has no cost block, whatever cost the existing record held; and the
    Venice reconciler produces a cost block exactly when the payload has
    pricing. *)
Theorem cost_from_payload_only :
  (forall today today' api e e',
      Venice.cost (Venice.mergeModel today api e)
      = Venice.cost (Venice.mergeModel today' api e')) /\
  (forall today api e,
      Venice.cost (Venice.mergeModel today api e) = None
      <-> Venice.pricing (Venice.model_spec api) = None) /\
  (forall today today' api e e',
      Vercel.cost (Vercel.mergeModel today api e)
      = Vercel.cost (Vercel.mergeModel today' api e')) /\
  (forall today api e,
      Vercel.pricing api = None ->
      Vercel.cost (Vercel.mergeModel today api e) = None).
Proof.
  split_and!; try reflexivity.
  - intros today api e. unfold Venice.mergeModel. cbn [Venice.cost].
    by destruct (Venice.pricing (Venice.model_spec api)).
  - intros today api e Hp. unfold Vercel.mergeModel, Vercel.mergedCost.
    cbn [Vercel.cost]. by rewrite Hp.
Qed.

(** X9: [attachment] and the input modalities agree.  In the Venice
    reconciler [attachment] is set exactly when the payload's capabilities
    give an input modality besides text; in the Vercel reconciler the same
    holds of the payload's tags whenever the existing record does not pin
    [attachment]. *)
Theorem attachment_matches_input_modalities (today : string) :
  (forall api e,
      Venice.attachment (Venice.mergeModel today api e) = true <->
      Venice.buildInputModalities (Venice.capabilities (Venice.model_spec api))
      <> ["text"]) /\
  (forall api e,
      e ≫= Vercel.x_attachment = None ->
      (Vercel.attachment (Vercel.mergeModel today api e) = true <->
       Vercel.input (Vercel.modalities (Vercel.mergeModel today api e)) <> ["text"])).
Proof.
  split.
  - intros api e. unfold Venice.mergeModel, Venice.buildInputModalities.
    cbn [Venice.attachment].
    destruct (Venice.is_true (Venice.supportsVision _)),
             (Venice.is_true (Venice.supportsAudioInput _)),
             (Venice.is_true (Venice.supportsVideoInput _));
      cbn; split; congruence.
  - intros api e He. unfold Vercel.mergeModel, Vercel.buildInputModalities.
    cbn [Vercel.attachment Vercel.modalities Vercel.input]. rewrite He.
    cbn [nullish].
    destruct (arr_includes (Vercel.tags api) "vision"),
             (arr_includes (Vercel.tags api) "file-input");
      cbn; split; congruence.
Qed.

(** X10: the limits stay valid.  The Vercel reconciler yields non-negative
    limits for every payload, negative numbers included, as long as the
    existing limits, where present, are non-negative.  The Venice
    reconciler never exceeds a quarter of the context window with its
    output limit, and yields an output limit between 0 and the context
    window when the window and the existing output limit are
    non-negative. *)
Theorem merged_limits_valid (today : string) :
  (forall api e,
      (forall c, Vercel.existing_limit_context e = Some c -> 0 <= c) ->
      (forall o, Vercel.existing_limit_output e = Some o -> 0 <= o) ->
      0 <= Vercel.context (Vercel.limit (Vercel.mergeModel today api e)) /\
      0 <= Vercel.output (Vercel.limit (Vercel.mergeModel today api e))) /\
  (forall api e,
      Venice.output (Venice.limit (Venice.mergeModel today api e))
      <= Venice.availableContextTokens (Venice.model_spec api) / 4) /\
  (forall api e,
      0 <= Venice.availableContextTokens (Venice.model_spec api) ->
      (forall o, Venice.existing_limit_output e = Some o -> 0 <= o) ->
      0 <= Venice.output (Venice.limit (Venice.mergeModel today api e))
        <= Venice.context (Venice.limit (Venice.mergeModel today api e))).
Proof.
  split_and!.
  - intros api e Hc Ho. unfold Vercel.mergeModel.
    cbn [Vercel.limit Vercel.context Vercel.output]. split.
    + destruct (Z.ltb_spec 0 (Vercel.context_window api)); [lia|].
      destruct (Vercel.existing_limit_context e) as [c|]; cbn; [by apply Hc|lia].
    + destruct (Z.ltb_spec 0 (Vercel.max_tokens api)); [lia|].
      destruct (Vercel.existing_limit_output e) as [o|]; cbn; [by apply Ho|lia].
  - intros api e. unfold Venice.mergeModel, Venice.proposedOutputTokens.
    cbn [Venice.limit Venice.output].
    destruct (Venice.existing_limit_output e) as [o|]; [|lia].
    destruct (Z.ltb_spec o (Venice.availableContextTokens (Venice.model_spec api) / 4)); lia.
  - intros api e Hctx Ho. unfold Venice.mergeModel, Venice.proposedOutputTokens.
    cbn [Venice.limit Venice.output Venice.context].
    set (c := Venice.availableContextTokens (Venice.model_spec api)) in *.
    assert (0 <= c / 4 <= c) by (split; [apply Z.div_pos; lia | apply Z.div_le_upper_bound; lia]).
    destruct (Venice.existing_limit_output e) as [o|]; [|lia].
    specialize (Ho o eq_refl).
    destruct (Z.ltb_spec o (c / 4)); lia.
Qed.

End MergedInvariants.

Lemma cost_from_payload_only_witness :
  Vercel.cost (@Vercel.mergeModel Host.decimalHost Samples.runDate Samples.vercelGpt4o
                 (Some Samples.vercelCurated)) = None.
Proof.
  apply (proj2 (proj2 (proj2 (cost_from_payload_only Host.decimalHost)))).
  reflexivity.
Defined.

Lemma attachment_matches_input_modalities_witness :
  Vercel.attachment
    (@Vercel.mergeModel Host.decimalHost Samples.runDate Samples.vercelGpt4o None) = true
  <-> Vercel.input (Vercel.modalities
        (@Vercel.mergeModel Host.decimalHost Samples.runDate Samples.vercelGpt4o None))
      <> ["text"].
Proof.
  apply (proj2 (attachment_matches_input_modalities Host.decimalHost Samples.runDate)).
  reflexivity.
Defined.

Lemma merged_limits_valid_witness :
  0 <= Vercel.output (Vercel.limit
         (@Vercel.mergeModel Host.decimalHost Samples.runDate Samples.vercelNoLimit
            (Some Samples.vercelZeroLimit))).
Proof.
  apply (proj1 (merged_limits_valid Host.decimalHost Samples.runDate)).
  - intros c H. discriminate H.
  - intros o H. injection H as <-. lia.
Defined.

(* ===================================================================== *)
(** ** The change detectors: what a report can contain *)
(* ===================================================================== *)

Section ReportShape.
Import Js.

Lemma sublist_optional (c : bool) (f : string) (l k : list string) :
  sublist l k -> sublist ((if c then [f] else []) ++ l)%list (f :: k).
Proof. intros H. destruct c; cbn [app]; by constructor. Qed.

(** X11: a report lists tracked fields only, each at most once and in the
    order of the detector's comparisons: the field names of the changes
    form a sub-list of the tracked field names, for every existing and
    merged record. *)
Theorem report_is_ordered_selection :
  (forall e m,
      sublist (map Vercel.field (Vercel.detectChanges e m)) Tracked.vercel_fields) /\
  (forall e m,
      sublist (map Venice.field (Venice.detectChanges e m)) Tracked.venice_fields).
Proof.
  split; intros [e|] m; try apply sublist_nil_l.
  - rewrite vercel_detect_fields. cbn [map concat]. unfold Tracked.vercel_fields.
    repeat apply sublist_optional. constructor.
  - unfold Venice.detectChanges. rewrite !venice_compare_fields.
    cbn [map app]. unfold Tracked.venice_fields.
    assert (Hflip : forall (c : bool) (f : string),
               (if c then [] else [f]) = if negb c then [f] else [])
      by (by intros []).
    rewrite !Hflip, <- !app_assoc.
    repeat apply sublist_optional.
    assert (Hlast : forall (c : bool) (f : string),
               sublist (if c then [f] else []) [f])
      by (intros [] f; repeat constructor).
    apply Hlast.
Qed.

End ReportShape.

(* ===================================================================== *)
(** ** The sync drivers: counters, the store and the orphan report *)
(* ===================================================================== *)

Section VercelRun.
Import Js VercelSync.
Context (js : JsHost) (fs : FsHost) (toml : TomlHost).
Variables (dryRun newOnly : bool) (today : string).

Lemma vercel_step_total run m :
  total (step dryRun newOnly today run m)
  = (total run + if skipped m then 0 else 1)%nat.
Proof.
  unfold step, total. destruct (skipped m); [lia|].
  destruct (loadExistingModel _ _); cbn [created updated unchanged]; [|lia].
  destruct newOnly; cbn [created updated unchanged]; [lia|].
  destruct (0 <? _)%nat; cbn [created updated unchanged]; lia.
Qed.

Lemma vercel_fold_total l run :
  total (fold_left (step dryRun newOnly today) l run)
  = (total run + length (List.filter (fun m => negb (skipped m)) l))%nat.
Proof.
  revert run. induction l as [|m l IH]; intros run; cbn [fold_left List.filter].
  - cbn. lia.
  - rewrite IH, vercel_step_total. destruct (skipped m); cbn; lia.
Qed.

(** An iteration keeps every file. *)
Lemma vercel_step_keeps run m p :
  is_Some (store run !! p) -> is_Some (store (step dryRun newOnly today run m) !! p).
Proof.
  assert (Hw : forall content,
             is_Some (store run !! p) ->
             is_Some (write (store run) (filePath m) content !! p)).
  { intros content. unfold write.
    destruct (decide (filePath m = p)) as [<-|Hne].
    - rewrite lookup_insert_eq. eauto.
    - by rewrite lookup_insert_ne. }
  unfold step. destruct (skipped m); [done|].
  destruct (loadExistingModel _ _); cbn [store].
  - destruct newOnly; [done|]. destruct (0 <? _)%nat; cbn [store]; [|done].
    destruct dryRun; [done|apply Hw].
  - destruct dryRun; [done|apply Hw].
Qed.

Lemma vercel_fold_keeps l run p :
  is_Some (store run !! p) ->
  is_Some (store (fold_left (step dryRun newOnly today) l run) !! p).
Proof.
  revert run. induction l as [|m l IH]; intros run; cbn [fold_left]; [done|].
  intros H. by apply IH, vercel_step_keeps.
Qed.

(** With [--new-only] nothing counts as updated and a readable file is
    never written. *)
Lemma vercel_step_new_only dry run m p doc :
  store run !! p = Some (Toml doc) ->
  store (step dry true today run m) !! p = Some (Toml doc) /\
  updated (step dry true today run m) = updated run.
Proof.
  intros Hp. unfold step. destruct (skipped m); [done|].
  destruct (loadExistingModel (store run) (filePath m)) as [e|] eqn:He;
    cbn [store updated]; [done|].
  split; [|done]. destruct dry; [done|].
  unfold write. rewrite lookup_insert_ne; [done|].
  intros Heq. unfold loadExistingModel in He. by rewrite Heq, Hp in He.
Qed.

Lemma vercel_step_new_only_updated dry run m :
  updated (step dry true today run m) = updated run.
Proof.
  unfold step. destruct (skipped m); [done|].
  by destruct (loadExistingModel _ _).
Qed.

End VercelRun.

Section VeniceRun.
Import Js VeniceSync.
Context (js : JsHost) (fs : FsHost) (toml : TomlHost).
Variables (dryRun : bool) (today : string).

Lemma venice_step_total run m :
  total (step dryRun today run m) = S (total run).
Proof.
  unfold step, total.
  destruct (loadExistingModel _ _); cbn [created updated unchanged]; [|lia].
  destruct (0 <? _)%nat; cbn [created updated unchanged]; lia.
Qed.

Lemma venice_fold_total l run :
  total (fold_left (step dryRun today) l run) = (total run + length l)%nat.
Proof.
  revert run. induction l as [|m l IH]; intros run; cbn [fold_left length]; [lia|].
  rewrite IH, venice_step_total. lia.
Qed.

Lemma venice_step_keeps run m p :
  is_Some (store run !! p) -> is_Some (store (step dryRun today run m) !! p).
Proof.
  assert (Hw : forall content,
             is_Some (store run !! p) ->
             is_Some (write (store run) (filePath m) content !! p)).
  { intros content. unfold write.
    destruct (decide (filePath m = p)) as [<-|Hne].
    - rewrite lookup_insert_eq. eauto.
    - by rewrite lookup_insert_ne. }
  unfold step.
  destruct (loadExistingModel _ _); cbn [store].
  - destruct (0 <? _)%nat; cbn [store]; [|done].
    destruct dryRun; [done|apply Hw].
  - destruct dryRun; [done|apply Hw].
Qed.

Lemma venice_fold_keeps l run p :
  is_Some (store run !! p) ->
  is_Some (store (fold_left (step dryRun today) l run) !! p).
Proof.
  revert run. induction l as [|m l IH]; intros run; cbn [fold_left]; [done|].
  intros H. by apply IH, venice_step_keeps.
Qed.

Lemma venice_step_ids run m :
  apiModelIds (step dryRun today run m) = {[filename m]} ∪ apiModelIds run.
Proof.
  unfold step. destruct (loadExistingModel _ _); [|done].
  by destruct (0 <? _)%nat.
Qed.

Lemma venice_fold_ids l :
  forall run x,
    x ∈ apiModelIds (fold_left (step dryRun today) l run) <->
    x ∈ apiModelIds run \/ exists m, In m l /\ filename m = x.
Proof.
  induction l as [|m l IH]; intros run x; cbn [fold_left].
  - split; [by left|]. intros [H|(m & [] & _)]. done.
  - rewrite IH, venice_step_ids. split.
    + intros [H|(m' & Hin & Hx)].
      * apply elem_of_union in H as [H|H]; [|by left].
        apply elem_of_singleton in H. right. exists m. split; [by left|done].
      * right. exists m'. split; [by right|done].
    + intros [H|(m' & [->|Hin] & Hx)].
      * left. apply elem_of_union. by right.
      * left. apply elem_of_union. left. by apply elem_of_singleton.
      * right. exists m'. by split.
Qed.

End VeniceRun.

(** X12: every processed entry is counted once.  In every mode the three
    counters of a run add up to the number of payload entries the loop
    processes: all of them in the Venice driver, those that are neither
    image nor video models in the Vercel driver. *)
Theorem counters_add_up (js : Js.JsHost) (fs : Js.FsHost)
    (vercelToml : VercelSync.TomlHost) (veniceToml : VeniceSync.TomlHost) :
  (forall dryRun newOnly today apiModels store0,
      let s := VercelSync.main dryRun newOnly today apiModels store0 in
      (VercelSync.s_created s + VercelSync.s_updated s + VercelSync.s_unchanged s)%nat
      = length (List.filter (fun m => negb (VercelSync.skipped m)) apiModels)) /\
  (forall dryRun today apiModels store0,
      let s := VeniceSync.main dryRun today apiModels store0 in
      (VeniceSync.s_created s + VeniceSync.s_updated s + VeniceSync.s_unchanged s)%nat
      = length apiModels).
Proof.
  split.
  - intros dryRun newOnly today apiModels store0. cbn zeta. unfold VercelSync.main.
    cbn [VercelSync.s_created VercelSync.s_updated VercelSync.s_unchanged].
    pose proof (vercel_fold_total js fs vercelToml dryRun newOnly today apiModels
                  (VercelSync.start store0)) as H.
    unfold VercelSync.total in H. exact H.
  - intros dryRun today apiModels store0. cbn zeta. unfold VeniceSync.main.
    cbn [VeniceSync.s_created VeniceSync.s_updated VeniceSync.s_unchanged].
    pose proof (venice_fold_total js fs veniceToml dryRun today apiModels
                  (VeniceSync.start store0)) as H.
    unfold VeniceSync.total in H. exact H.
Qed.

(** X13: a run deletes nothing.  In every mode of either driver a path that
    held a file before the run holds one after it, and a path that is the
    file of no processed entry of the payload holds exactly what it held:
    orphaned files stay on disk as they are. *)
Theorem run_keeps_files (js : Js.JsHost) (fs : Js.FsHost)
    (vercelToml : VercelSync.TomlHost) (veniceToml : VeniceSync.TomlHost) :
  (forall dryRun newOnly today apiModels store0 p,
      let after := VercelSync.s_store
                     (VercelSync.main dryRun newOnly today apiModels store0) in
      (is_Some (store0 !! p) -> is_Some (after !! p)) /\
      ((forall m, In m apiModels -> VercelSync.skipped m = false ->
                  p <> VercelSync.filePath m) ->
       after !! p = store0 !! p)) /\
  (forall dryRun today apiModels store0 p,
      let after := VeniceSync.s_store (VeniceSync.main dryRun today apiModels store0) in
      (is_Some (store0 !! p) -> is_Some (after !! p)) /\
      ((forall m, In m apiModels -> p <> VeniceSync.filePath m) ->
       after !! p = store0 !! p)).
Proof.
  split.
  - intros dryRun newOnly today apiModels store0 p. cbn zeta. split.
    + apply (vercel_fold_keeps js fs vercelToml dryRun newOnly today apiModels
               (VercelSync.start store0) p).
    + intros Hp. unfold VercelSync.main. cbn [VercelSync.s_store].
      destruct dryRun.
      * by rewrite vercel_loop_dry_store.
      * by apply vercel_loop_store_other.
  - intros dryRun today apiModels store0 p. cbn zeta. split.
    + apply (venice_fold_keeps js fs veniceToml dryRun today apiModels
               (VeniceSync.start store0) p).
    + intros Hp. unfold VeniceSync.main. cbn [VeniceSync.s_store].
      destruct dryRun.
      * by rewrite venice_loop_dry_store.
      * by apply venice_loop_store_other.
Qed.

Lemma run_keeps_files_witness :
  is_Some
    (VercelSync.s_store
       (@VercelSync.main Host.decimalHost Host.flatFs VercelSync.plainReader false false Samples.runDate
          Samples.vercelPair Samples.vercelStore)
     !! "providers/vercel/models/openai/gpt-4o.toml").
Proof.
  apply (proj1 (proj1 (run_keeps_files Host.decimalHost Host.flatFs
                  VercelSync.plainReader VeniceSync.plainReader)
                  false false Samples.runDate Samples.vercelPair Samples.vercelStore
                  "providers/vercel/models/openai/gpt-4o.toml")).
  eexists. reflexivity.
Defined.

(** X15: [--new-only] leaves existing records alone.  In the Vercel driver
    with [--new-only], dry or real, no record is counted as updated and
    every file that held a readable record before the run holds the same
    record after it. *)
Theorem new_only_preserves_records (js : Js.JsHost) (fs : Js.FsHost)
    (toml : VercelSync.TomlHost) (dryRun : bool) (today : string) (apiModels : list Vercel.VercelModel)
    (store0 : gmap string VercelSync.file) :
  let s := VercelSync.main dryRun true today apiModels store0 in
  VercelSync.s_updated s = 0%nat /\
  forall p doc,
    store0 !! p = Some (VercelSync.Toml doc) ->
    VercelSync.s_store s !! p = Some (VercelSync.Toml doc).
Proof.
  cbn zeta. unfold VercelSync.main, VercelSync.loop.
  cbn [VercelSync.s_updated VercelSync.s_store].
  assert (H : forall l run,
             VercelSync.updated (fold_left (VercelSync.step dryRun true today) l run)
             = VercelSync.updated run /\
             forall p doc,
               VercelSync.store run !! p = Some (VercelSync.Toml doc) ->
               VercelSync.store (fold_left (VercelSync.step dryRun true today) l run) !! p
               = Some (VercelSync.Toml doc)).
  { induction l as [|m l IH]; intros run; cbn [fold_left]; [done|].
    destruct (IH (VercelSync.step dryRun true today run m)) as [IHu IHs].
    split.
    - by rewrite IHu, vercel_step_new_only_updated.
    - intros p doc Hp. apply IHs. by apply vercel_step_new_only. }
  destruct (H apiModels (VercelSync.start store0)) as [Hu Hs]. split; [exact Hu|exact Hs].
Qed.

Lemma new_only_preserves_records_witness :
  VercelSync.s_store
    (@VercelSync.main Host.decimalHost Host.flatFs VercelSync.plainReader false true Samples.runDate
       Samples.vercelPair Samples.vercelStore)
  !! "providers/vercel/models/openai/gpt-4o.toml"
  = Some (VercelSync.Toml Samples.vercelCurated).
Proof.
  apply (proj2 (new_only_preserves_records Host.decimalHost Host.flatFs
                  VercelSync.plainReader false
                  Samples.runDate Samples.vercelPair Samples.vercelStore)).
  reflexivity.
Defined.

(** X16: the orphan report is the difference of the two id sets.  For
    either driver and every mode, a file is reported as orphaned exactly
    when the directory listing holds it and no processed entry of the
    payload has that relative path. *)
Theorem orphans_are_unprocessed_files (js : Js.JsHost) (fs : Js.FsHost)
    (vercelToml : VercelSync.TomlHost) (veniceToml : VeniceSync.TomlHost) :
  (forall dryRun newOnly today apiModels store0 f,
      In f (VercelSync.orphaned (VercelSync.main dryRun newOnly today apiModels store0))
      <->
      In f (Js.glob_toml VercelSync.file VercelSync.modelsDir store0) /\
      forall m, In m apiModels -> VercelSync.skipped m = false ->
                VercelSync.relativePath m <> f) /\
  (forall dryRun today apiModels store0 f,
      In f (VeniceSync.orphaned (VeniceSync.main dryRun today apiModels store0))
      <->
      (In f (Js.readdir VeniceSync.file VeniceSync.modelsDir store0) /\
       Js.endsWith f ".toml" = true) /\
      forall m, In m apiModels -> VeniceSync.filename m <> f).
Proof.
  split.
  - intros dryRun newOnly today apiModels store0 f.
    unfold VercelSync.main. cbn [VercelSync.orphaned].
    rewrite filter_In, negb_true_iff, bool_decide_eq_false.
    unfold VercelSync.loop. rewrite vercel_fold_ids.
    split; intros [Hin Hno]; (split; [exact Hin|]).
    + intros m Hm Hs Hx. apply Hno. right. eauto.
    + intros [H|(m & Hm & Hs & Hx)].
      * cbn in H. by apply not_elem_of_empty in H.
      * by apply (Hno m).
  - intros dryRun today apiModels store0 f.
    unfold VeniceSync.main. cbn [VeniceSync.orphaned].
    rewrite !filter_In, negb_true_iff, bool_decide_eq_false.
    unfold VeniceSync.loop. rewrite venice_fold_ids.
    split; intros [Hin Hno]; (split; [exact Hin|]).
    + intros m Hm Hx. apply Hno. right. eauto.
    + intros [H|(m & Hm & Hx)].
      * cbn in H. by apply not_elem_of_empty in H.
      * by apply (Hno m).
Qed.

(* ===================================================================== *)
(** ** The Venice driver: a second run through the store *)
(* ===================================================================== *)

Section VeniceSecondRun.
Import Js VeniceSync.
Context (js : JsHost) (fs : FsHost) (toml : TomlHost).

Lemma declared_families_nonempty f : In f Family.ModelFamilyValues -> f <> "".
Proof.
  intros Hin ->. revert Hin. vm_compute. intuition discriminate.
Qed.

Lemma venice_inferred_truthy modelId modelName f :
  Venice.inferFamily modelId modelName = Some f -> otruthy (Some f) = true.
Proof.
  intros Hf. cbn. unfold truthy.
  destruct (String.eqb_spec f ""); [|done].
  exfalso. eapply declared_families_nonempty; [|eassumption].
  by apply (venice_inferred_declared modelId modelName).
Qed.

Ltac venice_fields := cbn [
  Venice.name Venice.family Venice.attachment Venice.reasoning Venice.tool_call
  Venice.structured_output Venice.temperature Venice.knowledge
  Venice.release_date Venice.last_updated Venice.open_weights
  Venice.interleaved Venice.status Venice.cost Venice.limit Venice.modalities
  Venice.context Venice.output Venice.input Venice.m_output
  Venice.formatToml Venice.existing_limit_output Venice.existing_modalities_input
  Venice.x_name Venice.x_family Venice.x_attachment Venice.x_reasoning
  Venice.x_tool_call Venice.x_structured_output Venice.x_knowledge
  Venice.x_release_date Venice.x_open_weights Venice.x_interleaved
  Venice.x_status Venice.x_cost Venice.x_limit Venice.x_modalities
  Venice.xl_context Venice.xl_output Venice.xm_input
  Venice.xc_input Venice.xc_output Venice.xc_cache_read Venice.xc_cache_write
  Venice.xc_context_over_200k Venice.xt_input Venice.xt_output
  Venice.xt_cache_read Venice.xt_cache_write
  Venice.c_input Venice.c_output Venice.c_cache_read Venice.c_cache_write
  Venice.c_context_over_200k Venice.t_input Venice.t_output
  Venice.t_cache_read Venice.t_cache_write Venice.x_over Venice.over
  mbind option_bind fmap option_fmap option_map nullish nullish_opt
  of_str of_bool of_num of_int of_arr ].

(** A merged record that carries what was written for another one yields
    no change against the written record. *)
Lemma venice_detect_written m m' :
  Venice.name m' = Venice.name m ->
  Venice.family m' = Venice.x_family (Venice.formatToml m) ->
  Venice.attachment m' = Venice.attachment m ->
  Venice.reasoning m' = Venice.reasoning m ->
  Venice.tool_call m' = Venice.tool_call m ->
  Venice.structured_output m' = Venice.structured_output m ->
  Venice.open_weights m' = Venice.open_weights m ->
  Venice.release_date m' = Venice.release_date m ->
  Venice.cost m' = Venice.cost m ->
  Venice.limit m' = Venice.limit m ->
  Venice.modalities m' = Venice.modalities m ->
  Venice.detectChanges (Some (Venice.formatToml m)) m' = [].
Proof.
  intros Hn Hf Ha Hr Ht Hs Ho Hd Hc Hl Hm.
  unfold Venice.detectChanges, Venice.x_over, Venice.over.
  rewrite Hn, Hf, Ha, Hr, Ht, Hs, Ho, Hd, Hc, Hl, Hm.
  venice_fields.
  destruct (Venice.cost m) as [c|]; venice_fields;
    [destruct (Venice.c_context_over_200k c) as [t|]; venice_fields|];
    by rewrite !venice_compare_same.
Qed.

(** The record written for a merge result is settled for its entry. *)
Lemma venice_written_settled d1 s e :
  settled s (Venice.formatToml (Venice.mergeModel d1 s e)).
Proof.
  intros d2. apply venice_detect_written; try reflexivity.
  - unfold Venice.mergeModel. venice_fields.
    destruct (Venice.inferFamily _ _) as [f|] eqn:Hf; venice_fields.
    + by rewrite (venice_inferred_truthy _ _ _ Hf).
    + done.
  - unfold Venice.mergeModel. venice_fields. f_equal.
    set (p := Venice.proposedOutputTokens s).
    destruct (Venice.existing_limit_output e) as [o|].
    + destruct (Z.ltb_spec o p) as [Hlt|Hge].
      * destruct (Z.ltb_spec o p); [done|lia].
      * by rewrite Z.ltb_irrefl.
    + by rewrite Z.ltb_irrefl.
  - unfold Venice.mergeModel. venice_fields. f_equal.
    set (caps := Venice.capabilities (Venice.model_spec s)).
    set (b := Venice.buildInputModalities caps).
    assert (Hb : arr_includes b "pdf" = false).
    { subst b. unfold Venice.buildInputModalities.
      by destruct (Venice.is_true (Venice.supportsVision caps)),
                  (Venice.is_true (Venice.supportsAudioInput caps)),
                  (Venice.is_true (Venice.supportsVideoInput caps)). }
    rewrite Hb, !andb_true_r.
    destruct (match Venice.existing_modalities_input e with
              | Some l => arr_includes l "pdf" | None => false end); [|by rewrite Hb].
    assert (Hp : arr_includes (b ++ ["pdf"]) "pdf" = true).
    { unfold arr_includes. rewrite existsb_app. cbn. apply orb_true_r. }
    by rewrite Hp.
Qed.

(** The run date plays no part in what the Venice detector reports. *)
Lemma venice_detect_any_date d1 d2 s e e' :
  Venice.detectChanges e (Venice.mergeModel d1 s e')
  = Venice.detectChanges e (Venice.mergeModel d2 s e').
Proof. reflexivity. Qed.

(** After a real iteration the entry's file holds a settled record, when
    what the iteration writes reads back as laid out. *)
Lemma venice_step_real_settled today run m :
  (let existing := loadExistingModel (store run) (filePath m) in
   let merged := Venice.mergeModel today m existing in
   existing = None \/ Venice.detectChanges existing merged <> [] ->
   reads_back merged) ->
  exists doc,
    store (step false today run m) !! filePath m = Some (Toml doc) /\ settled m doc.
Proof.
  cbn zeta. intros Hback. unfold step.
  destruct (loadExistingModel (store run) (filePath m)) as [e|] eqn:He.
  - destruct (0 <? _)%nat eqn:Hch; cbn [store].
    + exists (Venice.formatToml (Venice.mergeModel today m (Some e))).
      unfold write. rewrite lookup_insert_eq. split.
      * f_equal. apply Hback. right. intros Hnil. by rewrite Hnil in Hch.
      * apply venice_written_settled.
    + exists e. split.
      * unfold loadExistingModel in He.
        by destruct (store run !! filePath m) as [[doc|]|]; simplify_eq.
      * intros d. rewrite (venice_detect_any_date d today).
        apply Nat.ltb_ge in Hch.
        by destruct (Venice.detectChanges _ _); [|cbn in Hch; lia].
  - cbn [store]. exists (Venice.formatToml (Venice.mergeModel today m None)).
    unfold write. rewrite lookup_insert_eq. split.
    + f_equal. apply Hback. by left.
    + apply venice_written_settled.
Qed.

Lemma venice_fold_real_settled today l :
  forall run,
    distinct_paths l ->
    written_read_back today l (store run) ->
    forall m, In m l ->
      exists doc,
        store (fold_left (step false today) l run) !! filePath m = Some (Toml doc)
        /\ settled m doc.
Proof.
  unfold distinct_paths, written_read_back.
  induction l as [|x l IH]; intros run Hnd Hback m Hin; [done|].
  cbn [map] in Hnd. apply NoDup_cons_iff in Hnd as [Hnotin Hnd].
  cbn [fold_left]. destruct Hin as [->|Hin].
  - destruct (venice_step_real_settled today run m) as (doc & Hdoc & Hset).
    { apply Hback. by left. }
    exists doc. split; [|done].
    rewrite <- Hdoc. clear IH Hdoc Hback.
    generalize (step false today run m). revert Hnotin. clear.
    induction l as [|y l IH]; intros Hnotin r; [done|].
    cbn [fold_left]. rewrite IH by (intros ?; apply Hnotin; by right).
    apply venice_step_store_other. intros Heq. apply Hnotin. left. done.
  - apply IH; try done.
    intros m' Hm'.
    assert (loadExistingModel (store (step false today run x)) (filePath m')
            = loadExistingModel (store run) (filePath m')) as ->.
    { unfold loadExistingModel. rewrite venice_step_store_other; [done|].
      intros Heq. apply Hnotin. rewrite <- Heq. by apply in_map. }
    apply Hback. by right.
Qed.

(** On a store whose files for the payload are settled, an iteration counts
    the entry as unchanged and writes nothing. *)
Lemma venice_step_settled dry today run m doc :
  store run !! filePath m = Some (Toml doc) -> settled m doc ->
  step dry today run m
  = {| store := store run;
       apiModelIds := {[filename m]} ∪ apiModelIds run;
       created := created run;
       updated := updated run;
       unchanged := S (unchanged run) |}.
Proof.
  intros Hdoc Hset. unfold step, loadExistingModel. rewrite Hdoc.
  by rewrite (Hset today).
Qed.

Lemma venice_main_settled dry today apiModels store1 :
  (forall m, In m apiModels ->
     exists doc, store1 !! filePath m = Some (Toml doc) /\ settled m doc) ->
  let s := main dry today apiModels store1 in
  s_created s = 0%nat /\ s_updated s = 0%nat /\
  s_unchanged s = length apiModels /\ s_store s = store1.
Proof.
  intros Hset. cbn zeta. unfold main, loop.
  cbn [s_created s_updated s_unchanged s_store].
  assert (H : forall l run,
             (forall m, In m l ->
                exists doc, store run !! filePath m = Some (Toml doc) /\ settled m doc) ->
             let out := fold_left (step dry today) l run in
             created out = created run /\ updated out = updated run /\
             unchanged out = (unchanged run + length l)%nat /\ store out = store run).
  { clear. induction l as [|m l IH]; intros run Hl; cbn [fold_left length].
    - cbn zeta. split_and!; [done|done|lia|done].
    - destruct (Hl m (or_introl eq_refl)) as (doc & Hdoc & Hs).
      rewrite (venice_step_settled dry today run m doc Hdoc Hs).
      edestruct IH as (Hc & Hu & Hn & Hst); [|cbn zeta; rewrite Hc, Hu, Hn, Hst].
      + cbn [store]. intros m' Hm'. apply Hl. by right.
      + cbn [created updated unchanged store]. split_and!; [done|done|lia|done]. }
  destruct (H apiModels (start store1) Hset) as (Hc & Hu & Hn & Hst).
  cbn [start created updated unchanged store] in *. by split_and!.
Qed.

(** X17: a second run finds nothing to do.  After a real run of the Venice
    driver on a payload whose entries go to pairwise distinct files, when
    the records that run writes read back as laid out, a further run of the
    same payload on the resulting store, dry or real and on any date,
    creates nothing, updates nothing, counts every entry as unchanged and
    leaves the store as it is. *)
Theorem venice_second_run_is_quiet (d1 d2 : string) (dry2 : bool)
    (apiModels : list Venice.VeniceModel) (store0 : gmap string file) :
  distinct_paths apiModels ->
  written_read_back d1 apiModels store0 ->
  let store1 := s_store (main false d1 apiModels store0) in
  let second := main dry2 d2 apiModels store1 in
  s_created second = 0%nat /\ s_updated second = 0%nat /\
  s_unchanged second = length apiModels /\ s_store second = store1.
Proof.
  intros Hnd Hback store1 second. apply venice_main_settled.
  intros m Hin. subst store1. unfold main, loop. cbn [s_store].
  by apply venice_fold_real_settled.
Qed.

End VeniceSecondRun.

Lemma venice_second_run_is_quiet_witness :
  let store1 :=
    VeniceSync.s_store
      (@VeniceSync.main Host.decimalHost Host.flatFs VeniceSync.plainReader false Samples.runDate
         Runs.venicePair Runs.veniceStore) in
  let second :=
    @VeniceSync.main Host.decimalHost Host.flatFs VeniceSync.plainReader false "2026-01-15"
      Runs.venicePair store1 in
  VeniceSync.s_created second = 0%nat /\ VeniceSync.s_updated second = 0%nat /\
  VeniceSync.s_unchanged second = 2%nat /\ VeniceSync.s_store second = store1.
Proof.
  apply (venice_second_run_is_quiet Host.decimalHost Host.flatFs
           VeniceSync.plainReader).
  - unfold VeniceSync.distinct_paths.
    repeat constructor; vm_compute; intuition discriminate.
  - intros m _ existing merged _. reflexivity.
Defined.

(* ===================================================================== *)
(** ** The Vercel driver: a second run through the store *)
(* ===================================================================== *)

Section VercelSecondRun.
Import Js VercelSync.
Context (js : JsHost) (fs : FsHost) (toml : TomlHost).

Ltac vercel_fields := cbn [
  Vercel.name Vercel.family Vercel.attachment Vercel.reasoning Vercel.tool_call
  Vercel.structured_output Vercel.temperature Vercel.knowledge
  Vercel.release_date Vercel.last_updated Vercel.open_weights
  Vercel.interleaved Vercel.status Vercel.cost Vercel.limit Vercel.modalities
  Vercel.context Vercel.output Vercel.input Vercel.m_output
  Vercel.formatToml Vercel.existing_limit_output Vercel.existing_limit_context
  Vercel.x_name Vercel.x_family Vercel.x_attachment Vercel.x_reasoning
  Vercel.x_tool_call Vercel.x_structured_output Vercel.x_knowledge
  Vercel.x_release_date Vercel.x_open_weights Vercel.x_interleaved
  Vercel.x_status Vercel.x_cost Vercel.x_limit Vercel.x_modalities
  Vercel.xl_context Vercel.xl_output Vercel.xm_input
  Vercel.xc_input Vercel.xc_output Vercel.xc_cache_read Vercel.xc_cache_write
  Vercel.c_input Vercel.c_output Vercel.c_cache_read Vercel.c_cache_write
  mbind option_bind fmap option_fmap option_map nullish nullish_opt
  of_str of_bool of_num of_int of_arr ].

(** The loop changes the store at most at the files of its entries. *)
Lemma vercel_loop_store_rest dry newOnly today l run p :
  (forall m, In m l -> skipped m = false -> p <> filePath m) ->
  store (fold_left (step dry newOnly today) l run) !! p = store run !! p.
Proof.
  revert run. induction l as [|m l IH]; intros run Hp; cbn [fold_left]; [done|].
  rewrite IH by (intros; apply Hp; [by right|done]).
  destruct (skipped m) eqn:Hm; [by rewrite vercel_step_skipped|].
  apply vercel_step_store_other, Hp; [by left|done].
Qed.

Lemma vercel_inferred_truthy modelId modelName f :
  Vercel.inferFamily modelId modelName = Some f -> otruthy (Some f) = true.
Proof.
  intros Hf. cbn. unfold truthy.
  destruct (String.eqb_spec f ""); [|done].
  exfalso. eapply declared_families_nonempty; [|eassumption].
  by apply (vercel_inferred_declared modelId modelName).
Qed.

Lemma vercel_detect_written m m' :
  Vercel.name m' = Vercel.name m ->
  Vercel.family m' = Vercel.x_family (Vercel.formatToml m) ->
  Vercel.attachment m' = Vercel.attachment m ->
  Vercel.reasoning m' = Vercel.reasoning m ->
  Vercel.tool_call m' = Vercel.tool_call m ->
  Vercel.structured_output m' = Vercel.structured_output m ->
  Vercel.open_weights m' = Vercel.open_weights m ->
  Vercel.release_date m' = Vercel.release_date m ->
  Vercel.cost m' = Vercel.cost m ->
  Vercel.limit m' = Vercel.limit m ->
  Vercel.modalities m' = Vercel.modalities m ->
  Vercel.detectChanges (Some (Vercel.formatToml m)) m' = [].
Proof.
  intros Hn Hf Ha Hr Ht Hs Ho Hd Hc Hl Hm.
  unfold Vercel.detectChanges.
  rewrite Hn, Hf, Ha, Hr, Ht, Hs, Ho, Hd, Hc, Hl, Hm.
  vercel_fields.
  destruct (Vercel.cost m) as [c|]; vercel_fields;
    by rewrite !vercel_compare_same.
Qed.

(** The record written for a merge result is settled for its entry, unless
    the existing record pinned the empty string as family. *)
Lemma vercel_written_settled d1 s e :
  e ≫= Vercel.x_family <> Some "" ->
  settled s (Vercel.formatToml (Vercel.mergeModel d1 s e)).
Proof.
  intros Hfam d2. apply vercel_detect_written; try reflexivity.
  - unfold Vercel.mergeModel. vercel_fields.
    destruct (e ≫= Vercel.x_family) as [f|] eqn:He; vercel_fields.
    + assert (Ht : otruthy (Some f) = true).
      { cbn. unfold truthy. destruct (String.eqb_spec f ""); [congruence|done]. }
      by rewrite Ht.
    + destruct (Vercel.inferFamily _ _) as [f|] eqn:Hf; vercel_fields; [|done].
      by rewrite (vercel_inferred_truthy _ _ _ Hf).
  - unfold Vercel.mergeModel. vercel_fields.
    by destruct (Vercel.released_truthy _).
  - unfold Vercel.mergeModel. vercel_fields.
    by destruct (0 <? Vercel.context_window s), (0 <? Vercel.max_tokens s).
Qed.

(** A record the entry leaves unchanged on one date is left unchanged on
    every date: the run date reaches a tracked field only as the release
    date of a record that has none, and that is always reported. *)
Lemma vercel_unchanged_any_date d1 d2 s e0 :
  Vercel.detectChanges (Some e0) (Vercel.mergeModel d1 s (Some e0)) = [] ->
  Vercel.detectChanges (Some e0) (Vercel.mergeModel d2 s (Some e0)) = [].
Proof.
  intros Hnil.
  destruct (Vercel.released_truthy (Vercel.released s)) as [r|] eqn:Hrel.
  { rewrite <- Hnil. unfold Vercel.detectChanges, Vercel.mergeModel.
    vercel_fields. by rewrite Hrel. }
  destruct (Vercel.x_release_date e0) as [rd|] eqn:Hrd.
  { rewrite <- Hnil. unfold Vercel.detectChanges, Vercel.mergeModel.
    vercel_fields. by rewrite Hrel, Hrd. }
  exfalso.
  apply (f_equal (map Vercel.field)) in Hnil.
  rewrite vercel_detect_fields in Hnil. unfold Vercel.calls in Hnil.
  cbn [map concat] in Hnil.
  assert (Hrep : Vercel.reported "release_date" (of_str (Vercel.x_release_date e0))
                   (VStr (Vercel.release_date (Vercel.mergeModel d1 s (Some e0))))
                 = true).
  { rewrite Hrd. reflexivity. }
  rewrite Hrep in Hnil.
  repeat (apply app_eq_nil in Hnil; destruct Hnil as [? Hnil]); done.
Qed.

Lemma vercel_step_real_settled today run m :
  skipped m = false ->
  (forall doc, store run !! filePath m = Some (Toml doc) ->
               Vercel.x_family doc <> Some "") ->
  (let existing := loadExistingModel (store run) (filePath m) in
   let merged := Vercel.mergeModel today m existing in
   existing = None \/ Vercel.detectChanges existing merged <> [] ->
   reads_back merged) ->
  exists doc,
    store (step false false today run m) !! filePath m = Some (Toml doc)
    /\ settled m doc.
Proof.
  cbn zeta. intros Hs Hfam Hback. unfold step. rewrite Hs.
  destruct (loadExistingModel (store run) (filePath m)) as [e|] eqn:He.
  - assert (Hdoc : store run !! filePath m = Some (Toml e)).
    { unfold loadExistingModel in He.
      by destruct (store run !! filePath m) as [[doc|]|]; simplify_eq. }
    destruct (0 <? _)%nat eqn:Hch; cbn [store].
    + exists (Vercel.formatToml (Vercel.mergeModel today m (Some e))).
      unfold write. rewrite lookup_insert_eq. split.
      * f_equal. apply Hback. right. intros Hnil. by rewrite Hnil in Hch.
      * apply vercel_written_settled. cbn. by apply Hfam.
    + exists e. split; [done|].
      intros d. apply (vercel_unchanged_any_date today).
      apply Nat.ltb_ge in Hch.
      by destruct (Vercel.detectChanges _ _); [|cbn in Hch; lia].
  - cbn [store]. exists (Vercel.formatToml (Vercel.mergeModel today m None)).
    unfold write. rewrite lookup_insert_eq. split.
    + f_equal. apply Hback. by left.
    + by apply vercel_written_settled.
Qed.

Lemma vercel_fold_real_settled today l :
  forall run,
    distinct_paths l ->
    families_nonblank l (store run) ->
    written_read_back today l (store run) ->
    forall m, In m l -> skipped m = false ->
      exists doc,
        store (fold_left (step false false today) l run) !! filePath m
        = Some (Toml doc) /\ settled m doc.
Proof.
  unfold distinct_paths, families_nonblank, written_read_back.
  induction l as [|x l IH]; intros run Hnd Hfam Hback m Hin Hsk; [done|].
  cbn [fold_left].
  assert (Hnd' : List.NoDup
                   (map filePath (List.filter (fun m => negb (skipped m)) l))).
  { cbn [List.filter] in Hnd. destruct (negb (skipped x)); [|done].
    cbn in Hnd. by apply NoDup_cons_iff in Hnd as [_ ?]. }
  assert (Hother : forall m', In m' l -> skipped m' = false -> skipped x = false ->
                              filePath m' <> filePath x).
  { intros m' Hm' Hs' Hx Heq. cbn [List.filter] in Hnd. rewrite Hx in Hnd.
    cbn in Hnd. apply NoDup_cons_iff in Hnd as [Hnotin _].
    apply Hnotin. rewrite <- Heq. apply in_map, filter_In. by rewrite Hs'. }
  assert (Hsame : forall m', In m' l -> skipped m' = false ->
                    store (step false false today run x) !! filePath m'
                    = store run !! filePath m').
  { intros m' Hm' Hs'.
    destruct (skipped x) eqn:Hx; [by rewrite vercel_step_skipped|].
    apply vercel_step_store_other. by apply Hother. }
  destruct Hin as [->|Hin].
  - destruct (vercel_step_real_settled today run m Hsk) as (doc & Hdoc & Hset).
    { intros doc. by apply Hfam; [left|]. }
    { apply Hback; [by left|done]. }
    exists doc. split; [|done]. rewrite <- Hdoc.
    apply vercel_loop_store_rest.
    intros m' Hm' Hs'. apply not_eq_sym. by apply Hother.
  - apply IH; try done.
    + intros m' doc Hm' Hs' Hdoc. apply (Hfam m' doc); [by right|done|].
      rewrite <- Hdoc. symmetry. by apply Hsame.
    + intros m' Hm' Hs'.
      assert (loadExistingModel (store (step false false today run x)) (filePath m')
              = loadExistingModel (store run) (filePath m')) as ->.
      { unfold loadExistingModel. by rewrite Hsame. }
      apply Hback; [by right|done].
Qed.

Lemma vercel_step_settled dry newOnly today run m doc :
  skipped m = false ->
  store run !! filePath m = Some (Toml doc) -> settled m doc ->
  step dry newOnly today run m
  = {| store := store run;
       apiModelIds := {[relativePath m]} ∪ apiModelIds run;
       created := created run;
       updated := updated run;
       unchanged := S (unchanged run) |}.
Proof.
  intros Hs Hdoc Hset. unfold step, loadExistingModel. rewrite Hs, Hdoc.
  destruct newOnly; [done|]. by rewrite (Hset today).
Qed.

Lemma vercel_main_settled dry newOnly today apiModels store1 :
  (forall m, In m apiModels -> skipped m = false ->
     exists doc, store1 !! filePath m = Some (Toml doc) /\ settled m doc) ->
  let s := main dry newOnly today apiModels store1 in
  s_created s = 0%nat /\ s_updated s = 0%nat /\
  s_unchanged s = length (List.filter (fun m => negb (skipped m)) apiModels) /\
  s_store s = store1.
Proof.
  intros Hset. cbn zeta. unfold main, loop.
  cbn [s_created s_updated s_unchanged s_store].
  assert (H : forall l run,
             (forall m, In m l -> skipped m = false ->
                exists doc, store run !! filePath m = Some (Toml doc) /\ settled m doc) ->
             let out := fold_left (step dry newOnly today) l run in
             created out = created run /\ updated out = updated run /\
             unchanged out
             = (unchanged run + length (List.filter (fun m => negb (skipped m)) l))%nat
             /\ store out = store run).
  { clear. induction l as [|m l IH]; intros run Hl; cbn [fold_left List.filter].
    - cbn zeta. cbn [length]. split_and!; [done|done|lia|done].
    - destruct (skipped m) eqn:Hm.
      + rewrite vercel_step_skipped by done. cbn [negb].
        apply IH. intros m' Hm'. apply Hl. by right.
      + destruct (Hl m (or_introl eq_refl) Hm) as (doc & Hdoc & Hs).
        rewrite (vercel_step_settled dry newOnly today run m doc Hm Hdoc Hs).
        edestruct IH as (Hc & Hu & Hn & Hst); [|cbn zeta; rewrite Hc, Hu, Hn, Hst].
        * cbn [store]. intros m' Hm'. apply Hl. by right.
        * cbn [created updated unchanged store negb length].
          split_and!; [done|done|lia|done]. }
  destruct (H apiModels (start store1) Hset) as (Hc & Hu & Hn & Hst).
  cbn [start created updated unchanged store] in *. by split_and!.
Qed.

(** X18: a second run of the Vercel driver finds nothing to do.  After a
    real run without [--new-only] on a payload whose processed entries go to
    pairwise distinct files, starting from a store in which no record under
    those files has an empty family, when the records that run writes read
    back as laid out, a further run of the same payload on the resulting
    store, in any mode and on any date, creates nothing, updates nothing,
    counts every processed entry as unchanged and leaves the store as it
    is. *)
Theorem vercel_second_run_is_quiet (d1 d2 : string) (dry2 newOnly2 : bool)
    (apiModels : list Vercel.VercelModel) (store0 : gmap string file) :
  distinct_paths apiModels ->
  families_nonblank apiModels store0 ->
  written_read_back d1 apiModels store0 ->
  let store1 := s_store (main false false d1 apiModels store0) in
  let second := main dry2 newOnly2 d2 apiModels store1 in
  s_created second = 0%nat /\ s_updated second = 0%nat /\
  s_unchanged second = length (List.filter (fun m => negb (skipped m)) apiModels) /\
  s_store second = store1.
Proof.
  intros Hnd Hfam Hback store1 second. apply vercel_main_settled.
  intros m Hin Hs. subst store1. unfold main, loop. cbn [s_store].
  by apply vercel_fold_real_settled.
Qed.

End VercelSecondRun.

Lemma vercel_second_run_is_quiet_witness :
  let store1 :=
    VercelSync.s_store
      (@VercelSync.main Host.decimalHost Host.flatFs VercelSync.plainReader false false Samples.runDate
         Samples.vercelPair Samples.vercelStore) in
  let second :=
    @VercelSync.main Host.decimalHost Host.flatFs VercelSync.plainReader false false "2026-01-15"
      Samples.vercelPair store1 in
  VercelSync.s_created second = 0%nat /\ VercelSync.s_updated second = 0%nat /\
  VercelSync.s_unchanged second = 2%nat /\ VercelSync.s_store second = store1.
Proof.
  apply (vercel_second_run_is_quiet Host.decimalHost Host.flatFs
           VercelSync.plainReader).
  - unfold VercelSync.distinct_paths.
    repeat constructor; vm_compute; intuition discriminate.
  - intros m doc [<-|[<-|[]]] _ Hdoc; vm_compute in Hdoc.
    + injection Hdoc as <-. discriminate.
    + discriminate Hdoc.
  - intros m _ _ existing merged _. reflexivity.
Defined.

(** The condition on the stored families is needed: a record whose family
    is the empty string loses the field when it is written, and the next
    run infers a family for it and reports a change. *)
Example blank_family_is_refilled :
  let store1 :=
    VercelSync.s_store
      (@VercelSync.main Host.decimalHost Host.flatFs VercelSync.plainReader false false Samples.runDate
         [Samples.vercelGpt4o] Runs.vercelBlankFamily) in
  VercelSync.s_updated
    (@VercelSync.main Host.decimalHost Host.flatFs VercelSync.plainReader false false Samples.runDate
       [Samples.vercelGpt4o] store1) = 1%nat.
Proof. vm_compute. reflexivity. Qed.

(* ===================================================================== *)
(** ** Venice file names *)
(* ===================================================================== *)

Section VeniceFileNames.
Import Js VeniceSync.

Lemma safeId_slashless (id suffix : string) :
  includes suffix "/" = false -> includes (safeId id ++ suffix) "/" = false.
Proof.
  intros Hs. induction id as [|c id IH]; [exact Hs|].
  cbn [safeId]. rewrite append_cons. cbn [includes].
  rewrite startsWith_slash, IH, orb_false_r.
  destruct (Ascii.eqb c "/") eqn:Hc; [done|].
  by rewrite Ascii.eqb_sym.
Qed.

Lemma safeId_fixes_slashless (id : string) :
  includes id "/" = false -> safeId id = id.
Proof.
  induction id as [|c id IH]; [done|].
  cbn [includes]. rewrite startsWith_slash. intros H.
  apply orb_false_elim in H as [Hc Hrest].
  cbn [safeId]. rewrite Ascii.eqb_sym, Hc. by rewrite IH.
Qed.

(** X19 (generate-venice.ts, [main]).  Whatever the model id, the file the
    Venice generator writes for it is named without any slash and with the
    [.toml] extension, so it is a direct entry of the models directory and
    of the kind the orphan scan looks at; the name has the length of the id
    plus the extension, and an id without a slash is used as it is. *)
Theorem venice_files_are_flat (apiModel : Venice.VeniceModel) :
  includes (filename apiModel) "/" = false /\
  endsWith (filename apiModel) ".toml" = true /\
  String.length (filename apiModel) = (String.length (Venice.id apiModel) + 5)%nat /\
  (includes (Venice.id apiModel) "/" = false ->
   filename apiModel = (Venice.id apiModel ++ ".toml")%string).
Proof.
  unfold filename. split_and!.
  - by apply safeId_slashless.
  - apply endsWith_suffix.
  - rewrite append_length. cbn [String.length]. f_equal.
    induction (Venice.id apiModel) as [|c s IH]; [done|].
    cbn [safeId String.length]. by rewrite IH.
  - intros H. by rewrite safeId_fixes_slashless.
Qed.

Lemma venice_files_are_flat_witness :
  filename Samples.veniceUnknown = (Venice.id Samples.veniceUnknown ++ ".toml")%string.
Proof.
  apply (proj2 (proj2 (proj2 (venice_files_are_flat Samples.veniceUnknown)))).
  reflexivity.
Defined.

End VeniceFileNames.

(* ===================================================================== *)
(** ** Cloudflare AI Gateway: source files and display names *)
(* ===================================================================== *)

Section CrossReferenceFacts.
Import Js Cloudflare CrossReference CloudflareNames.

Lemma dots_to_hyphens_idempotent (s : string) :
  dots_to_hyphens (dots_to_hyphens s) = dots_to_hyphens s.
Proof.
  induction s as [|c s IH]; [done|].
  cbn [dots_to_hyphens]. rewrite IH. f_equal.
  destruct (Ascii.eqb c ".") eqn:Hc; [done|]. by rewrite Hc.
Qed.

Lemma dots_to_hyphens_app (a b : string) :
  dots_to_hyphens (a ++ b) = (dots_to_hyphens a ++ dots_to_hyphens b)%string.
Proof. induction a as [|c a IH]; [done|]. rewrite !append_cons. cbn. by rewrite IH. Qed.

Lemma dots_to_hyphens_empty (s : string) : dots_to_hyphens s = "" <-> s = "".
Proof. by destruct s. Qed.

(** [sed] leaves the newlines alone, so it commutes with the capture. *)
Lemma dots_to_hyphens_captured (s : string) :
  dots_to_hyphens (command_substitution s) = command_substitution (dots_to_hyphens s).
Proof.
  induction s as [|c s IH]; [done|].
  cbn [command_substitution dots_to_hyphens]. rewrite <- IH.
  assert (String.eqb (dots_to_hyphens (command_substitution s)) ""
          = String.eqb (command_substitution s) "") as ->.
  { by destruct (command_substitution s). }
  destruct (Ascii.eqb_spec c ".") as [->|Hdot].
  - cbn. reflexivity.
  - destruct (Ascii.eqb c "010" && String.eqb (command_substitution s) "") eqn:E.
    + reflexivity.
    + cbn [dots_to_hyphens]. apply Ascii.eqb_neq in Hdot. by rewrite Hdot.
Qed.

Lemma captured_line (s : string) :
  command_substitution (s ++ newline) = command_substitution s.
Proof.
  induction s as [|c s IH]; [done|].
  rewrite append_cons. cbn [command_substitution]. by rewrite IH.
Qed.

Lemma captured_twice (s : string) :
  command_substitution (command_substitution s) = command_substitution s.
Proof.
  induction s as [|c s IH]; [done|].
  cbn [command_substitution].
  destruct (Ascii.eqb c "010" && String.eqb (command_substitution s) "") eqn:Hc; [done|].
  cbn [command_substitution]. by rewrite IH, Hc.
Qed.

Lemma option_word_dotless (s : string) :
  echo_option s = true -> dots_to_hyphens s = s.
Proof.
  intros Ho. apply echo_option_flags in Ho.
  induction s as [|c s IH]; [done|].
  cbn [list_ascii_of_string forallb] in Ho. apply andb_prop in Ho as [Hc Hs].
  cbn [dots_to_hyphens]. rewrite (IH Hs).
  destruct (Ascii.eqb_spec c ".") as [->|_]; [done|done].
Qed.

Lemma option_word_captured (s : string) :
  echo_option s = true -> command_substitution s = s.
Proof.
  intros Ho. apply echo_option_flags in Ho.
  induction s as [|c s IH]; [done|].
  cbn [list_ascii_of_string forallb] in Ho. apply andb_prop in Ho as [Hc Hs].
  cbn [command_substitution]. rewrite (IH Hs).
  destruct (Ascii.eqb_spec c "010") as [->|_]; [done|done].
Qed.

Lemma option_word_prints_nothing (s : string) :
  echo_option s = true -> command_substitution (echo s) = "".
Proof. intros Ho. unfold echo. rewrite Ho. by destruct (existsb _ _). Qed.

Lemma option_word_no_arm (s : string) :
  echo_option s = true -> first_arm s name_arms = None.
Proof.
  intros Ho.
  assert (forall arms,
             forallb (fun arm => negb (echo_option (fst arm))) arms = true ->
             first_arm s arms = None) as Harms.
  { induction arms as [|[pattern result] arms IH]; [done|].
    cbn [forallb fst first_arm]. intros H. apply andb_prop in H as [Hp Harms].
    destruct (String.eqb_spec s pattern) as [->|_]; [|by apply IH].
    by rewrite Ho in Hp. }
  apply Harms. vm_compute. reflexivity.
Qed.

(** What the function prints, from the normalised spelling of the name. *)
Lemma get_mapped_name_normalised (model_name : string) :
  get_mapped_name model_name
  = let word := dots_to_hyphens model_name in
    if echo_option word then ""
    else
      let normalized_name := command_substitution word in
      command_substitution
        (echo match first_arm normalized_name name_arms with
              | Some mapped => mapped
              | None => normalized_name
              end).
Proof.
  cbn zeta. unfold get_mapped_name.
  destruct (echo_option model_name) eqn:Hname.
  - rewrite (option_word_dotless _ Hname), Hname.
    assert (command_substitution (dots_to_hyphens (echo model_name)) = "") as ->.
    { unfold echo. rewrite Hname. by destruct (existsb _ _). }
    reflexivity.
  - rewrite (echo_plain _ Hname), dots_to_hyphens_app, captured_line.
    destruct (echo_option (dots_to_hyphens model_name)) eqn:Hword; [|done].
    rewrite (option_word_captured _ Hword), (option_word_no_arm _ Hword).
    by apply option_word_prints_nothing.
Qed.

Lemma first_arm_result (word : string) (arms : list (string * string)) (v : string) :
  first_arm word arms = Some v -> In v (map snd arms).
Proof.
  induction arms as [|[pattern result] arms IH]; [done|].
  cbn [first_arm map snd]. destruct (String.eqb word pattern).
  - intros [= <-]. by left.
  - intros H. right. by apply IH.
Qed.

Lemma arm_results_fixed (v : string) :
  In v (map snd name_arms) ->
  command_substitution (echo v) = v /\ get_mapped_name v = v.
Proof.
  intros Hv.
  assert (forallb (fun v => String.eqb (command_substitution (echo v)) v
                            && String.eqb (get_mapped_name v) v)
            (map snd name_arms) = true)
    as Hall by (vm_compute; reflexivity).
  rewrite forallb_forall in Hall. specialize (Hall _ Hv).
  apply andb_prop in Hall as [H1 H2]. by apply String.eqb_eq in H1, H2.
Qed.

(** X20 ([utils.sh], [get_mapped_name]).  The mapping does not tell the
    dotted spelling of a model name from the hyphenated one, and its results
    are fixed points: mapping a mapped name gives it back. *)
Theorem mapped_name_normal_form (model_name : string) :
  get_mapped_name (dots_to_hyphens model_name) = get_mapped_name model_name /\
  get_mapped_name (get_mapped_name model_name) = get_mapped_name model_name.
Proof.
  split.
  - by rewrite !get_mapped_name_normalised, dots_to_hyphens_idempotent.
  - rewrite (get_mapped_name_normalised model_name). cbn zeta.
    set (word := dots_to_hyphens model_name).
    destruct (echo_option word) eqn:Hword; [reflexivity|].
    set (normalized_name := command_substitution word).
    assert (dots_to_hyphens normalized_name = normalized_name) as Hnormal.
    { subst normalized_name word.
      by rewrite dots_to_hyphens_captured, dots_to_hyphens_idempotent. }
    destruct (first_arm normalized_name name_arms) as [v|] eqn:Harm.
    + apply first_arm_result, arm_results_fixed in Harm as [-> ->]. done.
    + destruct (echo_option normalized_name) eqn:Hoption.
      * by rewrite option_word_prints_nothing.
      * rewrite (echo_plain _ Hoption), captured_line.
        subst normalized_name. rewrite captured_twice.
        fold (command_substitution word) in *.
        rewrite get_mapped_name_normalised. cbn zeta.
        rewrite Hnormal, Hoption, captured_twice, Harm.
        by rewrite (echo_plain _ Hoption), captured_line, captured_twice.
Qed.

(** X21 ([utils.sh], [find_source_file]).  A path the lookup prints is an
    existing file of a cross-referenced provider, and it is the file of the
    mapped name unless that one is missing and the file of the name as given
    exists.  When the file of the mapped name exists, every spelling of the
    name that differs only in dots against hyphens finds that same file. *)
Theorem source_lookup_spelling_blind (is_file : string -> bool)
    (provider model_name providers_dir : string) :
  let mapped := source_path providers_dir provider (get_mapped_name model_name) in
  (forall f, find_source_file is_file provider model_name providers_dir = Some f ->
     In provider CROSS_REFERENCE_PROVIDERS /\ is_file f = true /\
     (f = mapped \/
      (is_file mapped = false /\
       f = source_path providers_dir provider model_name))) /\
  (In provider CROSS_REFERENCE_PROVIDERS -> is_file mapped = true ->
   forall other, dots_to_hyphens other = dots_to_hyphens model_name ->
     find_source_file is_file provider other providers_dir = Some mapped).
Proof.
  cbn zeta. split.
  - intros f. unfold find_source_file.
    destruct (existsb _ CROSS_REFERENCE_PROVIDERS) eqn:Hin; [|done].
    apply existsb_exists in Hin as (p & Hp & Heq).
    apply String.eqb_eq in Heq as <-. cbn [negb].
    destruct (is_file (source_path providers_dir provider (get_mapped_name model_name)))
      eqn:Hmapped.
    + intros [= <-]. split_and!; [done|done|by left].
    + destruct (negb _); [|done].
      destruct (is_file (source_path providers_dir provider model_name)) eqn:Horig;
        [|done].
      intros [= <-]. split_and!; [done|done|by right].
  - intros Hin Hfile other Hother. unfold find_source_file.
    assert (existsb (fun p => String.eqb provider p) CROSS_REFERENCE_PROVIDERS = true)
      as ->.
    { apply existsb_exists. exists provider. split; [done|apply String.eqb_refl]. }
    assert (get_mapped_name other = get_mapped_name model_name) as ->.
    { by rewrite !get_mapped_name_normalised, Hother. }
    cbn [negb]. by rewrite Hfile.
Qed.

Lemma source_lookup_spelling_blind_witness :
  find_source_file (String.eqb "providers/openai/models/gpt-5.1.toml")
    "openai" "gpt-5-1" "providers"
  = Some "providers/openai/models/gpt-5.1.toml".
Proof.
  apply (proj2 (source_lookup_spelling_blind
                  (String.eqb "providers/openai/models/gpt-5.1.toml")
                  "openai" "gpt-5.1" "providers")).
  - by left.
  - reflexivity.
  - reflexivity.
Defined.

(** X22 ([utils.sh], [should_include_model] with [find_source_file], and
    the split of an id in [03_generate_model_toml.sh]).  Every one-line id
    the filter keeps has the form provider, slash, model name, and its
    provider is one of three: [workers-ai], whose kept ids all begin with
    [workers-ai/@cf/] and for which no source file is ever looked up, or one
    of the two cross-referenced providers.  One-line ids of any other
    provider are never kept. *)
Theorem kept_ids_by_provider (model_id : string) :
  one_line model_id = true ->
  should_include_model model_id = Included ->
  model_id = (cut_first_field model_id ++ "/" ++ cut_rest_fields model_id)%string /\
  ((cut_first_field model_id = "workers-ai" /\
    startsWith model_id "workers-ai/@cf/" = true /\
    forall is_file name dir,
      find_source_file is_file (cut_first_field model_id) name dir = None) \/
   In (cut_first_field model_id) CROSS_REFERENCE_PROVIDERS).
Proof.
  intros Hline Hkept.
  assert (echo_option model_id = false) as Hplain.
  { destruct (echo_option model_id) eqn:Ho; [|done].
    by rewrite option_word_excluded in Hkept. }
  rewrite cut_first_field_one_line, cut_rest_fields_one_line by done.
  destruct (kept_cases model_id Hline Hkept)
    as [[Hp Hpre]|(p & pattern & rest & Hp & Hin & Hmatch & Hid)].
  - assert (startsWith model_id "workers-ai/" = true) as Hslash.
    { apply startsWith_split in Hpre as [rest ->]. reflexivity. }
    apply startsWith_split in Hslash as [rest Hid].
    destruct (field_at_provider "workers-ai" rest eq_refl) as [H1 H2].
    change ("workers-ai/" ++ rest)%string with ("workers-ai" ++ "/" ++ rest)%string in Hid.
    split.
    + unfold rest_fields. rewrite Hid at 2 3 4. by rewrite H1, H2.
    + left. rewrite Hp. by split_and!.
  - assert (includes p "/" = false) as Hslash.
    { destruct Hp as [<-|[<-|[]]]; reflexivity. }
    destruct (field_at_provider p rest Hslash) as [H1 H2].
    split.
    + unfold rest_fields. rewrite Hid at 2 3 4. by rewrite H1, H2.
    + right. by rewrite Hid, H1.
Qed.

Lemma kept_ids_by_provider_witness :
  In (cut_first_field "anthropic/claude-3.5-sonnet") CROSS_REFERENCE_PROVIDERS.
Proof.
  destruct (kept_ids_by_provider "anthropic/claude-3.5-sonnet" eq_refl eq_refl)
    as [_ [[Hworkers _]|Hcross]].
  - discriminate Hworkers.
  - exact Hcross.
Defined.

(** The condition is needed: [cut] and [grep] work line by line, so a
    two-line id whose second line is a well-known id is kept, with a
    provider that is none of the three. *)
Example two_line_id_kept :
  let model_id := ("X" ++ newline ++ "openai/gpt-4o")%string in
  should_include_model model_id = Included /\
  cut_first_field model_id = ("X" ++ newline ++ "openai")%string.
Proof. split; reflexivity. Qed.

End CrossReferenceFacts.

Section NamesUpdate.
Import Js Cloudflare CloudflareNames.

Lemma lookup_name_lookup (ns : gmap string string) (k : string) :
  lookup_name ns k <> "" -> exists v, ns !! k = Some v /\ v <> "".
Proof.
  unfold lookup_name. destruct (ns !! k) as [v|]; [|done].
  intros Hv. by exists v.
Qed.

Lemma step_keeps_named (st : Progress) (model_id k : string) :
  lookup_name (table st) k <> "" -> table (step st model_id) !! k = table st !! k.
Proof.
  intros Hk. unfold step.
  destruct (String.eqb model_id "" || String.eqb model_id "null"); [done|].
  destruct (should_include_model model_id); [|done].
  destruct (String.eqb (lookup_name (table st) model_id) "") eqn:Hblank; [|done].
  apply String.eqb_eq in Hblank. cbn [table].
  apply lookup_insert_ne. by intros ->.
Qed.


Lemma step_names_eligible (st : Progress) (model_id : string) :
  eligible model_id -> lookup_name (table (step st model_id)) model_id <> "".
Proof.
  intros (Hempty & Hnull & Hkept). unfold step.
  apply String.eqb_neq in Hempty as Hempty', Hnull.
  rewrite Hempty', Hnull, Hkept. cbn [orb].
  destruct (String.eqb (lookup_name (table st) model_id) "") eqn:Hblank.
  - cbn [table]. unfold lookup_name. by rewrite lookup_insert_eq.
  - by apply String.eqb_neq.
Qed.

Lemma fold_keeps_named (ids : list string) (st : Progress) (k : string) :
  lookup_name (table st) k <> "" -> table (foldl step st ids) !! k = table st !! k.
Proof.
  revert st. induction ids as [|model_id ids IH]; intros st Hk; [done|].
  cbn [foldl]. pose proof (step_keeps_named st model_id k Hk) as Hstep.
  rewrite IH; [done|]. unfold lookup_name in *. by rewrite Hstep.
Qed.


Lemma fold_names_eligible (ids : list string) (st : Progress) (k : string) :
  In k ids -> eligible k -> lookup_name (table (foldl step st ids)) k <> "".
Proof.
  revert st. induction ids as [|model_id ids IH]; intros st; [done|].
  cbn [foldl]. intros [->|Hin] Hel.
  - pose proof (step_names_eligible st k Hel) as Hnamed.
    unfold lookup_name in *. by rewrite fold_keeps_named.
  - by apply IH.
Qed.

Lemma fold_counts (ids : list string) (st : Progress) :
  SKIPPED_COUNT (foldl step st ids) = (SKIPPED_COUNT st + rejected ids)%nat /\
  (ADDED_COUNT st <= ADDED_COUNT (foldl step st ids))%nat /\
  (ADDED_COUNT (foldl step st ids) + rejected ids <= ADDED_COUNT st + length ids)%nat.
Proof.
  revert st. induction ids as [|model_id ids IH]; intros st.
  - unfold rejected. cbn. lia.
  - cbn [foldl]. destruct (IH (step st model_id)) as (Hs & Hlo & Hhi).
    rewrite Hs. unfold rejected in *. cbn [List.filter length].
    unfold step in *.
    destruct (String.eqb model_id "" || String.eqb model_id "null");
      cbn [negb andb length] in *; [lia|].
    destruct (should_include_model model_id); cbn [length SKIPPED_COUNT ADDED_COUNT] in *.
    + destruct (String.eqb (lookup_name (table st) model_id) "");
        cbn [SKIPPED_COUNT ADDED_COUNT] in *; lia.
    + lia.
Qed.



Lemma fold_quiet (ids : list string) (st : Progress) :
  (forall k, In k ids -> eligible k -> lookup_name (table st) k <> "") ->
  table (foldl step st ids) = table st /\
  ADDED_COUNT (foldl step st ids) = ADDED_COUNT st.
Proof.
  revert st. induction ids as [|model_id ids IH]; intros st Hnamed; [done|].
  cbn [foldl].
  assert (table (step st model_id) = table st /\
          ADDED_COUNT (step st model_id) = ADDED_COUNT st) as [Ht Ha].
  { unfold step.
    destruct (String.eqb model_id "") eqn:Hempty; [done|].
    destruct (String.eqb model_id "null") eqn:Hnull; [done|].
    cbn [orb]. destruct (should_include_model model_id) eqn:Hkept; [|done].
    destruct (String.eqb (lookup_name (table st) model_id) "") eqn:Hblank; [|done].
    apply String.eqb_eq in Hblank. apply String.eqb_neq in Hempty, Hnull.
    exfalso. apply (Hnamed model_id); [by left|done|done]. }
  destruct (IH (step st model_id)) as [Ht' Ha'].
  - intros k Hin. rewrite Ht. apply Hnamed. by right.
  - by rewrite Ht', Ha'.
Qed.

(** X24 ([02_generate_model_names.sh]).  Running the script again on the
    same response, with the names file the first run left, adds nothing: the
    file is the same, the added count is zero and the skipped count is that
    of the first run. *)
Theorem names_second_run_adds_nothing (ids : list string) (names_file : option (gmap string string))
    (first : Progress) :
  main (Some ids) names_file = Some first ->
  main (Some ids) (Some (table first))
  = Some {| table := table first; ADDED_COUNT := 0;
            SKIPPED_COUNT := SKIPPED_COUNT first |}.
Proof.
  unfold main. destruct (length ids =? 0)%nat; [done|].
  intros [= <-]. f_equal.
  set (st0 := {| table := default ∅ names_file; ADDED_COUNT := 0; SKIPPED_COUNT := 0 |}).
  assert (forall k, In k ids -> eligible k ->
                    lookup_name (table (foldl step st0 ids)) k <> "") as Hnamed
    by (intros k; apply fold_names_eligible).
  destruct (fold_counts ids st0) as (Hskipped & _ & _).
  cbn [SKIPPED_COUNT st0 Nat.add] in Hskipped.
  set (first := foldl step st0 ids) in *.
  change (default ∅ (Some (table first))) with (table first).
  set (st := {| table := table first; ADDED_COUNT := 0; SKIPPED_COUNT := 0 |}).
  destruct (fold_quiet ids st Hnamed) as [Ht Ha].
  destruct (fold_counts ids st) as (Hs & _ & _).
  destruct (foldl step st ids) as [t a s]. cbn [table ADDED_COUNT SKIPPED_COUNT st] in *.
  rewrite Ht, Ha, Hs, Hskipped. reflexivity.
Qed.

Lemma names_second_run_adds_nothing_witness :
  ADDED_COUNT <$>
    main (Some sample_ids)
      (Some (table (foldl step
                      {| table := sample_names; ADDED_COUNT := 0; SKIPPED_COUNT := 0 |}
                      sample_ids)))
  = Some 0%nat.
Proof.
  exact (f_equal (fmap ADDED_COUNT)
           (names_second_run_adds_nothing sample_ids (Some sample_names) _ eq_refl)).
Defined.

End NamesUpdate.

(* ===================================================================== *)
(** ** Cloudflare AI Gateway: the model files *)
(* ===================================================================== *)

Section ModelFiles.
Import Js Cloudflare CrossReference CloudflareNames CloudflareToml.
Context (host : ShellHost) (PROVIDER_DIR : string).

Lemma string_app_assoc (a b c : string) : ((a ++ b) ++ c = a ++ (b ++ c))%string.
Proof. induction a as [|x a IH]; [done|]. by rewrite !append_cons, IH. Qed.

Lemma startsWith_app (p rest : string) : startsWith (p ++ rest) p = true.
Proof.
  induction p as [|c p IH]; [by destruct rest|].
  rewrite append_cons. cbn [startsWith]. by rewrite Ascii.eqb_refl, IH.
Qed.

Lemma startsWith_longer (s p q : string) :
  startsWith s (p ++ q) = true -> startsWith s p = true.
Proof.
  revert s. induction p as [|c p IH]; intros s; [by destruct s|].
  rewrite append_cons. destruct s as [|d s]; [done|]. cbn [startsWith].
  intros Hs. apply andb_prop in Hs as [-> Hs]. cbn [andb]. by apply IH.
Qed.

Lemma FULL_PATH_below (model_id : string) : below_models PROVIDER_DIR (FULL_PATH PROVIDER_DIR model_id) = true.
Proof.
  unfold below_models, FULL_PATH.
  rewrite <- string_app_assoc. apply startsWith_app.
Qed.

Lemma inside_below (model_id name : string) :
  below_models PROVIDER_DIR (FULL_PATH PROVIDER_DIR model_id ++ "/" ++ name) = true.
Proof.
  unfold below_models, FULL_PATH.
  rewrite <- (string_app_assoc (MODELS_DIR PROVIDER_DIR) "/"), string_app_assoc.
  apply startsWith_app.
Qed.

Lemma cp_effect (fs copied : gmap string string) (source model_id : string) :
  cp fs source (FULL_PATH PROVIDER_DIR model_id) = Some copied ->
  exists target text,
    below_models PROVIDER_DIR target = true /\ copied = <[target := text]> fs /\
    (is_dir fs (FULL_PATH PROVIDER_DIR model_id) = false -> target = FULL_PATH PROVIDER_DIR model_id).
Proof.
  unfold cp. destruct (fs !! source) as [text|]; [|done].
  destruct (is_dir fs (FULL_PATH PROVIDER_DIR model_id)) eqn:Hdir.
  - cbn zeta.
    destruct (is_dir fs (FULL_PATH PROVIDER_DIR model_id ++ _)); [done|].
    intros [= <-].
    eexists _, text. split_and!; [apply inside_below|done|congruence].
  - intros [= <-]. exists (FULL_PATH PROVIDER_DIR model_id), text.
    split_and!; [apply FULL_PATH_below|done|done].
Qed.

(** What one turn does to the files, the list and the counters. *)
Lemma step_effect (st st' : State) (e : Entry) :
  step PROVIDER_DIR st e = Some st' ->
  (forall p, below_models PROVIDER_DIR p = false -> files st' !! p = files st !! p) /\
  (forall p, is_Some (files st !! p) -> is_Some (files st' !! p)) /\
  ((eligible (MODEL_ID e) /\
    API_MODEL_FILES st'
    = (API_MODEL_FILES st ++ text_lines (echo (FULL_PATH PROVIDER_DIR (MODEL_ID e))))%list /\
    SKIPPED_COUNT st' = SKIPPED_COUNT st /\
    (GENERATED_COUNT st' + CROSS_REF_COUNT st'
     = S (GENERATED_COUNT st + CROSS_REF_COUNT st))%nat /\
    (find_source_file (is_file (files st)) (cut_first_field (MODEL_ID e))
       (cut_rest_fields (MODEL_ID e)) (PROVIDERS_DIR PROVIDER_DIR) = None ->
     is_Some (files st' !! FULL_PATH PROVIDER_DIR (MODEL_ID e))))
   \/
   (~ eligible (MODEL_ID e) /\
    API_MODEL_FILES st' = API_MODEL_FILES st /\
    (SKIPPED_COUNT st'
     = SKIPPED_COUNT st + rejected [MODEL_ID e])%nat /\
    (GENERATED_COUNT st' + CROSS_REF_COUNT st'
     = GENERATED_COUNT st + CROSS_REF_COUNT st)%nat)).
Proof.
  unfold step, eligible, rejected. cbn [List.filter].
  destruct (String.eqb (MODEL_ID e) "") eqn:Hempty.
  { intros [= <-]. apply String.eqb_eq in Hempty.
    split_and!; [done|done|]. right. cbn. split_and!; [tauto|done|lia|done]. }
  destruct (String.eqb (MODEL_ID e) "null") eqn:Hnull.
  { intros [= <-]. apply String.eqb_eq in Hnull.
    split_and!; [done|done|]. right. cbn. split_and!; [tauto|done|lia|done]. }
  apply String.eqb_neq in Hempty, Hnull. cbn [orb negb andb].
  destruct (should_include_model (MODEL_ID e)) eqn:Hkept; cycle 1.
  { intros [= <-]. cbn.
    split_and!; [done|done|]. right. split_and!; [intros (_ & _ & ?); done|done|lia|done]. }
  destruct (mkdir_p (files st) (FULL_PATH PROVIDER_DIR (MODEL_ID e))); [|done]. cbn [negb].
  destruct (find_source_file _ _ _ _) as [src|] eqn:Hsrc; cbn [default from_option id].
  - destruct (negb (String.eqb src "") && is_file (files st) src).
    + destruct (cp _ _ _) as [copied|] eqn:Hcp; [|done]. intros [= <-].
      destruct (cp_effect _ _ _ _ Hcp) as (target & text & Hbelow & -> & _).
      cbn. split_and!.
      * intros p Hp. apply lookup_insert_ne. intros ->. congruence.
      * intros p Hp. destruct (decide (target = p)) as [->|Hne].
        -- rewrite lookup_insert_eq. by eexists.
        -- by rewrite lookup_insert_ne.
      * left. split; [done|]. split_and!; [done|done|lia|done].
    + destruct (names_file st) as [names|]; [|done].
      destruct (is_dir _ _); [done|]. intros [= <-]. cbn.
      split_and!.
      * intros p Hp. apply lookup_insert_ne. intros <-.
        by rewrite FULL_PATH_below in Hp.
      * intros p Hp. destruct (decide (FULL_PATH PROVIDER_DIR (MODEL_ID e) = p)) as [->|Hne].
        -- rewrite lookup_insert_eq. by eexists.
        -- by rewrite lookup_insert_ne.
      * left. split; [done|]. split_and!; [done|done|lia|].
        intros _. rewrite lookup_insert_eq. by eexists.
  - cbn [String.eqb negb andb].
    destruct (names_file st) as [names|]; [|done].
    destruct (is_dir _ _); [done|]. intros [= <-]. cbn.
    split_and!.
    + intros p Hp. apply lookup_insert_ne. intros <-.
      by rewrite FULL_PATH_below in Hp.
    + intros p Hp. destruct (decide (FULL_PATH PROVIDER_DIR (MODEL_ID e) = p)) as [->|Hne].
      * rewrite lookup_insert_eq. by eexists.
      * by rewrite lookup_insert_ne.
    + left. split; [done|]. split_and!; [done|done|lia|].
      intros _. rewrite lookup_insert_eq. by eexists.
Qed.

Lemma kept_ids_eligible (entries : list Entry) (model_id : string) :
  In model_id (kept_ids entries) <->
  exists e, In e entries /\ MODEL_ID e = model_id /\ eligible model_id.
Proof.
  unfold kept_ids, eligible. rewrite filter_In, in_map_iff. split.
  - intros [(e & <- & Hin) Hk]. exists e. split_and!; [done|done| | |].
    all: destruct (String.eqb (MODEL_ID e) "") eqn:H1; [done|];
         destruct (String.eqb (MODEL_ID e) "null") eqn:H2; [done|];
         apply String.eqb_neq in H1, H2; try done.
    by destruct (should_include_model (MODEL_ID e)).
  - intros (e & Hin & <- & H1 & H2 & H3). split; [by exists e|].
    apply String.eqb_neq in H1, H2. by rewrite H1, H2, H3.
Qed.

Lemma not_cross_referenced (is_file : string -> bool) (provider name dir : string) :
  ~ In provider CROSS_REFERENCE_PROVIDERS ->
  find_source_file is_file provider name dir = None.
Proof.
  intros Hout. unfold find_source_file.
  destruct (existsb _ CROSS_REFERENCE_PROVIDERS) eqn:Hin; [|done].
  apply existsb_exists in Hin as (p & Hp & Heq).
  apply String.eqb_eq in Heq as <-. done.
Qed.

(** What the whole loop does, when it comes to its end. *)
Lemma loop_effect (entries : list Entry) (st st' : State) :
  loop PROVIDER_DIR st entries = Some st' ->
  (forall p, below_models PROVIDER_DIR p = false -> files st' !! p = files st !! p) /\
  (forall p, is_Some (files st !! p) -> is_Some (files st' !! p)) /\
  API_MODEL_FILES st'
  = (API_MODEL_FILES st
     ++ concat (map (fun model_id => text_lines (echo (FULL_PATH PROVIDER_DIR model_id)))
                  (kept_ids entries)))%list /\
  SKIPPED_COUNT st' = (SKIPPED_COUNT st + rejected (map MODEL_ID entries))%nat /\
  (GENERATED_COUNT st' + CROSS_REF_COUNT st'
   = GENERATED_COUNT st + CROSS_REF_COUNT st + length (kept_ids entries))%nat /\
  (forall e, In e entries -> eligible (MODEL_ID e) ->
     ~ In (cut_first_field (MODEL_ID e)) CROSS_REFERENCE_PROVIDERS ->
     is_Some (files st' !! FULL_PATH PROVIDER_DIR (MODEL_ID e))).
Proof.
  revert st. induction entries as [|e entries IH]; intros st.
  { intros [= <-]. unfold kept_ids, rejected. cbn.
    split_and!; [done|done|by rewrite app_nil_r|lia|lia|done]. }
  cbn [loop]. destruct (step PROVIDER_DIR st e) as [mid|] eqn:Hstep; [|done].
  intros Hloop.
  destruct (step_effect _ _ _ Hstep) as (Hout & Hkeep & Hcase).
  destruct (IH _ Hloop) as (Hout' & Hkeep' & Hlist & Hskip & Hcount & Hgen).
  assert (rejected (map MODEL_ID (e :: entries))
          = (rejected [MODEL_ID e] + rejected (map MODEL_ID entries))%nat) as Hrej.
  { unfold rejected. cbn [map List.filter].
    destruct (negb _ && _); cbn [length]; lia. }
  split_and!.
  - intros p Hp. by rewrite Hout', Hout.
  - intros p Hp. by apply Hkeep', Hkeep.
  - rewrite Hlist. unfold kept_ids. cbn [map List.filter].
    destruct Hcase as [((H1 & H2 & H3) & -> & _)|(Hno & -> & _)].
    + apply String.eqb_neq in H1, H2. rewrite H1, H2, H3.
      cbn [orb negb andb map concat]. by rewrite <- app_assoc.
    + destruct (negb _ && _) eqn:Hk; [|done]. exfalso. apply Hno. unfold eligible.
      destruct (String.eqb (MODEL_ID e) "") eqn:H1; [done|].
      destruct (String.eqb (MODEL_ID e) "null") eqn:H2; [done|].
      apply String.eqb_neq in H1, H2.
      by destruct (should_include_model (MODEL_ID e)).
  - rewrite Hskip, Hrej.
    destruct Hcase as [((H1 & H2 & H3) & _ & -> & _)|(_ & _ & -> & _)]; [|lia].
    unfold rejected. cbn [List.filter]. rewrite H3, andb_false_r. cbn [length]. lia.
  - rewrite Hcount. unfold kept_ids. cbn [map List.filter].
    destruct Hcase as [((H1 & H2 & H3) & _ & _ & Hc & _)|(Hno & _ & _ & Hc)].
    + apply String.eqb_neq in H1, H2. rewrite H1, H2, H3. cbn [orb negb andb length].
      lia.
    + destruct (negb _ && _) eqn:Hk; [|lia]. exfalso. apply Hno. unfold eligible.
      destruct (String.eqb (MODEL_ID e) "") eqn:H1; [done|].
      destruct (String.eqb (MODEL_ID e) "null") eqn:H2; [done|].
      apply String.eqb_neq in H1, H2.
      by destruct (should_include_model (MODEL_ID e)).
  - intros e' [<-|Hin] Hel Hprov; [|by apply Hgen].
    apply Hkeep'.
    destruct Hcase as [(_ & _ & _ & _ & Hwritten)|(Hno & _)]; [|done].
    apply Hwritten. by apply not_cross_referenced.
Qed.

(** Within the scope: one-line paths and the list of the files. *)
Lemma one_line_app (a b : string) :
  one_line (a ++ b) = one_line a && one_line b.
Proof.
  induction a as [|c a IH]; [done|].
  rewrite append_cons. cbn [one_line]. by rewrite IH, andb_assoc.
Qed.

Lemma one_line_basename (s : string) :
  one_line s = true -> one_line (basename s) = true.
Proof.
  induction s as [|c s IH]; [done|].
  cbn [basename]. intros Hs. destruct (Ascii.eqb c "/" || includes s "/"); [|done].
  cbn [one_line] in Hs. apply andb_prop in Hs as [_ Hs]. by apply IH.
Qed.

Lemma plain_path_one_line (s : string) : plain_path s = true -> one_line s = true.
Proof. unfold plain_path. intros H. by apply andb_prop in H as [? _]. Qed.

Lemma plain_dir_one_line :
  plain_dir PROVIDER_DIR = true -> one_line PROVIDER_DIR = true.
Proof.
  unfold plain_dir. destruct PROVIDER_DIR as [|c rel]; [done|].
  intros H. apply andb_prop in H as [Hc Hrel]. apply Ascii.eqb_eq in Hc as ->.
  cbn [one_line]. by rewrite (plain_path_one_line _ Hrel).
Qed.

Lemma FULL_PATH_one_line (model_id : string) :
  one_line PROVIDER_DIR = true -> one_line model_id = true ->
  one_line (FULL_PATH PROVIDER_DIR model_id) = true.
Proof.
  intros Hd Hid. unfold FULL_PATH, MODELS_DIR, MODEL_PATH.
  by rewrite !one_line_app, Hd, Hid.
Qed.

Lemma echo_path (a b : string) :
  echo (a ++ "/" ++ b) = ((a ++ "/" ++ b) ++ newline)%string.
Proof.
  apply echo_plain. destruct (echo_option (a ++ "/" ++ b)) eqn:Ho; [|done].
  apply echo_option_flags in Ho. exfalso. clear -Ho.
  induction a as [|c a IH].
  - cbn in Ho. done.
  - rewrite append_cons in Ho. cbn [list_ascii_of_string forallb] in Ho.
    apply andb_prop in Ho as [_ Ho]. by apply IH.
Qed.

Lemma listed_line (model_id : string) :
  one_line PROVIDER_DIR = true -> one_line model_id = true ->
  text_lines (echo (FULL_PATH PROVIDER_DIR model_id)) = [FULL_PATH PROVIDER_DIR model_id].
Proof.
  intros Hd Hid.
  assert (echo (FULL_PATH PROVIDER_DIR model_id)
          = (FULL_PATH PROVIDER_DIR model_id ++ newline)%string) as ->.
  { unfold FULL_PATH. apply echo_path. }
  apply text_lines_one_line. by apply FULL_PATH_one_line.
Qed.

Lemma listed_lines (ids : list string) :
  one_line PROVIDER_DIR = true -> forallb plain_path ids = true ->
  concat (map (fun model_id => text_lines (echo (FULL_PATH PROVIDER_DIR model_id))) ids)
  = map (FULL_PATH PROVIDER_DIR) ids.
Proof.
  intros Hd. induction ids as [|model_id ids IH]; [done|].
  cbn [forallb map concat]. intros H. apply andb_prop in H as [Hid Hids].
  rewrite listed_line, IH by (done || by apply plain_path_one_line). done.
Qed.

Lemma text_lines_first (line rest : string) :
  one_line line = true ->
  text_lines (line ++ newline ++ rest) = line :: text_lines rest.
Proof.
  induction line as [|c line IH]; [done|].
  cbn [one_line]. intros H. apply andb_prop in H as [Hc Hline].
  rewrite append_cons. cbn [text_lines].
  apply negb_true_iff in Hc. rewrite Hc. by rewrite (IH Hline).
Qed.

Lemma wc_l_one_line (names : list string) :
  (forall name, In name names -> one_line name = true) ->
  wc_l names = length names.
Proof.
  unfold wc_l. induction names as [|name names IH]; [done|]. intros Hall.
  cbn [unlines]. rewrite text_lines_first by (apply Hall; by left).
  cbn [length]. f_equal. apply IH. intros n Hn. apply Hall. by right.
Qed.

Lemma one_line_tree_spec (fs : gmap string string) :
  one_line_tree fs = true <-> forall p, is_Some (fs !! p) -> one_line p = true.
Proof.
  unfold one_line_tree. rewrite forallb_forall. split.
  - intros H p [v Hv]. apply H. apply in_map_iff. exists (p, v). split; [done|].
    by apply list_elem_of_In, elem_of_map_to_list.
  - intros H p Hp. apply in_map_iff in Hp as ([k v] & <- & Hin).
    apply H. exists v. by apply elem_of_map_to_list, list_elem_of_In.
Qed.

(** The file a turn writes, if any: the file of the id, or a file of the
    name of the source inside it when that is a directory. *)
Lemma step_files (st st' : State) (e : Entry) :
  step PROVIDER_DIR st e = Some st' ->
  files st' = files st \/
  (eligible (MODEL_ID e) /\
   exists target text,
     files st' = <[target := text]> (files st) /\
     (target = FULL_PATH PROVIDER_DIR (MODEL_ID e) \/
      exists source,
        is_Some (files st !! source) /\
        target = (FULL_PATH PROVIDER_DIR (MODEL_ID e) ++ "/" ++ basename source)%string)).
Proof.
  unfold step, eligible.
  destruct (String.eqb (MODEL_ID e) "") eqn:Hempty; [intros [= <-]; by left|].
  destruct (String.eqb (MODEL_ID e) "null") eqn:Hnull; [intros [= <-]; by left|].
  apply String.eqb_neq in Hempty, Hnull. cbn [orb negb andb].
  destruct (should_include_model (MODEL_ID e)) eqn:Hkept; [|intros [= <-]; by left].
  destruct (mkdir_p (files st) (FULL_PATH PROVIDER_DIR (MODEL_ID e))); [|done]. cbn [negb].
  destruct (find_source_file _ _ _ _) as [src|] eqn:Hsrc; cbn [default from_option id].
  - destruct (negb (String.eqb src "") && is_file (files st) src).
    + unfold cp. destruct (files st !! src) as [text|] eqn:Htext; [|done].
      destruct (is_dir (files st) (FULL_PATH PROVIDER_DIR (MODEL_ID e))).
      * cbn zeta.
        destruct (is_dir (files st) (FULL_PATH PROVIDER_DIR (MODEL_ID e) ++ _)); [done|].
        intros [= <-]. right. split; [done|]. eexists _, text. split; [done|].
        right. exists src. split; [by exists text|done].
      * intros [= <-]. right. split; [done|]. eexists _, text. split; [done|by left].
    + destruct (names_file st) as [names|]; [|done].
      destruct (is_dir _ _); [done|]. intros [= <-].
      right. split; [done|]. eexists _, _. split; [done|by left].
  - cbn [String.eqb negb andb].
    destruct (names_file st) as [names|]; [|done].
    destruct (is_dir _ _); [done|]. intros [= <-].
    right. split; [done|]. eexists _, _. split; [done|by left].
Qed.

Lemma loop_one_line (entries : list Entry) (st st' : State) :
  one_line PROVIDER_DIR = true ->
  plain_response entries = true ->
  (forall p, is_Some (files st !! p) -> one_line p = true) ->
  loop PROVIDER_DIR st entries = Some st' ->
  forall p, is_Some (files st' !! p) -> one_line p = true.
Proof.
  intros Hd. revert st. induction entries as [|e entries IH]; intros st Hplain Hfs.
  { by intros [= <-]. }
  cbn [loop]. destruct (step PROVIDER_DIR st e) as [mid|] eqn:Hstep; [|done].
  assert (eligible (MODEL_ID e) -> one_line (MODEL_ID e) = true) as Hid.
  { intros Hel. apply plain_path_one_line.
    unfold plain_response in Hplain. rewrite forallb_forall in Hplain.
    apply Hplain, kept_ids_eligible. exists e. split_and!; [by left|done|done]. }
  assert (plain_response entries = true) as Hrest.
  { unfold plain_response, kept_ids in *. cbn [map List.filter] in Hplain.
    destruct (negb _ && _); [|done]. cbn [forallb] in Hplain.
    by apply andb_prop in Hplain as [_ ?]. }
  apply IH; [done|].
  destruct (step_files _ _ _ Hstep) as [->|(Hel & target & text & -> & Htarget)]; [done|].
  intros p Hp. destruct (decide (target = p)) as [<-|Hne].
  - destruct Htarget as [->|(source & Hsource & ->)].
    + apply FULL_PATH_one_line; [done|by apply Hid].
    + rewrite !one_line_app, FULL_PATH_one_line by (done || by apply Hid).
      cbn [andb one_line]. by apply one_line_basename, Hfs.
  - rewrite lookup_insert_ne in Hp by done. by apply Hfs.
Qed.

Lemma find_toml_spec (fs : gmap string string) (dir p : string) :
  In p (find_toml fs dir) <->
  is_Some (fs !! p) /\ startsWith p (dir ++ "/") = true /\ endsWith p ".toml" = true.
Proof.
  unfold find_toml. rewrite filter_In, in_map_iff, andb_true_iff. split.
  - intros [([k v] & <- & Hin) Hp]. split; [|done].
    apply list_elem_of_In, elem_of_map_to_list in Hin. by exists v.
  - intros [[v Hv] Hp]. split; [|done]. exists (p, v). split; [done|].
    by apply list_elem_of_In, elem_of_map_to_list.
Qed.

Lemma find_toml_NoDup (fs : gmap string string) (dir : string) :
  List.NoDup (find_toml fs dir).
Proof.
  unfold find_toml. apply List.NoDup_filter, NoDup_ListNoDup, NoDup_fst_map_to_list.
Qed.

Lemma remove_unlisted_fold (lines found : list string) (fs : gmap string string)
    (n : nat) (p : string) :
  fst (foldl (remove_unlisted lines) (fs, n) found) !! p
  = if existsb (String.eqb p) found && negb (listed_in lines p)
    then None else fs !! p.
Proof.
  revert fs n. induction found as [|f found IH]; intros fs n; [done|].
  cbn [foldl existsb]. unfold remove_unlisted at 2. cbn [fst snd].
  destruct (String.eqb_spec p f) as [->|Hne]; cbn [orb].
  - destruct (listed_in lines f) eqn:Hl; cbn [negb andb]; rewrite IH; cbn [negb].
    + by rewrite andb_false_r.
    + rewrite lookup_delete_eq. by destruct (existsb _ _ && _).
  - destruct (negb (listed_in lines f)); rewrite IH; [|done].
    by rewrite lookup_delete_ne.
Qed.

Lemma listed_in_In (lines : list string) (p : string) :
  one_line p = true -> listed_in lines p = true <-> In p lines.
Proof.
  intros Hline. unfold listed_in. rewrite text_lines_one_line by done.
  cbn [existsb]. rewrite orb_false_r, existsb_exists. split.
  - intros (q & Hq & Heq). by apply String.eqb_eq in Heq as ->.
  - intros Hin. exists p. split; [done|apply String.eqb_refl].
Qed.

(** The run as a whole: the state the loop ends in, and the files the
    removal leaves. *)
Lemma main_effect (entries : list Entry) (fs : gmap string string)
    (names : option (gmap string string)) (s : Summary) :
  main PROVIDER_DIR (Some entries) fs names = Some s ->
  exists st,
    loop PROVIDER_DIR
      {| files := fs; names_file := names; API_MODEL_FILES := [];
         GENERATED_COUNT := 0; SKIPPED_COUNT := 0; CROSS_REF_COUNT := 0 |} entries
    = Some st /\
    (forall p, s_files s !! p
               = if existsb (String.eqb p) (find_toml (files st) (MODELS_DIR PROVIDER_DIR))
                    && negb (listed_in (API_MODEL_FILES st) p)
                 then None else files st !! p) /\
    s_generated s = GENERATED_COUNT st /\ s_skipped s = SKIPPED_COUNT st /\
    s_cross_referenced s = CROSS_REF_COUNT st /\
    FINAL_COUNT s = wc_l (find_toml (s_files s) (MODELS_DIR PROVIDER_DIR)).
Proof.
  unfold main. destruct (length entries =? 0)%nat; [done|].
  destruct (loop _ _ _) as [st|]; [|done].
  destruct (foldl _ _ _) as [kept removed] eqn:Hfold.
  destruct (is_dir kept _ || is_file kept _); [|done].
  intros [= <-]. exists st. cbn. split_and!; try done.
  intros p. rewrite <- (remove_unlisted_fold _ _ _ 0%nat). by rewrite Hfold.
Qed.

Lemma kept_ids_files (entries : list Entry) (p : string) :
  In p (map (FULL_PATH PROVIDER_DIR) (kept_ids entries)) <->
  file_of_kept PROVIDER_DIR entries p.
Proof.
  unfold file_of_kept. rewrite in_map_iff. split.
  - intros (model_id & <- & Hin). apply kept_ids_eligible in Hin as (e & He & <- & Hel).
    by exists e.
  - intros (e & He & Hel & ->). exists (MODEL_ID e). split; [done|].
    apply kept_ids_eligible. by exists e.
Qed.

Lemma startsWith_cancel (p a b : string) :
  startsWith (p ++ a) (p ++ b) = startsWith a b.
Proof.
  induction p as [|c p IH]; [done|].
  rewrite !append_cons. cbn [startsWith]. by rewrite Ascii.eqb_refl, IH.
Qed.

Lemma source_outside_models (provider name : string) :
  below_models PROVIDER_DIR (source_path (PROVIDERS_DIR PROVIDER_DIR) provider name)
  = false.
Proof.
  unfold below_models, source_path, PROVIDERS_DIR, MODELS_DIR.
  rewrite !string_app_assoc, startsWith_cancel. reflexivity.
Qed.

(** The files the removal leaves are files the loop listed. *)
Lemma left_are_listed (entries : list Entry) (fs : gmap string string)
    (names : option (gmap string string)) (s : Summary) :
  plain_dir PROVIDER_DIR = true ->
  plain_response entries = true ->
  one_line_tree fs = true ->
  main PROVIDER_DIR (Some entries) fs names = Some s ->
  forall p, In p (find_toml (s_files s) (MODELS_DIR PROVIDER_DIR)) ->
            In p (map (FULL_PATH PROVIDER_DIR) (kept_ids entries)).
Proof.
  intros Hdir Hplain Htree Hmain.
  apply plain_dir_one_line in Hdir.
  destruct (main_effect _ _ _ _ Hmain) as (st & Hloop & Hfiles & _).
  destruct (loop_effect _ _ _ Hloop) as (_ & _ & Hlist & _).
  cbn [API_MODEL_FILES app] in Hlist. rewrite listed_lines in Hlist by done.
  assert (forall p, is_Some (files st !! p) -> one_line p = true) as Hlines.
  { eapply loop_one_line; [done|done| |exact Hloop].
    cbn [files]. by apply one_line_tree_spec. }
  intros p Hp. apply find_toml_spec in Hp as ([text Hp] & Hbelow & Htoml).
  rewrite Hfiles in Hp. rewrite <- Hlist.
  destruct (existsb _ _) eqn:Hfound.
  - destruct (listed_in (API_MODEL_FILES st) p) eqn:Hl; [|done].
    cbn [negb andb] in Hp. apply listed_in_In in Hl; [done|].
    apply Hlines. by exists text.
  - cbn [andb] in Hp.
    assert (In p (find_toml (files st) (MODELS_DIR PROVIDER_DIR))) as Hin.
    { apply find_toml_spec. split; [by exists text|done]. }
    assert (existsb (String.eqb p) (find_toml (files st) (MODELS_DIR PROVIDER_DIR))
            = true) as Hyes.
    { apply existsb_exists. exists p. split; [done|apply String.eqb_refl]. }
    congruence.
Qed.

(** X25 ([03_generate_model_toml.sh]).  Within the scope (the provider
    directory and the ids the loop acts on are plain paths, every file name
    of the tree is one line): when the script completes, every [.toml] file
    left below the models directory is the file of an id of the response
    that the filter keeps: a [.toml] path below the models directory that
    is no such file holds nothing afterwards, whatever it held before, and
    the final count is at most the number of models generated and
    cross-referenced. *)
Theorem only_kept_models_remain (entries : list Entry) (fs : gmap string string)
    (names : option (gmap string string)) (s : Summary) :
  plain_dir PROVIDER_DIR = true ->
  plain_response entries = true ->
  one_line_tree fs = true ->
  main PROVIDER_DIR (Some entries) fs names = Some s ->
  (forall p, In p (find_toml (s_files s) (MODELS_DIR PROVIDER_DIR)) ->
             file_of_kept PROVIDER_DIR entries p) /\
  (forall p, below_models PROVIDER_DIR p = true -> endsWith p ".toml" = true ->
             ~ file_of_kept PROVIDER_DIR entries p -> s_files s !! p = None) /\
  (FINAL_COUNT s <= s_generated s + s_cross_referenced s)%nat.
Proof.
  intros Hdir Hplain Htree Hmain.
  pose proof (left_are_listed _ _ _ _ Hdir Hplain Htree Hmain) as Hleft.
  destruct (main_effect _ _ _ _ Hmain) as (st & Hloop & Hfiles & Hg & _ & Hc & Hfinal).
  destruct (loop_effect _ _ _ Hloop) as (_ & _ & _ & _ & Hcount & _).
  cbn [GENERATED_COUNT CROSS_REF_COUNT] in Hcount.
  assert (forall p, In p (find_toml (s_files s) (MODELS_DIR PROVIDER_DIR)) ->
                    file_of_kept PROVIDER_DIR entries p) as Hkept.
  { intros p Hp. by apply kept_ids_files, Hleft. }
  split_and!.
  - exact Hkept.
  - intros p Hbelow Htoml Hno.
    destruct (s_files s !! p) as [text|] eqn:Hp; [|done].
    exfalso. apply Hno, Hkept, find_toml_spec. split; [by exists text|done].
  - rewrite Hfinal, Hg, Hc, Hcount.
    rewrite wc_l_one_line.
    + rewrite <- (length_map (FULL_PATH PROVIDER_DIR) (kept_ids entries)).
      cbn [Nat.add].
      apply List.NoDup_incl_length; [apply find_toml_NoDup|exact Hleft].
    + intros p Hp. apply Hleft, in_map_iff in Hp as (model_id & <- & Hid).
      apply FULL_PATH_one_line; [by apply plain_dir_one_line|].
      apply plain_path_one_line.
      unfold plain_response in Hplain. rewrite forallb_forall in Hplain.
      by apply Hplain.
Qed.

(** X26 ([03_generate_model_toml.sh]).  Within the scope (the provider
    directory and the ids the loop acts on are plain paths, and the
    provider directory is not the directory of a provider the script copies
    from): when the script completes, no file outside the models directory
    has changed, the names file apart, so the files of the source providers
    it copies from are as they were, and no file other than a [.toml] file
    has been removed. *)
Theorem script_stays_in_models_dir (entries : list Entry) (fs : gmap string string)
    (names : option (gmap string string)) (s : Summary) :
  plain_dir PROVIDER_DIR = true ->
  apart_from_sources PROVIDER_DIR = true ->
  plain_response entries = true ->
  main PROVIDER_DIR (Some entries) fs names = Some s ->
  (forall p, below_models PROVIDER_DIR p = false -> s_files s !! p = fs !! p) /\
  (forall provider name,
     s_files s !! source_path (PROVIDERS_DIR PROVIDER_DIR) provider name
     = fs !! source_path (PROVIDERS_DIR PROVIDER_DIR) provider name) /\
  (forall p, endsWith p ".toml" = false -> is_Some (fs !! p) -> is_Some (s_files s !! p)).
Proof.
  intros _ _ _ Hmain.
  destruct (main_effect _ _ _ _ Hmain) as (st & Hloop & Hfiles & _).
  destruct (loop_effect _ _ _ Hloop) as (Hout & Hkeep & _).
  cbn [files] in Hout, Hkeep.
  assert (forall p, (below_models PROVIDER_DIR p && endsWith p ".toml") = false ->
                    s_files s !! p = files st !! p) as Hrest.
  { intros p Hp. rewrite Hfiles.
    destruct (existsb _ _) eqn:Hfound; [|done].
    apply existsb_exists in Hfound as (q & Hq & Heq).
    apply String.eqb_eq in Heq as <-.
    apply find_toml_spec in Hq as (_ & Hbelow & Htoml).
    unfold below_models in Hp. by rewrite Hbelow, Htoml in Hp. }
  assert (forall p, below_models PROVIDER_DIR p = false -> s_files s !! p = fs !! p)
    as Houtside.
  { intros p Hp. rewrite Hrest, Hout; [done|done|by rewrite Hp]. }
  split_and!.
  - exact Houtside.
  - intros provider name. apply Houtside, source_outside_models.
  - intros p Htoml Hp. rewrite Hrest; [by apply Hkeep|by rewrite Htoml, andb_false_r].
Qed.

Lemma ids_partition (ids : list string) :
  (rejected ids
   + length (List.filter
       (fun model_id =>
          negb (String.eqb model_id "" || String.eqb model_id "null")
          && match should_include_model model_id with
             | Included => true
             | Excluded => false
             end) ids)
   + length (List.filter
       (fun model_id => String.eqb model_id "" || String.eqb model_id "null") ids)
   = length ids)%nat.
Proof.
  unfold rejected. induction ids as [|model_id ids IH]; [done|].
  cbn [List.filter length].
  destruct (String.eqb model_id "" || String.eqb model_id "null");
    cbn [negb andb length]; [lia|].
  destruct (should_include_model model_id); cbn [length]; lia.
Qed.

(** X27 ([03_generate_model_toml.sh]).  When the script completes, every
    entry of the response is accounted for exactly once: the skipped count
    is the number of non-blank ids the filter rejects, generated and
    cross-referenced together are the number of ids acted on, and with the
    entries whose id is blank or [null] these add up to the size of the
    response. *)
Theorem every_entry_accounted_for (entries : list Entry) (fs : gmap string string)
    (names : option (gmap string string)) (s : Summary) :
  main PROVIDER_DIR (Some entries) fs names = Some s ->
  s_skipped s = rejected (map MODEL_ID entries) /\
  (s_generated s + s_cross_referenced s = length (kept_ids entries))%nat /\
  (s_skipped s + s_generated s + s_cross_referenced s
   + length (List.filter
       (fun model_id => String.eqb model_id "" || String.eqb model_id "null")
       (map MODEL_ID entries))
   = length entries)%nat.
Proof.
  intros Hmain.
  destruct (main_effect _ _ _ _ Hmain) as (st & Hloop & _ & Hg & Hs & Hc & _).
  destruct (loop_effect _ _ _ Hloop) as (_ & _ & _ & Hskip & Hcount & _).
  cbn [SKIPPED_COUNT GENERATED_COUNT CROSS_REF_COUNT] in Hskip, Hcount.
  pose proof (ids_partition (map MODEL_ID entries)) as Hpart.
  rewrite length_map in Hpart. unfold kept_ids in *.
  rewrite Hg, Hs, Hc. split_and!; lia.
Qed.

(** X28 ([03_generate_model_toml.sh]).  Within the scope (the provider
    directory and the ids the loop acts on are plain paths): when the
    script completes, every id of the response that the filter keeps and
    whose provider is not cross-referenced has its file below the models
    directory. *)
Theorem generated_models_present (entries : list Entry) (fs : gmap string string)
    (names : option (gmap string string)) (s : Summary) (e : Entry) :
  plain_dir PROVIDER_DIR = true ->
  plain_response entries = true ->
  main PROVIDER_DIR (Some entries) fs names = Some s ->
  In e entries -> eligible (MODEL_ID e) ->
  ~ In (cut_first_field (MODEL_ID e)) CROSS_REFERENCE_PROVIDERS ->
  is_Some (s_files s !! FULL_PATH PROVIDER_DIR (MODEL_ID e)).
Proof.
  intros Hdir Hplain Hmain Hin Hel Hprov.
  apply plain_dir_one_line in Hdir.
  destruct (main_effect _ _ _ _ Hmain) as (st & Hloop & Hfiles & _).
  destruct (loop_effect _ _ _ Hloop) as (_ & _ & Hlist & _ & _ & Hgen).
  cbn [API_MODEL_FILES app] in Hlist. rewrite listed_lines in Hlist by done.
  rewrite Hfiles.
  assert (In (MODEL_ID e) (kept_ids entries)) as Hkept.
  { apply kept_ids_eligible. by exists e. }
  assert (listed_in (API_MODEL_FILES st) (FULL_PATH PROVIDER_DIR (MODEL_ID e)) = true)
    as ->.
  { apply listed_in_In.
    - apply FULL_PATH_one_line; [done|]. apply plain_path_one_line.
      unfold plain_response in Hplain. rewrite forallb_forall in Hplain.
      by apply Hplain.
    - rewrite Hlist. by apply in_map. }
  rewrite andb_false_r. by apply Hgen.
Qed.

End ModelFiles.

Lemma only_kept_models_remain_witness :
  exists s,
    @CloudflareToml.main CloudflareToml.sampleShell CloudflareToml.sample_dir
      (Some CloudflareToml.sample_response) CloudflareToml.sample_tree
      (Some CloudflareNames.sample_names) = Some s /\
    CloudflareToml.s_files s !! CloudflareToml.sample_stale = None.
Proof.
  destruct (@CloudflareToml.main CloudflareToml.sampleShell CloudflareToml.sample_dir
              (Some CloudflareToml.sample_response) CloudflareToml.sample_tree
              (Some CloudflareNames.sample_names)) as [s|] eqn:Hmain;
    [|vm_compute in Hmain; discriminate Hmain].
  exists s. split; [reflexivity|].
  assert (CloudflareToml.plain_dir CloudflareToml.sample_dir = true) as Hdir
    by (vm_compute; reflexivity).
  assert (CloudflareToml.plain_response CloudflareToml.sample_response = true)
    as Hplain by (vm_compute; reflexivity).
  assert (CloudflareToml.one_line_tree CloudflareToml.sample_tree = true) as Htree
    by (vm_compute; reflexivity).
  apply (proj1 (proj2 (only_kept_models_remain CloudflareToml.sampleShell
                         CloudflareToml.sample_dir _ _ _ _
                         Hdir Hplain Htree Hmain))).
  - reflexivity.
  - reflexivity.
  - intros (e & [<-|[<-|[<-|[]]]] & Hel & Heq).
    + vm_compute in Heq. discriminate Heq.
    + destruct Hel as (_ & _ & Hkept). vm_compute in Hkept. discriminate Hkept.
    + vm_compute in Heq. discriminate Heq.
Defined.

Lemma script_stays_in_models_dir_witness :
  exists s,
    @CloudflareToml.main CloudflareToml.sampleShell CloudflareToml.sample_dir
      (Some CloudflareToml.sample_response) CloudflareToml.sample_tree
      (Some CloudflareNames.sample_names) = Some s /\
    CloudflareToml.s_files s !! CloudflareToml.sample_source = Some "name = GPT-4o".
Proof.
  destruct (@CloudflareToml.main CloudflareToml.sampleShell CloudflareToml.sample_dir
              (Some CloudflareToml.sample_response) CloudflareToml.sample_tree
              (Some CloudflareNames.sample_names)) as [s|] eqn:Hmain;
    [|vm_compute in Hmain; discriminate Hmain].
  exists s. split; [reflexivity|].
  assert (CloudflareToml.plain_dir CloudflareToml.sample_dir = true) as Hdir
    by (vm_compute; reflexivity).
  assert (CloudflareToml.plain_response CloudflareToml.sample_response = true)
    as Hplain by (vm_compute; reflexivity).
  assert (CloudflareToml.apart_from_sources CloudflareToml.sample_dir = true)
    as Hapart by (vm_compute; reflexivity).
  rewrite (proj1 (script_stays_in_models_dir CloudflareToml.sampleShell
                    CloudflareToml.sample_dir _ _ _ _
                    Hdir Hapart Hplain Hmain)); reflexivity.
Defined.

Lemma every_entry_accounted_for_witness :
  exists s,
    @CloudflareToml.main CloudflareToml.sampleShell CloudflareToml.sample_dir
      (Some CloudflareToml.sample_response) CloudflareToml.sample_tree
      (Some CloudflareNames.sample_names) = Some s /\
    CloudflareToml.s_skipped s = 1%nat.
Proof.
  destruct (@CloudflareToml.main CloudflareToml.sampleShell CloudflareToml.sample_dir
              (Some CloudflareToml.sample_response) CloudflareToml.sample_tree
              (Some CloudflareNames.sample_names)) as [s|] eqn:Hmain;
    [|vm_compute in Hmain; discriminate Hmain].
  exists s. split; [reflexivity|].
  rewrite (proj1 (every_entry_accounted_for CloudflareToml.sampleShell
                    CloudflareToml.sample_dir _ _ _ _ Hmain)).
  reflexivity.
Defined.

Lemma generated_models_present_witness :
  exists s,
    @CloudflareToml.main CloudflareToml.sampleShell CloudflareToml.sample_dir
      (Some CloudflareToml.sample_response) CloudflareToml.sample_tree
      (Some CloudflareNames.sample_names) = Some s /\
    is_Some (CloudflareToml.s_files s
             !! "/repo/providers/cloudflare-ai-gateway/models/workers-ai/@cf/meta/llama-3-8b.toml").
Proof.
  destruct (@CloudflareToml.main CloudflareToml.sampleShell CloudflareToml.sample_dir
              (Some CloudflareToml.sample_response) CloudflareToml.sample_tree
              (Some CloudflareNames.sample_names)) as [s|] eqn:Hmain;
    [|vm_compute in Hmain; discriminate Hmain].
  exists s. split; [reflexivity|].
  assert (CloudflareToml.plain_dir CloudflareToml.sample_dir = true) as Hdir
    by (vm_compute; reflexivity).
  assert (CloudflareToml.plain_response CloudflareToml.sample_response = true)
    as Hplain by (vm_compute; reflexivity).
  apply (generated_models_present CloudflareToml.sampleShell CloudflareToml.sample_dir
           _ _ _ _
           (CloudflareToml.sample_entry "workers-ai/@cf/meta/llama-3-8b" "0.000003")
           Hdir Hplain Hmain).
  - by left.
  - split_and!; [discriminate|discriminate|reflexivity].
  - vm_compute. intuition discriminate.
Defined.

(** The sample run: the Workers AI model is generated, the OpenAI model is
    copied from its source file, the file of the earlier response is
    removed and two model files are left. *)
Example sample_run_summary :
  (fun s => (CloudflareToml.s_generated s, CloudflareToml.s_cross_referenced s,
             CloudflareToml.s_skipped s, CloudflareToml.s_removed s,
             CloudflareToml.FINAL_COUNT s))
  <$> @CloudflareToml.main CloudflareToml.sampleShell CloudflareToml.sample_dir
        (Some CloudflareToml.sample_response) CloudflareToml.sample_tree
        (Some CloudflareNames.sample_names)
  = Some (1, 1, 1, 1, 2)%nat.
Proof. vm_compute. reflexivity. Qed.
